(** * Baby growth tracker (weight.py): the update handler, the record store
    and the chart builder, embedded in Rocq.

    The program is a Dash callback over a pandas frame held in a module
    global and mirrored to a CSV blob.  The embedding keeps that shape:
    - Python exceptions are the [Raise] outcome of [result];
    - the global [df] and the blob container form the [world] the callback
      is run in; the world is kept when the callback raises, as the
      assignment [global df] is in Python;
    - a frame is its column labels and its rows of cells;
    - the library calls the source makes (datetime.strptime, pd.DataFrame,
      pd.concat, pd.to_datetime, DataFrame.to_csv, pd.read_csv,
      pd.to_numeric) are functions of the same name, written out for the
      values this program handles, as pandas 2.2 and CPython have them.
      Each says in its comment on which inputs it is exact; the properties
      below name those inputs in their hypotheses. *)

From Stdlib Require Import String Ascii List ZArith NArith Bool Lia.
From Stdlib Require Import Decimal DecimalString DecimalPos DecimalN.
Import ListNotations.

#[local] Open Scope string_scope.
#[local] Open Scope Z_scope.

(** ** Python outcomes *)

Inductive exn : Type :=
| KeyError (key : string)
| ValueError (msg : string)
| AttributeError (msg : string)
| ResourceNotFoundError (blob : string)
| EmptyDataError
| ParserError (msg : string)
| OutOfBoundsDatetime (msg : string).

Inductive result (A : Type) : Type :=
| Ok (a : A)
| Raise (e : exn).
Arguments Ok {A} a.
Arguments Raise {A} e.

Definition rbind {A B} (r : result A) (k : A -> result B) : result B :=
  match r with
  | Ok a => k a
  | Raise e => Raise e
  end.

Definition orelse {T} (x y : option T) : option T :=
  match x with
  | Some _ => x
  | None => y
  end.

(** ** datetime: calendar dates, strptime and the day difference *)

Module Calendar.

(** A [datetime] at midnight without time zone, which is all
    [strptime(_, '%Y-%m-%d')] produces. *)
Record date : Type := mkdate { year : Z; month : Z; day : Z }.

Definition is_leap (y : Z) : bool :=
  (y mod 4 =? 0) && (negb (y mod 100 =? 0) || (y mod 400 =? 0)).

Definition days_in_month (y m : Z) : Z :=
  match m with
  | 1 => 31 | 2 => if is_leap y then 29 else 28 | 3 => 31 | 4 => 30
  | 5 => 31 | 6 => 30 | 7 => 31 | 8 => 31 | 9 => 30 | 10 => 31
  | 11 => 30 | 12 => 31
  | _ => 0
  end.

(** datetime._days_before_year *)
Definition days_before_year (y : Z) : Z :=
  let y' := y - 1 in y' * 365 + y' / 4 - y' / 100 + y' / 400.

(** datetime._days_before_month: the table _DAYS_BEFORE_MONTH plus the leap
    day. *)
Definition days_before_month (y m : Z) : Z :=
  match m with
  | 1 => 0 | 2 => 31 | 3 => 59 | 4 => 90 | 5 => 120 | 6 => 151 | 7 => 181
  | 8 => 212 | 9 => 243 | 10 => 273 | 11 => 304 | 12 => 334
  | _ => 0
  end + (if (2 <? m) && is_leap y then 1 else 0).

(** datetime._ymd2ord, the proleptic Gregorian ordinal (1 = 0001-01-01). *)
Definition toordinal (d : date) : Z :=
  days_before_year (year d) + days_before_month (year d) (month d) + day d.

(** [(a - b).days] for two datetimes at midnight. *)
Definition sub_days (a b : date) : Z := toordinal a - toordinal b.

(** [a] is an earlier day of the calendar than [b]. *)
Definition before (a b : date) : Prop :=
  year a < year b
  \/ (year a = year b
      /\ (month a < month b \/ (month a = month b /\ day a < day b))).

Definition valid (d : date) : bool :=
  (1 <=? year d) && (year d <=? 9999) &&
  (1 <=? month d) && (month d <=? 12) &&
  (1 <=? day d) && (day d <=? days_in_month (year d) (month d)).

(** [d] names a day of a month, whatever the year. *)
Definition day_of_month (d : date) : bool :=
  (1 <=? month d) && (month d <=? 12) &&
  (1 <=? day d) && (day d <=? days_in_month (year d) (month d)).

(** The day after [d], by the lengths of the months: the calendar the
    spec counts whole days in. *)
Definition next_day (d : date) : date :=
  if day d <? days_in_month (year d) (month d)
  then mkdate (year d) (month d) (day d + 1)
  else if month d <? 12 then mkdate (year d) (month d + 1) 1
  else mkdate (year d + 1) 1 1.

(** The day [n] days after [d]. *)
Fixpoint days_later (n : nat) (d : date) : date :=
  match n with
  | O => d
  | S n => next_day (days_later n d)
  end.

(** A decimal digit.  Strings are byte strings here: a text with a
    character outside ASCII, in which Python's [\d] and [int] also take
    the decimal digits of other scripts, is not modelled, and the
    properties of strptime below are stated for ASCII text. *)
Definition digit (c : ascii) : option Z :=
  let n := Z.of_nat (nat_of_ascii c) in
  if (48 <=? n) && (n <=? 57) then Some (n - 48) else None.

Definition digit_char (n : Z) : ascii := ascii_of_nat (Z.to_nat (48 + n)).

(** The regular expression _strptime compiles '%Y-%m-%d' to:
    [(?P<Y>\d\d\d\d)-(?P<m>1[0-2]|0[1-9]|[1-9])-(?P<d>3[01]|[12]\d|0[1-9]|[1-9]| [1-9])].
    Each piece takes the continuation that matches the rest, so that
    alternatives are tried in order and backtracked into as [re.match]
    does. *)
Section Regex.
Context {T : Type}.

Definition re_lit (c : ascii) (s : string) (k : string -> option T) : option T :=
  match s with
  | String a r => if Ascii.eqb a c then k r else None
  | EmptyString => None
  end.

Definition re_Y (s : string) (k : Z -> string -> option T) : option T :=
  match s with
  | String a (String b (String c (String d r))) =>
      match digit a, digit b, digit c, digit d with
      | Some a, Some b, Some c, Some d =>
          k (1000 * a + 100 * b + 10 * c + d) r
      | _, _, _, _ => None
      end
  | _ => None
  end.

(** two characters: a fixed tens digit [t] and a units digit in [lo..hi] *)
Definition re_two (t lo hi : Z) (s : string) (k : Z -> string -> option T)
  : option T :=
  match s with
  | String a (String b r) =>
      match digit a, digit b with
      | Some a, Some b =>
          if (a =? t) && (lo <=? b) && (b <=? hi) then k (10 * a + b) r
          else None
      | _, _ => None
      end
  | _ => None
  end.

(** one character in [1-9] *)
Definition re_one (s : string) (k : Z -> string -> option T) : option T :=
  match s with
  | String a r =>
      match digit a with
      | Some a => if 1 <=? a then k a r else None
      | None => None
      end
  | EmptyString => None
  end.

Definition re_m (s : string) (k : Z -> string -> option T) : option T :=
  orelse (re_two 1 0 2 s k) (orelse (re_two 0 1 9 s k) (re_one s k)).

Definition re_d (s : string) (k : Z -> string -> option T) : option T :=
  orelse (re_two 3 0 1 s k)
    (orelse (re_two 1 0 9 s k)
       (orelse (re_two 2 0 9 s k)
          (orelse (re_two 0 1 9 s k)
             (orelse (re_one s k) (re_lit " " s (fun r => re_one r k)))))).
End Regex.

Definition re_Ymd (s : string) : option (Z * Z * Z * string) :=
  re_Y s (fun y r =>
  re_lit "-" r (fun r =>
  re_m r (fun m r =>
  re_lit "-" r (fun r =>
  re_d r (fun d r => Some (y, m, d, r)))))).

(** [datetime.strptime(s, '%Y-%m-%d')]: the format is the one the program
    passes.  The match must cover the whole string, and the fields must
    name a day of the calendar (years 1 to 9999). *)
Definition strptime (s : string) : result date :=
  match re_Ymd s with
  | None => Raise (ValueError "time data does not match format '%Y-%m-%d'")
  | Some (y, m, d, EmptyString) =>
      if valid (mkdate y m d) then Ok (mkdate y m d)
      else Raise (ValueError "day is out of range for month")
  | Some (_, _, _, String _ _) => Raise (ValueError "unconverted data remains")
  end.

Definition pad2 (n : Z) : string :=
  String (digit_char (n / 10)) (String (digit_char (n mod 10)) EmptyString).

Definition pad4 (n : Z) : string :=
  String (digit_char (n / 1000))
    (String (digit_char (n / 100 mod 10)) (pad2 (n mod 100))).

(** The date as '%Y-%m-%d' text, as a datetime64 column is written by
    to_csv when no cell has a time of day. *)
Definition isoformat (d : date) : string :=
  pad4 (year d) ++ "-" ++ pad2 (month d) ++ "-" ++ pad2 (day d).

End Calendar.


(** ** Characters of a text *)

Fixpoint all_chars (p : ascii -> bool) (s : string) : bool :=
  match s with
  | EmptyString => true
  | String c r => p c && all_chars p r
  end.

Definition is_digit (c : ascii) : bool :=
  match Calendar.digit c with
  | Some _ => true
  | None => false
  end.

(** Every character of the text is an ASCII character. *)
Definition is_ascii (s : string) : bool :=
  all_chars (fun c => Nat.ltb (nat_of_ascii c) 128) s.

(** Cuts a string at the first occurrence of [c]: what stands before it
    and, when [c] occurs, what stands after. *)
Fixpoint cut (c : ascii) (s : string) : string * option string :=
  match s with
  | EmptyString => (EmptyString, None)
  | String a r =>
      if Ascii.eqb a c then (EmptyString, Some r)
      else let (h, t) := cut c r in (String a h, t)
  end.

(** The characters a number or a date is written with. *)
Definition plain_char (c : ascii) : bool :=
  is_digit c || Ascii.eqb c "-" || Ascii.eqb c ".".

(** The characters a date with a time is written with. *)
Definition date_char (c : ascii) : bool :=
  plain_char c || Ascii.eqb c "T" || Ascii.eqb c " " || Ascii.eqb c ":".

(** ** Numbers

    A cell holds a Python int or float; the program does no arithmetic on
    them except the day difference, it stores, prints and reads them.  A
    number is therefore kept as the decimal it denotes: sign, integer part
    and the digits after the point up to the last non-zero one, so that
    [4], [4.0] and [4.00] are one value, and a float is the decimal its
    repr shows.  An int64 and a float64 of the same value are not told
    apart.  The decimal is what the cell holds exactly when it is [short]:
    at most 15 significant digits, which every float64 keeps and every
    int64 holds; the properties that take a number through a CSV or
    through to_numeric are stated for such numbers. *)

Module Number.

Inductive nzdigit : Type := N1 | N2 | N3 | N4 | N5 | N6 | N7 | N8 | N9.
Inductive fdigit : Type := F0 | FNZ (d : nzdigit).

(** The digits after the point; the last one is not zero. *)
Inductive fraction : Type :=
| Last (d : nzdigit)
| More (d : fdigit) (f : fraction).

Record t : Type :=
  mknum { neg : bool; int_part : N; frac : option fraction }.

Definition of_Z (z : Z) : t :=
  mknum (z <? 0) (Z.abs_N z) None.

(** The number of digits of the decimal, before and after the point. *)
Fixpoint fraction_digits (f : fraction) : nat :=
  match f with
  | Last _ => 1
  | More _ f => S (fraction_digits f)
  end.

Definition digits (n : t) : nat :=
  String.length (NilZero.string_of_uint (N.to_uint (int_part n)))
  + match frac n with
    | None => 0
    | Some f => fraction_digits f
    end.

(** At most 15 digits: the decimal is kept by a float64 as written. *)
Definition short (n : t) : bool := Nat.leb (digits n) 15.

(** [n <= 0] *)
Definition nonpositive (n : t) : bool :=
  neg n || (N.eqb (int_part n) 0 && match frac n with None => true | Some _ => false end).

Definition nz_char (d : nzdigit) : ascii :=
  match d with
  | N1 => "1" | N2 => "2" | N3 => "3" | N4 => "4" | N5 => "5"
  | N6 => "6" | N7 => "7" | N8 => "8" | N9 => "9"
  end%char.

Definition fdigit_char (d : fdigit) : ascii :=
  match d with
  | F0 => "0"%char
  | FNZ d => nz_char d
  end.

Definition fdigit_of_char (c : ascii) : option fdigit :=
  match c with
  | "0" => Some F0
  | "1" => Some (FNZ N1) | "2" => Some (FNZ N2) | "3" => Some (FNZ N3)
  | "4" => Some (FNZ N4) | "5" => Some (FNZ N5) | "6" => Some (FNZ N6)
  | "7" => Some (FNZ N7) | "8" => Some (FNZ N8) | "9" => Some (FNZ N9)
  | _ => None
  end%char.

Fixpoint string_of_fraction (f : fraction) : string :=
  match f with
  | Last d => String (nz_char d) EmptyString
  | More d f => String (fdigit_char d) (string_of_fraction f)
  end.

(** Reads the digits after the point and drops the trailing zeros; [None]
    when a character is not a digit. *)
Fixpoint fraction_of_string (s : string) : option (option fraction) :=
  match s with
  | EmptyString => Some None
  | String c r =>
      match fdigit_of_char c, fraction_of_string r with
      | Some d, Some (Some f) => Some (Some (More d f))
      | Some (FNZ d), Some None => Some (Some (Last d))
      | Some F0, Some None => Some None
      | _, _ => None
      end
  end.

(** The text of a number: the decimal without exponent.  to_csv writes
    this text for an int64, and for a float64 with a fraction whose
    magnitude is between 1e-4 and 1e16; it writes a whole float64 with a
    trailing [.0] and the other floats with an exponent.  Either text reads
    back as the same number. *)
Definition to_string (n : t) : string :=
  (if neg n then "-" else "")
  ++ NilZero.string_of_uint (N.to_uint (int_part n))
  ++ match frac n with
     | None => ""
     | Some f => "." ++ string_of_fraction f
     end.

Definition unsigned_of_string (ng : bool) (s : string) : option t :=
  let (ip, fp) := cut "." s in
  match NilZero.uint_of_string ip with
  | None => None
  | Some u =>
      match fp with
      | None => Some (mknum ng (N.of_uint u) None)
      | Some fs =>
          match fraction_of_string fs with
          | Some f => Some (mknum ng (N.of_uint u) f)
          | None => None
          end
      end
  end.

(** The decimal literals the C parser of pandas reads as a number:
    an optional sign, digits, and optionally a point and digits.
    Exponents, infinities and blanks, which it reads too, are left out:
    such a text is taken as not a number. *)
Definition of_string (s : string) : option t :=
  match s with
  | String "-" r => unsigned_of_string true r
  | String "+" r => unsigned_of_string false r
  | _ => unsigned_of_string false s
  end.

End Number.


(** ** Cells, JSON values and frames *)

(** What a cell of a frame holds.  [NaN] stands for every missing value
    (None, NaN, NaT).  [Timestamp d] is a datetime at midnight: a pandas
    Timestamp when [d] is within the range of datetime64[ns], and the
    Python datetime itself, which only a column of dtype object holds,
    when it is not. *)
Inductive value : Type :=
| NaN
| Num (n : Number.t)
| Str (s : string)
| Timestamp (d : Calendar.date).

(** The values the DataTable sends in the cells of its rows. *)
Inductive json : Type :=
| JNull
| JNum (n : Number.t)
| JStr (s : string).

(** A row of the DataTable, and a row of [to_dict('records')]: a dict from
    column id to cell, in insertion order. *)
Definition record : Type := list (string * json).

Definition of_json (j : json) : value :=
  match j with
  | JNull => NaN
  | JNum n => Num n
  | JStr s => Str s
  end.

Fixpoint dict_get {A} (k : string) (d : list (string * A)) : option A :=
  match d with
  | [] => None
  | (k', v) :: r => if String.eqb k' k then Some v else dict_get k r
  end.

(** The cell a row of the table gives under label [c]: what the dict holds
    there, missing when it has no such key. *)
Definition cell_of (r : record) (c : string) : value :=
  match dict_get c r with
  | Some j => of_json j
  | None => NaN
  end.

(** Keeps the first occurrence of each label, in order. *)
Fixpoint unique (l : list string) : list string :=
  match l with
  | [] => []
  | x :: r => x :: filter (fun y => negb (String.eqb y x)) (unique r)
  end.

(** Index.get_loc *)
Fixpoint get_loc (c : string) (cols : list string) : option nat :=
  match cols with
  | [] => None
  | x :: r => if String.eqb x c then Some O else option_map S (get_loc c r)
  end.

Fixpoint set_nth {A} (i : nat) (l : list A) (v : A) : list A :=
  match l, i with
  | [], _ => []
  | _ :: r, O => v :: r
  | x :: r, S i => x :: set_nth i r v
  end.

Fixpoint mapM {A B} (f : A -> result B) (l : list A) : result (list B) :=
  match l with
  | [] => Ok []
  | x :: r =>
      match f x with
      | Raise e => Raise e
      | Ok y =>
          match mapM f r with
          | Raise e => Raise e
          | Ok ys => Ok (y :: ys)
          end
      end
  end.

Module pd.

(** A frame: the column labels and the rows, each row one cell per
    column.  The row index is the default range index throughout the
    program (index=False, ignore_index=True), so it is not kept. *)
Record DataFrame : Type :=
  mkframe { columns : list string; values : list (list value) }.

(** The cell of [row] under label [c]; missing when the frame has no such
    column. *)
Definition at_label (cols : list string) (row : list value) (c : string) : value :=
  match get_loc c cols with
  | Some i => nth i row NaN
  | None => NaN
  end.

(** [pd.DataFrame(columns=[...])] *)
Definition DataFrame_columns (cols : list string) : DataFrame :=
  mkframe cols [].

(** [pd.DataFrame(records)] for a list of dicts: the columns are the keys
    in order of first appearance, a key a row lacks gives a missing cell. *)
Definition DataFrame_records (data : list record) : DataFrame :=
  let cols := unique (flat_map (map fst) data) in
  mkframe cols (map (fun r => map (cell_of r) cols) data).

(** [pd.DataFrame({label: [cells], ...})] for a dict of lists. *)
Definition DataFrame_dict (data : list (string * list value)) : result DataFrame :=
  let n := match data with
           | [] => O
           | (_, col) :: _ => length col
           end in
  if forallb (fun kc => Nat.eqb (length (snd kc)) n) data
  then Ok (mkframe (map fst data)
             (map (fun i => map (fun kc => nth i (snd kc) NaN) data) (seq 0 n)))
  else Raise (ValueError "All arrays must be of the same length").

(** [df.empty]: some axis has length 0. *)
Definition empty (d : DataFrame) : bool :=
  Nat.eqb (length (columns d)) 0 || Nat.eqb (length (values d)) 0.

(** [df[c]] *)
Definition getitem (d : DataFrame) (c : string) : result (list value) :=
  match get_loc c (columns d) with
  | Some i => Ok (map (fun row => nth i row NaN) (values d))
  | None => Raise (KeyError c)
  end.

(** [df[c] = col] *)
Definition setitem (d : DataFrame) (c : string) (col : list value)
  : result DataFrame :=
  if Nat.eqb (length col) (length (values d)) then
    match get_loc c (columns d) with
    | Some i =>
        Ok (mkframe (columns d)
              (map (fun rv => set_nth i (fst rv) (snd rv))
                 (combine (values d) col)))
    | None =>
        Ok (mkframe (columns d ++ [c])%list
              (map (fun rv => (fst rv ++ [snd rv])%list) (combine (values d) col)))
    end
  else Raise (ValueError "Length of values does not match length of index").

Definition reindex (cols newcols : list string) (row : list value) : list value :=
  map (at_label cols row) newcols.

(** [pd.concat(objs, ignore_index=True)]: rows below one another, over the
    union of the columns in order of first appearance; a column a frame
    lacks is missing in its rows. *)
Definition concat (objs : list DataFrame) : result DataFrame :=
  match objs with
  | [] => Raise (ValueError "No objects to concatenate")
  | _ =>
      let cols := unique (flat_map columns objs) in
      Ok (mkframe cols
            (flat_map (fun d => map (reindex (columns d) cols) (values d)) objs))
  end.

Definition two_digits {T} (s : string) (k : Z -> string -> option T) : option T :=
  match s with
  | String a (String b r) =>
      match Calendar.digit a, Calendar.digit b with
      | Some a, Some b => k (10 * a + b) r
      | _, _ => None
      end
  | _ => None
  end.

(** *** pd.to_datetime

    A datetime64[ns] value counts nanoseconds from 1970-01-01 in an int64
    whose least value stands for NaT. *)

Definition epoch_ordinal : Z := 719163.

(** The day [d] at midnight is within the bounds of datetime64[ns]. *)
Definition in_bounds (d : Calendar.date) : bool :=
  let ns := (Calendar.toordinal d - epoch_ordinal) * 86400 * 1000000000 in
  (- 2 ^ 63 <? ns) && (ns <? 2 ^ 63).

(** The spellings of a date at midnight that occur in this program: the
    date alone, as to_csv writes a datetime64 column and as a date picker
    gives it; followed by T00:00:00, as the JSON encoder of Dash writes a
    Timestamp for the table; followed by a blank and 00:00:00, as to_csv
    writes a Timestamp in a column of dtype object. *)
Inductive spelling : Type := DateOnly | DateT | DateBlank.

Definition spelling_eqb (a b : spelling) : bool :=
  match a, b with
  | DateOnly, DateOnly | DateT, DateT | DateBlank, DateBlank => true
  | _, _ => false
  end.

Definition time_text (f : spelling) : string :=
  match f with
  | DateOnly => ""
  | DateT => "T00:00:00"
  | DateBlank => " 00:00:00"
  end.

Definition spelling_of (rest : string) : option spelling :=
  if String.eqb rest "" then Some DateOnly
  else if String.eqb rest "T00:00:00" then Some DateT
  else if String.eqb rest " 00:00:00" then Some DateBlank
  else None.

(** A text YYYY-MM-DD of a day of the calendar in one of the three
    spellings: the spelling and the day. *)
Definition read_iso (s : string) : option (spelling * Calendar.date) :=
  Calendar.re_Y s (fun y r =>
  Calendar.re_lit "-" r (fun r =>
  two_digits r (fun m r =>
  Calendar.re_lit "-" r (fun r =>
  two_digits r (fun d r =>
    match spelling_of r with
    | Some f =>
        if Calendar.valid (Calendar.mkdate y m d)
        then Some (f, Calendar.mkdate y m d) else None
    | None => None
    end))))).

(** The texts to_datetime takes for a missing date. *)
Definition nat_strings : list string :=
  ["NaT"; "nat"; "NAT"; "nan"; "NaN"; "NAN"].

Definition is_nat_text (s : string) : bool :=
  String.eqb s "" || existsb (String.eqb s) nat_strings.

Definition missing (v : value) : bool :=
  match v with
  | NaN => true
  | Str s => is_nat_text s
  | Num _ | Timestamp _ => false
  end.

Definition out_of_bounds : exn :=
  OutOfBoundsDatetime "Out of bounds nanosecond timestamp".

Definition no_match : exn := ValueError "time data doesn't match format".

(** A cell of a column that is read in the spelling [f]. *)
Definition to_datetime_cell (f : spelling) (v : value) : result value :=
  match v with
  | NaN => Ok NaN
  | Timestamp d => if in_bounds d then Ok (Timestamp d) else Raise out_of_bounds
  | Str s =>
      if is_nat_text s then Ok NaN
      else
        match read_iso s with
        | Some (f', d) =>
            if spelling_eqb f' f then
              if in_bounds d then Ok (Timestamp d) else Raise out_of_bounds
            else Raise no_match
        | None => Raise no_match
        end
  | Num _ => Raise no_match
  end.

(** [pd.to_datetime(col)] with errors='raise'.  pandas takes the format of
    the column from its first cell that is not missing and reads every
    cell in that format, so that a column of two spellings raises; a day
    outside the bounds of datetime64[ns] raises OutOfBoundsDatetime.

    The model is exact on the columns this program makes of its own data:
    missing cells and texts of days of the calendar at midnight, all in
    one of the three spellings.  pandas reads more than that: other
    spellings (2024/02/01), times of day, and numbers, which it takes for
    nanoseconds since 1970.  Such a column is outside the model, where it
    counts as raising; the properties below that speak of parsing or of
    raising are stated for columns inside it. *)
Definition to_datetime (col : list value) : result (list value) :=
  match filter (fun v => negb (missing v)) col with
  | [] => Ok (map (fun _ => NaN) col)
  | Str s :: _ =>
      match read_iso s with
      | Some (f, _) => mapM (to_datetime_cell f) col
      | None => Raise (ValueError "Unknown datetime string format")
      end
  | Timestamp _ :: _ => mapM (to_datetime_cell DateOnly) col
  | _ :: _ => Raise (ValueError "Unknown datetime string format")
  end.

(** [df.to_dict('records')] *)
Definition to_dict_records (d : DataFrame) : list (list (string * value)) :=
  map (fun row => combine (columns d) row) (values d).

Definition join (sep : string) (fields : list string) : string :=
  String.concat sep fields.

Definition newline : string := String (ascii_of_nat 10) EmptyString.

(** The column is of dtype datetime64[ns]: its cells are missing or
    Timestamps.  A column that holds a text, a number or a datetime outside
    the bounds is of dtype object. *)
Definition datetime64 (col : list value) : bool :=
  forallb (fun v => match v with
                    | NaN => true
                    | Timestamp d => in_bounds d
                    | Num _ | Str _ => false
                    end) col.

(** The text of a cell in the CSV; [dt64] says whether its column is of
    dtype datetime64[ns].  A missing value is the empty field.  A
    datetime64 column none of whose cells has a time of day is written as
    dates; in a column of dtype object a Timestamp or datetime is written
    by its [str], date and time.  Fields are written unquoted: dates and
    numbers hold no separator, quote or line break (a text cell that holds
    one, which to_csv quotes, is not modelled). *)
Definition csv_field (dt64 : bool) (v : value) : string :=
  match v with
  | NaN => ""
  | Num n => Number.to_string n
  | Str s => s
  | Timestamp d =>
      if dt64 then Calendar.isoformat d
      else Calendar.isoformat d ++ time_text DateBlank
  end.

(** The dtype flag of every column of a frame. *)
Definition datetime64_columns (d : DataFrame) : list bool :=
  map (fun i => datetime64 (map (fun row => nth i row NaN) (values d)))
    (seq 0 (length (columns d))).

Definition csv_row (flags : list bool) (row : list value) : list string :=
  map (fun fv => csv_field (fst fv) (snd fv)) (combine flags row).

(** [df.to_csv(index=False)]: the header, then one line per row. *)
Definition to_csv (d : DataFrame) : string :=
  String.concat ""
    (map (fun fields => join "," fields ++ newline)
       (columns d :: map (csv_row (datetime64_columns d)) (values d))).

(** [s.split(sep)] for a separator of one character. *)
Fixpoint split (sep : ascii) (s : string) : list string :=
  match s with
  | EmptyString => [EmptyString]
  | String a r =>
      if Ascii.eqb a sep then EmptyString :: split sep r
      else match split sep r with
           | h :: t => String a h :: t
           | [] => [String a EmptyString]
           end
  end.

(** The default na_values of read_csv. *)
Definition na_values : list string :=
  [""; "#N/A"; "#N/A N/A"; "#NA"; "-1.#IND"; "-1.#QNAN"; "-NaN"; "-nan";
   "1.#IND"; "1.#QNAN"; "<NA>"; "N/A"; "NA"; "NULL"; "NaN"; "None"; "n/a";
   "nan"; "null"].

Definition is_na (s : string) : bool := existsb (String.eqb s) na_values.

Definition is_numeric (s : string) : bool :=
  match Number.of_string s with
  | Some _ => true
  | None => false
  end.

(** A field of a column read as numbers or as text. *)
Definition read_field (numeric : bool) (s : string) : value :=
  if is_na s then NaN
  else if numeric then
    match Number.of_string s with
    | Some n => Num n
    | None => NaN
    end
  else Str s.

(** [pd.read_csv(io.StringIO(text), sep=sep)].  The first line that is not
    blank is the header; a short row is filled with missing cells; a column
    is numeric when every field of it that is not missing reads as a number
    and text otherwise.

    The model is exact on the texts this program reads of its own making:
    unquoted fields, lines that end in a line feed, no row longer than the
    header, labels that differ, numbers as [Number.of_string] reads them.
    pandas reads more: quoted fields, lines that end in CR LF, rows one
    field longer than the header (whose first field it takes for the
    index), repeated labels (which it renames), booleans, and whole
    numbers that no int64 holds (a column of which it reads as uint64 or
    as text).  Such a text is outside the model; the properties below apply read_csv to the text of
    [to_csv] and to reference tables written out field by field. *)
Definition read_csv (text : string) (sep : ascii) : result DataFrame :=
  match filter (fun l => negb (String.eqb l "")) (split (ascii_of_nat 10) text) with
  | [] => Raise EmptyDataError
  | header :: lines =>
      let cols := split sep header in
      let n := length cols in
      let rows := map (split sep) lines in
      if existsb (fun r => Nat.ltb n (length r)) rows
      then Raise (ParserError "Error tokenizing data")
      else
        let numeric :=
          map (fun i => forallb (fun r => let s := nth i r "" in
                                          is_na s || is_numeric s) rows)
            (seq 0 n) in
        Ok (mkframe cols
              (map (fun r => map (fun ib => read_field (snd ib)
                                              (nth (fst ib) r ""))
                               (combine (seq 0 n) numeric)) rows))
  end.

End pd.

(** ** Blob storage *)

(** The container: the blobs uploaded so far, the latest first; a name
    reads as its latest upload.  Storage is taken to accept every upload. *)
Definition container_client : Type := list (string * string).

Definition baby_growth_blob : string := "baby_growth_data.csv".
Definition who_data_blob : string := "tab_wfa_girls_p_0_13.csv".

Definition download_blob (blob_name : string) (c : container_client)
  : result string :=
  match dict_get blob_name c with
  | Some text => Ok text
  | None => Raise (ResourceNotFoundError blob_name)
  end.

Definition read_csv_from_blob (blob_name : string) (sep : ascii)
  (c : container_client) : result pd.DataFrame :=
  rbind (download_blob blob_name c) (fun text => pd.read_csv text sep).

Definition write_csv_to_blob (d : pd.DataFrame) (blob_name : string)
  (c : container_client) : container_client :=
  (blob_name, pd.to_csv d) :: c.

(** ** The reference table and the percentile curves *)

(** A percentile column of [who_data] as read_csv left it: text when some
    field is not a number (the comma decimals), numbers otherwise.  A
    missing field is [None] in both. *)
Inductive column : Type :=
| ObjectCol (cells : list (option string))
| NumericCol (cells : list (option Number.t)).

(** [who_data]: the week numbers, an int64 column, and the five percentile
    columns the program reads. *)
Record who_table : Type :=
  mkwho { Week : list Z; P5 : column; P10 : column; P50 : column;
          P90 : column; P95 : column }.

(** [str.replace(pat, repl)] for a pattern of one character. *)
Fixpoint str_replace (pat : ascii) (repl : string) (s : string) : string :=
  match s with
  | EmptyString => EmptyString
  | String a r =>
      if Ascii.eqb a pat then repl ++ str_replace pat repl r
      else String a (str_replace pat repl r)
  end.

(** [col.str.replace(pat, repl)]: the .str accessor is only there on text. *)
Definition col_str_replace (pat : ascii) (repl : string) (col : column)
  : result (list (option string)) :=
  match col with
  | ObjectCol cells => Ok (map (option_map (str_replace pat repl)) cells)
  | NumericCol _ =>
      Raise (AttributeError "Can only use .str accessor with string values!")
  end.

Definition to_numeric_cell (c : option string) : value :=
  match c with
  | None => NaN
  | Some s =>
      match Number.of_string s with
      | Some n => Num n
      | None => NaN
      end
  end.

(** [pd.to_numeric(col, errors='coerce').tolist()].  The texts read as a
    number are those of [Number.of_string]; pd.to_numeric also reads
    exponents, a point without digits before it and numbers between
    blanks, which are outside the model. *)
Definition to_numeric_coerce (col : list (option string)) : list value :=
  map to_numeric_cell col.

Definition percentile_of (col : column) : result (list value) :=
  rbind (col_str_replace "," "." col) (fun c => Ok (to_numeric_coerce c)).

(** The dict [percentiles], in the order of the literal. *)
Definition percentiles (who_data : who_table)
  : result (list (string * list value)) :=
  rbind (percentile_of (P5 who_data)) (fun p5 =>
  rbind (percentile_of (P10 who_data)) (fun p10 =>
  rbind (percentile_of (P50 who_data)) (fun p50 =>
  rbind (percentile_of (P90 who_data)) (fun p90 =>
  rbind (percentile_of (P95 who_data)) (fun p95 =>
  Ok [("5th", p5); ("10th", p10); ("50th", p50); ("90th", p90);
      ("95th", p95)]))))).

(** Arithmetic on an int64 column wraps around. *)
Definition int64_wrap (z : Z) : Z := (z + 2 ^ 63) mod 2 ^ 64 - 2 ^ 63.

(** [days = (who_data['Week']*7).tolist()] *)
Definition days (who_data : who_table) : list value :=
  map (fun w => Num (Number.of_Z (int64_wrap (w * 7)))) (Week who_data).

(** ** The chart *)

(** A colour as the source spells it: ['rgba(r,g,b,a)'] or a CSS name. *)
Inductive color : Type :=
| rgba (r g b : Z) (a : Number.t)
| css (name : string).

Definition alpha_0 : Number.t := Number.mknum false 0 None.
Definition alpha_0_3 : Number.t :=
  Number.mknum false 0 (Some (Number.Last Number.N3)).
Definition alpha_0_5 : Number.t :=
  Number.mknum false 0 (Some (Number.Last Number.N5)).

Record Line : Type := mkline { line_color : color; line_width : option Z }.

(** [go.Scatter(...)]: an attribute the call does not pass is [None]. *)
Record Scatter : Type :=
  mkscatter {
    x : list value;
    y : list value;
    fill : option string;
    fillcolor : option color;
    line : Line;
    hoverinfo : option string;
    showlegend : option bool;
    mode : option string;
    name : option string;
    marker_size : option Z }.

Record Layout : Type :=
  mklayout {
    title : string;
    xaxis_title : string;
    yaxis_title : string;
    legend_y : Number.t;
    legend_traceorder : string;
    legend_font_size : Z;
    hovermode : string }.

Record Figure : Type := mkfigure { data : list Scatter; layout : Layout }.

(** [fig.add_trace(t)] *)
Definition add_trace (fig : list Scatter) (t : Scatter) : list Scatter :=
  (fig ++ [t])%list.

Definition dict_getitem {A} (k : string) (d : list (string * A)) : result A :=
  match dict_get k d with
  | Some v => Ok v
  | None => Raise (KeyError k)
  end.

(** The band between two percentile curves: the age axis there and back,
    the upper curve and the lower curve reversed. *)
Definition band (days upper lower : list value) (shade : color) : Scatter :=
  mkscatter (days ++ List.rev days)%list (upper ++ List.rev lower)%list
    (Some "toself") (Some shade) (mkline (rgba 255 255 255 alpha_0) None)
    (Some "skip") (Some false) None None None.

Definition percentile_line (days : list value) (kv : string * list value)
  : Scatter :=
  mkscatter days (snd kv) None None (mkline (rgba 0 0 0 alpha_0_5) (Some 1))
    None None (Some "lines") (Some (fst kv ++ " Percentile")) None.

(** [update_chart()]; the globals it reads ([percentiles], [days], [df])
    are its arguments. *)
Definition update_chart (percentiles : list (string * list value))
  (days : list value) (df : pd.DataFrame) : result Figure :=
  let fig := [] in
  (* Fill between 5th and 95th percentile with light grey *)
  rbind (dict_getitem "95th" percentiles) (fun p95 =>
  rbind (dict_getitem "5th" percentiles) (fun p5 =>
  let fig := add_trace fig (band days p95 p5 (rgba 200 200 200 alpha_0_3)) in
  (* Fill between 10th and 90th percentile with darker grey *)
  rbind (dict_getitem "90th" percentiles) (fun p90 =>
  rbind (dict_getitem "10th" percentiles) (fun p10 =>
  let fig := add_trace fig (band days p90 p10 (rgba 150 150 150 alpha_0_3)) in
  (* Add percentile lines *)
  let fig := fold_left (fun fig kv => add_trace fig (percentile_line days kv))
               percentiles fig in
  rbind (if negb (pd.empty df) then
           rbind (pd.getitem df "Age_Days") (fun ages =>
           rbind (pd.getitem df "Weight_kg") (fun weights =>
           Ok (add_trace fig
                 (mkscatter ages weights None None
                    (mkline (css "red") (Some 2)) None None
                    (Some "lines+markers") (Some "Baby's Growth")
                    (Some 6)))))
         else Ok fig) (fun fig =>
  Ok (mkfigure fig
        (mklayout "Baby Growth Chart for Female Infants (WHO Standards)"
           "Age (days)" "Weight (kg)" alpha_0_5 "reversed" 16
           "x unified"))))))).

(** ** The callback *)

(** What the callback runs in: the module global [df] and the container. *)
Record world : Type :=
  mkworld { df : pd.DataFrame; container : container_client }.

(** A computation that reads and writes the world and may raise; the world
    it leaves is kept when it raises. *)
Definition M (A : Type) : Type := world -> result A * world.

Definition ret {A} (a : A) : M A := fun w => (Ok a, w).

Definition bind {A B} (m : M A) (k : A -> M B) : M B :=
  fun w =>
    match m w with
    | (Ok a, w') => k a w'
    | (Raise e, w') => (Raise e, w')
    end.

Definition lift {A} (r : result A) : M A := fun w => (r, w).

Definition get_df : M pd.DataFrame := fun w => (Ok (df w), w).

Definition set_df (d : pd.DataFrame) : M unit :=
  fun w => (Ok tt, mkworld d (container w)).

Definition upload (d : pd.DataFrame) (blob_name : string) : M unit :=
  fun w => (Ok tt, mkworld (df w) (write_csv_to_blob d blob_name (container w))).

Notation "x <- m ;; k" := (bind m (fun x => k))
  (at level 61, m at next level, right associativity).
Notation "m ;;; k" := (bind m (fun _ => k))
  (at level 61, right associativity).

(** Python truth of a string property that may be None. *)
Definition truthy (s : option string) : bool :=
  match s with
  | Some (String _ _) => true
  | _ => false
  end.

Definition is_not_None {A} (o : option A) : bool :=
  match o with
  | Some _ => true
  | None => false
  end.

(** The test of the first branch,
    [trigger_id == 'add-button' and dob and date and weight is not None];
    when it holds it gives the three inputs, the dates being non-empty
    strings. *)
Definition add_guard (trigger_id : string) (dob date : option string)
  (weight : option Number.t) : option (string * string * Number.t) :=
  if String.eqb trigger_id "add-button" then
    match dob, date, weight with
    | Some (String a r), Some (String b q), Some w =>
        Some (String a r, String b q, w)
    | _, _, _ => None
    end
  else None.

(** [prop_id.split('.')[0]] *)
Definition trigger_of (prop_id : string) : string :=
  fst (cut "." prop_id).

(** [update_data_and_chart(add_clicks, save_clicks, table_data, dob, date,
    weight)].  [prop_id] is [ctx.triggered[0]['prop_id']]; [percentiles] and
    [days] are the module globals computed at start. *)
Definition update_data_and_chart
  (percentiles : list (string * list value)) (days : list value)
  (prop_id : string)
  (add_clicks save_clicks : Z) (table_data : list record)
  (dob date : option string) (weight : option Number.t)
  : M (string * Figure * list (list (string * value))) :=
  let trigger_id := trigger_of prop_id in
  message <-
    match add_guard trigger_id dob date weight with
    | Some (dob, date, weight) =>
        dob <- lift (Calendar.strptime dob) ;;
        measurement_date <- lift (Calendar.strptime date) ;;
        let age_days := Calendar.sub_days measurement_date dob in
        new_record <- lift (pd.DataFrame_dict
                              [("Date", [Timestamp measurement_date]);
                               ("Age_Days", [Num (Number.of_Z age_days)]);
                               ("Weight_kg", [Num weight])]) ;;
        d <- get_df ;;
        d <- lift (pd.concat [d; new_record]) ;;
        set_df d ;;;
        upload d baby_growth_blob ;;;
        ret "Record added successfully!"
    | None =>
        if String.eqb trigger_id "save-button"
           || String.eqb trigger_id "data-table"
        then
          set_df (pd.DataFrame_records table_data) ;;;
          d <- get_df ;;
          col <- lift (pd.getitem d "Date") ;;
          col <- lift (pd.to_datetime col) ;;
          d <- lift (pd.setitem d "Date" col) ;;
          set_df d ;;;
          upload d baby_growth_blob ;;;
          ret "Changes saved successfully!"
        else ret "No changes made."
    end ;;
  d <- get_df ;;
  fig <- lift (update_chart percentiles days d) ;;
  d <- get_df ;;
  ret (message, fig, pd.to_dict_records d).

(** The module-level load of [df]: the stored CSV with its Date column
    parsed, or the empty frame of the three columns when anything in that
    raises. *)
Definition load_df (c : container_client) : pd.DataFrame :=
  match
    rbind (read_csv_from_blob baby_growth_blob "," c) (fun d =>
    rbind (pd.getitem d "Date") (fun col =>
    rbind (pd.to_datetime col) (fun col =>
    pd.setitem d "Date" col)))
  with
  | Ok d => d
  | Raise _ => pd.DataFrame_columns ["Date"; "Age_Days"; "Weight_kg"]
  end.

(** ** What the table is sent

    Dash serialises the rows the callback returns to JSON for the
    DataTable: a timestamp as its ISO 8601 text, a missing value as null.
    The table sends the rows back as [table_data] on the next edit. *)
Definition jsonify (v : value) : json :=
  match v with
  | NaN => JNull
  | Num n => JNum n
  | Str s => JStr s
  | Timestamp d => JStr (Calendar.isoformat d ++ "T00:00:00")
  end.

Definition table_rows (rows : list (list (string * value))) : list record :=
  map (map (fun kv => (fst kv, jsonify (snd kv)))) rows.

(** ** The persisted schema *)

Definition schema : list string := ["Date"; "Age_Days"; "Weight_kg"].

(** The row of a growth record under [schema]. *)
Definition record_row (d : Calendar.date) (age_days : Z) (weight : Number.t)
  : list value :=
  [Timestamp d; Num (Number.of_Z age_days); Num weight].

(** ** The traces every chart starts with *)

(** The dict [percentiles] holding the five given curves. *)
Definition curves (p5 p10 p50 p90 p95 : list value)
  : list (string * list value) :=
  [("5th", p5); ("10th", p10); ("50th", p50); ("90th", p90); ("95th", p95)].

(** ** A worked scenario: born 2024-01-01, weighed 4.2 kg on 2024-01-15 *)

Definition who_example : who_table :=
  mkwho [0; 1; 2]
    (ObjectCol [Some "2,5"; Some "2,6"; Some "2,8"])
    (ObjectCol [Some "2,7"; Some "2,8"; Some "3"])
    (ObjectCol [Some "3,2"; Some "3,3"; Some "3,6"])
    (ObjectCol [Some "3,9"; Some "4"; Some "4,3"])
    (ObjectCol [Some "4,0"; Some "4,2"; Some "4,5"]).

Definition curves_example : list (string * list value) :=
  match percentiles who_example with
  | Ok ps => ps
  | Raise _ => []
  end.

Definition kg_4_2 : Number.t :=
  Number.mknum false 4 (Some (Number.Last Number.N2)).

Definition kg_0 : Number.t := Number.of_Z 0.

(** The world after a start with no stored CSV. *)
Definition fresh_world : world := mkworld (pd.DataFrame_columns schema) [].

(** The world after the one record of the scenario was added. *)
Definition world_one_record : world :=
  snd (update_data_and_chart curves_example (days who_example)
         "add-button.n_clicks" 1 0 [] (Some "2024-01-01") (Some "2024-01-15")
         (Some kg_4_2) fresh_world).

(** A record of the data model: the date, the age in days and the
    weight. *)
Record GrowthRecord : Type :=
  mkrecord { rec_date : Calendar.date; rec_age_days : Z; rec_weight : Number.t }.

(** The row of the table for a record, the date written as [date]. *)
Definition schema_record (date : string) (age_days weight : Number.t) : record :=
  [("Date", JStr date); ("Age_Days", JNum age_days); ("Weight_kg", JNum weight)].

(** A record as the table sends it, the date as ISO text followed by
    [suffix] (nothing, or the time 00:00:00). *)
Definition table_record (suffix : string) (g : GrowthRecord) : record :=
  schema_record (Calendar.isoformat (rec_date g) ++ suffix)
    (Number.of_Z (rec_age_days g)) (rec_weight g).

(** A record as a row of the frame. *)
Definition frame_row (g : GrowthRecord) : list value :=
  record_row (rec_date g) (rec_age_days g) (rec_weight g).

(** The store holding the given records. *)
Definition store_of (rows : list GrowthRecord) : pd.DataFrame :=
  pd.mkframe schema (map frame_row rows).

(** The frame follows the persisted schema: the three columns, and in
    every row a date, a whole number of days and a number. *)
Definition follows_schema (d : pd.DataFrame) : bool :=
  (if list_eq_dec string_dec (pd.columns d) schema then true else false)
  && forallb (fun row =>
                match row with
                | [Timestamp dt; Num a; Num _] =>
                    Calendar.valid dt
                    && match Number.frac a with
                       | None => true
                       | Some _ => false
                       end
                | _ => false
                end) (pd.values d).

Definition kg_4_5 : Number.t :=
  Number.mknum false 4 (Some (Number.Last Number.N5)).

(** The world after every row of the table was deleted in
    [world_one_record]. *)
Definition world_rows_deleted : world :=
  snd (update_data_and_chart curves_example (days who_example)
         "data-table.data" 1 0 [] (Some "2024-01-01") (Some "2024-01-15")
         (Some kg_4_2) world_one_record).

(** ** The reference table *)

(** A number written with a decimal comma, as the reference table holds
    it. *)
Definition comma_decimal (n : Number.t) : string :=
  str_replace "." "," (Number.to_string n).

(** A reference table one of whose percentile columns holds no comma
    decimal, so that read_csv made it a column of numbers. *)
Definition who_whole_numbers : who_table :=
  mkwho [0; 1]
    (NumericCol [Some (Number.of_Z 2); Some (Number.of_Z 3)])
    (ObjectCol [Some "2,7"; Some "2,8"])
    (ObjectCol [Some "3,2"; Some "3,3"])
    (ObjectCol [Some "3,9"; Some "4,1"])
    (ObjectCol [Some "4,0"; Some "4,2"]).

(** ** What the table is sent back *)

(** What the table is sent of a frame. *)
Definition shown (d : pd.DataFrame) : list record :=
  table_rows (pd.to_dict_records d).

(** The spelling to_csv writes the dates of a store in: the date alone
    when the Date column is of dtype datetime64[ns], date and time when a
    date outside the bounds makes it a column of dtype object. *)
Definition written_spelling (rows : list GrowthRecord) : pd.spelling :=
  if forallb (fun g => pd.in_bounds (rec_date g)) rows
  then pd.DateOnly else pd.DateBlank.

(** A record the store keeps as it is and a CSV gives back: a day of the
    calendar within the bounds of datetime64[ns], and numbers of at most
    15 digits. *)
Definition storable (g : GrowthRecord) : bool :=
  Calendar.valid (rec_date g) && pd.in_bounds (rec_date g)
  && Number.short (Number.of_Z (rec_age_days g))
  && Number.short (rec_weight g).

(** The world after a second record, 4.5 kg on 2024-02-01, was added in
    [world_one_record]. *)
Definition world_two_records : world :=
  snd (update_data_and_chart curves_example (days who_example)
         "add-button.n_clicks" 2 0 [] (Some "2024-01-01") (Some "2024-02-01")
         (Some kg_4_5) world_one_record).

(** The world after a record dated 2300-01-01 was added in
    [world_one_record]. *)
Definition world_year_2300 : world :=
  snd (update_data_and_chart curves_example (days who_example)
         "add-button.n_clicks" 2 0 [] (Some "2024-01-01") (Some "2300-01-01")
         (Some kg_4_5) world_one_record).



(** ** The start of the program: lines 40 to 57

    At module level the program loads [df] ([load_df]), reads the
    reference table from its blob with [sep=';'], and computes the dict
    [percentiles] and the list [days] from the frame it read.  The
    definitions above take the reference table as a [who_table]; the ones
    here take it as the frame [read_csv] gives. *)

Definition is_number_cell (v : value) : bool :=
  match v with
  | Num _ | NaN => true
  | Str _ | Timestamp _ => false
  end.

(** The dtype of a column that read_csv read decides whether it has the
    .str accessor: a column with a field of text is of dtype object, a
    column of numbers and missing fields is numeric, and a column without
    rows is of dtype object. *)
Definition column_of (cells : list value) : column :=
  match cells with
  | [] => ObjectCol []
  | _ :: _ =>
      if forallb is_number_cell cells
      then NumericCol (map (fun v => match v with
                                     | Num n => Some n
                                     | _ => None
                                     end) cells)
      else ObjectCol (map (fun v => match v with
                                    | Str s => Some s
                                    | _ => None
                                    end) cells)
  end.

(** [pd.to_numeric(who_data[label].str.replace(',', '.'),
    errors='coerce').tolist()] *)
Definition frame_percentile (who_data : pd.DataFrame) (label : string)
  : result (list value) :=
  rbind (pd.getitem who_data label) (fun col => percentile_of (column_of col)).

(** The dict [percentiles] of lines 49 to 55, its values computed in the
    order of the literal. *)
Definition frame_percentiles (who_data : pd.DataFrame)
  : result (list (string * list value)) :=
  rbind (frame_percentile who_data "P5") (fun p5 =>
  rbind (frame_percentile who_data "P10") (fun p10 =>
  rbind (frame_percentile who_data "P50") (fun p50 =>
  rbind (frame_percentile who_data "P90") (fun p90 =>
  rbind (frame_percentile who_data "P95") (fun p95 =>
  Ok [("5th", p5); ("10th", p10); ("50th", p50); ("90th", p90);
      ("95th", p95)]))))).

(** A cell holding a whole number that an int64 holds. *)
Definition whole (v : value) : option Z :=
  match v with
  | Num n =>
      match Number.frac n with
      | None =>
          let z := if Number.neg n then - Z.of_N (Number.int_part n)
                   else Z.of_N (Number.int_part n) in
          if (- 2 ^ 63 <=? z) && (z <? 2 ^ 63) then Some z else None
      | Some _ => None
      end
  | _ => None
  end.

Fixpoint weeks_of (cells : list value) : option (list Z) :=
  match cells with
  | [] => Some []
  | v :: r =>
      match whole v, weeks_of r with
      | Some w, Some ws => Some (w :: ws)
      | _, _ => None
      end
  end.

(** [days = (who_data['Week']*7).tolist()] on a Week column of dtype
    int64, whose product wraps around.  On a column with a missing or
    broken week the product is a float product, on a column of text it
    repeats the text, and a whole number no int64 holds makes another
    dtype; none of these is modelled, and the result is then [None]. *)
Definition frame_days (who_data : pd.DataFrame)
  : result (option (list value)) :=
  rbind (pd.getitem who_data "Week") (fun col =>
  Ok (option_map (map (fun w => Num (Number.of_Z (int64_wrap (w * 7)))))
        (weeks_of col))).

(** What the module level has computed when the layout is built. *)
Record started : Type :=
  mkstarted { start_world : world;
              start_percentiles : list (string * list value);
              start_days : list value }.

(** Lines 40 to 57 in their order: the growth data, with the fallback of
    the try statement; the reference table, without one; the percentile
    curves; the age axis. *)
Definition start (c : container_client) : result (option started) :=
  let df := load_df c in
  rbind (read_csv_from_blob who_data_blob ";" c) (fun who_data =>
  rbind (frame_percentiles who_data) (fun percentiles =>
  rbind (frame_days who_data) (fun days =>
  Ok (option_map (mkstarted (mkworld df c) percentiles) days)))).

(** A row of the reference table: the week and the five percentiles. *)
Record who_row : Type :=
  mkwho_row { row_week : Z; row_p5 : Number.t; row_p10 : Number.t;
              row_p50 : Number.t; row_p90 : Number.t; row_p95 : Number.t }.

Definition who_header : string := "Week;P5;P10;P50;P90;P95".

(** The fields of a row as the reference CSV writes them: the week as a
    whole number, the percentiles with a decimal comma. *)
Definition who_fields (r : who_row) : list string :=
  [Number.to_string (Number.of_Z (row_week r)); comma_decimal (row_p5 r);
   comma_decimal (row_p10 r); comma_decimal (row_p50 r);
   comma_decimal (row_p90 r); comma_decimal (row_p95 r)].

(** The text of a reference CSV with the given rows. *)
Definition who_csv (rows : list who_row) : string :=
  String.concat ""
    (map (fun l => l ++ pd.newline)
       (who_header :: map (fun r => pd.join ";" (who_fields r)) rows)).

Definition has_fraction (n : Number.t) : bool :=
  match Number.frac n with
  | Some _ => true
  | None => false
  end.

(** A reference CSV of three weeks. *)
Definition who_rows_example : list who_row :=
  [mkwho_row 0 (Number.mknum false 2 (Some (Number.Last Number.N5)))
     (Number.mknum false 2 (Some (Number.Last Number.N7)))
     (Number.mknum false 3 (Some (Number.Last Number.N2)))
     (Number.mknum false 3 (Some (Number.Last Number.N9)))
     (Number.mknum false 4 (Some (Number.Last Number.N1)));
   mkwho_row 1 (Number.mknum false 2 (Some (Number.Last Number.N6)))
     (Number.mknum false 2 (Some (Number.Last Number.N8)))
     (Number.mknum false 3 (Some (Number.Last Number.N3)))
     (Number.of_Z 4) kg_4_2;
   mkwho_row 2 (Number.mknum false 2 (Some (Number.Last Number.N8)))
     (Number.of_Z 3)
     (Number.mknum false 3 (Some (Number.Last Number.N6)))
     (Number.mknum false 4 (Some (Number.Last Number.N3))) kg_4_5].

Definition who_labels : list string :=
  ["Week"; "P5"; "P10"; "P50"; "P90"; "P95"].

(** read_csv reads the percentile column [p] of a reference CSV as text:
    some row writes it with a comma, or the CSV has no row. *)
Definition reads_as_text (p : who_row -> Number.t) (rows : list who_row)
  : bool :=
  match rows with
  | [] => true
  | _ :: _ => existsb (fun r => has_fraction (p r)) rows
  end.

(** The cell read_csv makes of a percentile, in a column of text and in a
    column of numbers. *)
Definition who_cell (text : bool) (n : Number.t) : value :=
  if text then Str (comma_decimal n) else Num n.

(** The frame read_csv makes of a reference CSV. *)
Definition who_frame (rows : list who_row) : pd.DataFrame :=
  pd.mkframe who_labels
    (map (fun r =>
            [Num (Number.of_Z (row_week r));
             who_cell (reads_as_text row_p5 rows) (row_p5 r);
             who_cell (reads_as_text row_p10 rows) (row_p10 r);
             who_cell (reads_as_text row_p50 rows) (row_p50 r);
             who_cell (reads_as_text row_p90 rows) (row_p90 r);
             who_cell (reads_as_text row_p95 rows) (row_p95 r)]) rows).

(** The five percentile columns, in the order the program reads them. *)
Definition who_columns : list (who_row -> Number.t) :=
  [row_p5; row_p10; row_p50; row_p90; row_p95].

Definition str_accessor_error : exn :=
  AttributeError "Can only use .str accessor with string values!".

(** A reference CSV whose 50th percentile is written in whole numbers. *)
Definition who_rows_whole_p50 : list who_row :=
  [mkwho_row 0 (Number.mknum false 2 (Some (Number.Last Number.N5)))
     (Number.mknum false 2 (Some (Number.Last Number.N7)))
     (Number.of_Z 3)
     (Number.mknum false 3 (Some (Number.Last Number.N9)))
     (Number.mknum false 4 (Some (Number.Last Number.N1)));
   mkwho_row 1 (Number.mknum false 2 (Some (Number.Last Number.N6)))
     (Number.mknum false 2 (Some (Number.Last Number.N8)))
     (Number.of_Z 4)
     (Number.of_Z 4) kg_4_2].

(** * Properties *)

(** ** Worked values *)

Example strptime_ex1 :
  Calendar.strptime "2024-01-15" = Ok (Calendar.mkdate 2024 1 15).
Proof. reflexivity. Qed.

Example strptime_ex2 :
  Calendar.strptime "2024-1-5" = Ok (Calendar.mkdate 2024 1 5).
Proof. reflexivity. Qed.

Example strptime_ex3 :
  Calendar.strptime "2023-02-29"
  = Raise (ValueError "day is out of range for month").
Proof. reflexivity. Qed.

Example sub_days_ex :
  Calendar.sub_days (Calendar.mkdate 2024 1 15) (Calendar.mkdate 2024 1 1) = 14.
Proof. reflexivity. Qed.

Example isoformat_ex :
  Calendar.isoformat (Calendar.mkdate 2024 1 15) = "2024-01-15".
Proof. reflexivity. Qed.

Example number_ex1 :
  Number.of_string "4.20" = Some (Number.mknum false 4 (Some (Number.Last Number.N2))).
Proof. reflexivity. Qed.

Example number_ex2 :
  Number.to_string (Number.mknum true 0 (Some (Number.More Number.F0 (Number.Last Number.N5)))) = "-0.05".
Proof. reflexivity. Qed.

Example number_ex3 : Number.of_string "14" = Some (Number.of_Z 14).
Proof. reflexivity. Qed.

Example number_ex4 : Number.of_string "abc" = None.
Proof. reflexivity. Qed.

(** ** Strings *)

Lemma append_assoc (a b c : string) : ((a ++ b) ++ c)%string = (a ++ b ++ c)%string.
Proof. induction a as [|x a IH]; cbn; [reflexivity | now rewrite IH]. Qed.

Lemma append_nil_r (a : string) : (a ++ "")%string = a.
Proof. induction a as [|x a IH]; cbn; [reflexivity | now rewrite IH]. Qed.

(** ** Calendar: digits, padding and parsing back *)

Lemma digit_digit_char (n : Z) :
  0 <= n <= 9 -> Calendar.digit (Calendar.digit_char n) = Some n.
Proof.
  intros H. destruct n as [|p|p]; [reflexivity | | lia].
  do 4 (try (destruct p as [p|p|])); try lia; reflexivity.
Qed.

Lemma re_Y_pad4 {T} (y : Z) (r : string) (k : Z -> string -> option T) :
  0 <= y <= 9999 ->
  Calendar.re_Y (Calendar.pad4 y ++ r) k = k y r.
Proof.
  intros H. unfold Calendar.pad4, Calendar.pad2. cbn [append Calendar.re_Y].
  rewrite !digit_digit_char.
  - f_equal. Z.div_mod_to_equations. lia.
  - Z.div_mod_to_equations; lia.
  - Z.div_mod_to_equations; lia.
  - Z.div_mod_to_equations; lia.
  - Z.div_mod_to_equations; lia.
Qed.

Lemma two_digits_pad2 {T} (n : Z) (r : string) (k : Z -> string -> option T) :
  0 <= n <= 99 ->
  pd.two_digits (Calendar.pad2 n ++ r) k = k n r.
Proof.
  intros H. unfold Calendar.pad2. cbn [append pd.two_digits].
  rewrite !digit_digit_char.
  - f_equal. Z.div_mod_to_equations. lia.
  - Z.div_mod_to_equations; lia.
  - Z.div_mod_to_equations; lia.
Qed.

Lemma valid_bounds (d : Calendar.date) :
  Calendar.valid d = true ->
  1 <= Calendar.year d <= 9999 /\ 1 <= Calendar.month d <= 12
  /\ 1 <= Calendar.day d <= 31.
Proof.
  unfold Calendar.valid. rewrite !andb_true_iff, !Z.leb_le.
  intros [[[[[Hy1 Hy2] Hm1] Hm2] Hd1] Hd2].
  repeat split; try assumption.
  unfold Calendar.days_in_month in Hd2.
  destruct (Calendar.month d) as [|p|p]; try lia.
  destruct (Calendar.is_leap (Calendar.year d));
    do 4 (destruct p as [p|p|]; try lia).
Qed.

Lemma spelling_of_time_text (f : pd.spelling) :
  pd.spelling_of (pd.time_text f) = Some f.
Proof. now destruct f. Qed.

Lemma spelling_eqb_refl (f : pd.spelling) : pd.spelling_eqb f f = true.
Proof. now destruct f. Qed.

Lemma spelling_eqb_eq (f f' : pd.spelling) :
  pd.spelling_eqb f f' = true -> f = f'.
Proof. destruct f, f'; (reflexivity || discriminate). Qed.

Lemma is_digit_digit_char (n : Z) :
  0 <= n <= 9 -> is_digit (Calendar.digit_char n) = true.
Proof. intros H. unfold is_digit. now rewrite digit_digit_char. Qed.

(** The text of a date of the calendar: four digits, two and two, with
    hyphens between. *)
Lemma isoformat_shape (d : Calendar.date) :
  Calendar.valid d = true ->
  exists c1 c2 c3 c4 c5 c6 c7 c8,
    Calendar.isoformat d
    = String c1 (String c2 (String c3 (String c4 (String "-"
        (String c5 (String c6 (String "-" (String c7 (String c8 "")))))))))
    /\ is_digit c1 = true /\ is_digit c2 = true /\ is_digit c3 = true
    /\ is_digit c4 = true /\ is_digit c5 = true /\ is_digit c6 = true
    /\ is_digit c7 = true /\ is_digit c8 = true.
Proof.
  intros Hv. destruct (valid_bounds d Hv) as (Hy & Hm & Hd).
  unfold Calendar.isoformat, Calendar.pad4, Calendar.pad2. cbn [append].
  do 8 eexists. split; [reflexivity|].
  repeat split; apply is_digit_digit_char; Z.div_mod_to_equations; lia.
Qed.

(** The text of a day of the calendar in a spelling reads as that
    spelling and that day. *)
Lemma read_iso_isoformat (d : Calendar.date) (f : pd.spelling) :
  Calendar.valid d = true ->
  pd.read_iso (Calendar.isoformat d ++ pd.time_text f) = Some (f, d).
Proof.
  intros Hv. pose proof (valid_bounds d Hv) as (Hy & Hm & Hd).
  unfold pd.read_iso, Calendar.isoformat.
  rewrite !append_assoc.
  rewrite re_Y_pad4 by lia. cbn [append Calendar.re_lit Ascii.eqb Bool.eqb].
  rewrite two_digits_pad2 by lia. cbn [append Calendar.re_lit Ascii.eqb Bool.eqb].
  rewrite two_digits_pad2 by lia.
  rewrite spelling_of_time_text.
  destruct d as [y m dd]; cbn [Calendar.year Calendar.month Calendar.day] in *.
  rewrite Hv. reflexivity.
Qed.

(** The bounds of datetime64[ns] at midnight. *)
Example in_bounds_ex :
  pd.in_bounds (Calendar.mkdate 1677 9 21) = false
  /\ pd.in_bounds (Calendar.mkdate 1677 9 22) = true
  /\ pd.in_bounds (Calendar.mkdate 2262 4 11) = true
  /\ pd.in_bounds (Calendar.mkdate 2262 4 12) = false
  /\ Calendar.toordinal (Calendar.mkdate 1970 1 1) = pd.epoch_ordinal.
Proof. vm_compute. repeat split. Qed.

(** ** The reference curves the chart is given *)

Lemma percentiles_inv (who_data : who_table) (ps : list (string * list value)) :
  percentiles who_data = Ok ps ->
  exists p5 p10 p50 p90 p95,
    ps = curves p5 p10 p50 p90 p95
    /\ percentile_of (P5 who_data) = Ok p5
    /\ percentile_of (P10 who_data) = Ok p10
    /\ percentile_of (P50 who_data) = Ok p50
    /\ percentile_of (P90 who_data) = Ok p90
    /\ percentile_of (P95 who_data) = Ok p95.
Proof.
  unfold percentiles.
  destruct (percentile_of (P5 who_data)) as [p5|]; [|discriminate].
  destruct (percentile_of (P10 who_data)) as [p10|]; [|discriminate].
  destruct (percentile_of (P50 who_data)) as [p50|]; [|discriminate].
  destruct (percentile_of (P90 who_data)) as [p90|]; [|discriminate].
  destruct (percentile_of (P95 who_data)) as [p95|]; [|discriminate].
  cbn. intros [= <-]. now exists p5, p10, p50, p90, p95.
Qed.

(** ** The chart builder *)

Lemma update_chart_empty (ds p5 p10 p50 p90 p95 : list value) (d : pd.DataFrame) :
  pd.empty d = true ->
  exists lay,
    update_chart (curves p5 p10 p50 p90 p95) ds d
    = Ok (mkfigure
            [band ds p95 p5 (rgba 200 200 200 alpha_0_3);
             band ds p90 p10 (rgba 150 150 150 alpha_0_3);
             percentile_line ds ("5th", p5); percentile_line ds ("10th", p10);
             percentile_line ds ("50th", p50); percentile_line ds ("90th", p90);
             percentile_line ds ("95th", p95)]
            lay).
Proof.
  intros He. unfold update_chart. cbn. rewrite He. cbn. eauto.
Qed.

Lemma update_chart_nonempty (ds p5 p10 p50 p90 p95 : list value)
  (d : pd.DataFrame) (ages weights : list value) :
  pd.empty d = false ->
  pd.getitem d "Age_Days" = Ok ages ->
  pd.getitem d "Weight_kg" = Ok weights ->
  exists lay,
    update_chart (curves p5 p10 p50 p90 p95) ds d
    = Ok (mkfigure
            [band ds p95 p5 (rgba 200 200 200 alpha_0_3);
             band ds p90 p10 (rgba 150 150 150 alpha_0_3);
             percentile_line ds ("5th", p5); percentile_line ds ("10th", p10);
             percentile_line ds ("50th", p50); percentile_line ds ("90th", p90);
             percentile_line ds ("95th", p95);
             mkscatter ages weights None None (mkline (css "red") (Some 2))
               None None (Some "lines+markers") (Some "Baby's Growth")
               (Some 6)]
            lay).
Proof.
  intros He Ha Hw. unfold update_chart. cbn. rewrite He, Ha, Hw. cbn. eauto.
Qed.

Lemma update_chart_bands (ds p5 p10 p50 p90 p95 : list value)
  (d : pd.DataFrame) (fig : Figure) :
  update_chart (curves p5 p10 p50 p90 p95) ds d = Ok fig ->
  firstn 2 (data fig)
  = [band ds p95 p5 (rgba 200 200 200 alpha_0_3);
     band ds p90 p10 (rgba 150 150 150 alpha_0_3)].
Proof.
  unfold update_chart. cbn.
  destruct (pd.empty d); cbn.
  - intros [= <-]. reflexivity.
  - destruct (pd.getitem d "Age_Days"); cbn; [|discriminate].
    destruct (pd.getitem d "Weight_kg"); cbn; [|discriminate].
    intros [= <-]. reflexivity.
Qed.

Lemma getitem_length (d : pd.DataFrame) (c : string) (col : list value) :
  pd.getitem d c = Ok col -> length col = length (pd.values d).
Proof.
  unfold pd.getitem. destruct (get_loc c (pd.columns d)); [|discriminate].
  intros [= <-]. apply length_map.
Qed.

Lemma getitem_at_label (d : pd.DataFrame) (c : string) (col : list value) :
  pd.getitem d c = Ok col ->
  col = map (fun row => pd.at_label (pd.columns d) row c) (pd.values d).
Proof.
  unfold pd.getitem, pd.at_label.
  destruct (get_loc c (pd.columns d)); [|discriminate].
  now intros [= <-].
Qed.

Lemma combine_map_same {A B C} (f : A -> B) (g : A -> C) (l : list A) :
  combine (map f l) (map g l) = map (fun a => (f a, g a)) l.
Proof. induction l as [|a l IH]; cbn; [reflexivity | now rewrite IH]. Qed.

(** ** Labels and rows *)

Lemma get_loc_nth_error (c : string) (cols : list string) (i : nat) :
  get_loc c cols = Some i -> nth_error cols i = Some c.
Proof.
  revert i. induction cols as [|a cols IH]; intros i; cbn; [discriminate|].
  destruct (String.eqb_spec a c) as [->|Hne].
  - now intros [= <-].
  - destruct (get_loc c cols) as [j|]; cbn; [|discriminate].
    intros [= <-]. cbn. now apply IH.
Qed.

Lemma get_loc_In (c : string) (cols : list string) :
  In c cols -> exists i, get_loc c cols = Some i.
Proof.
  induction cols as [|a cols IH]; cbn; [tauto|].
  intros H. destruct (String.eqb_spec a c) as [->|Hne]; [eauto|].
  destruct H as [H|H]; [contradiction|].
  destruct (IH H) as [i ->]. cbn. eauto.
Qed.

Lemma get_loc_None (c : string) (cols : list string) :
  ~ In c cols -> get_loc c cols = None.
Proof.
  induction cols as [|a cols IH]; cbn; [reflexivity|].
  intros H. destruct (String.eqb_spec a c) as [->|Hne]; [tauto|].
  rewrite IH by tauto. reflexivity.
Qed.

Lemma get_loc_first (c : string) (cols : list string) (i j : nat) :
  get_loc c cols = Some i -> (j < i)%nat -> nth_error cols j <> Some c.
Proof.
  revert i j. induction cols as [|a cols IH]; intros i j; cbn; [discriminate|].
  destruct (String.eqb_spec a c) as [->|Hne].
  - intros [= <-]. lia.
  - destruct (get_loc c cols) as [k|] eqn:E; cbn; [|discriminate].
    intros [= <-] Hj. destruct j as [|j]; cbn.
    + congruence.
    + apply (IH k); [reflexivity | lia].
Qed.

Lemma In_unique (c : string) (l : list string) : In c (unique l) <-> In c l.
Proof.
  induction l as [|a l IH]; cbn; [tauto|].
  rewrite filter_In, IH, negb_true_iff, String.eqb_neq.
  destruct (string_dec a c) as [->|Hne]; [tauto|].
  split.
  - intros [H|[H _]]; auto.
  - intros [H|H]; [contradiction|]. right. split; [assumption | congruence].
Qed.

Lemma at_label_reindex (cols cols' : list string) (row : list value) (c : string) :
  (forall k, In k cols -> In k cols') ->
  pd.at_label cols' (pd.reindex cols cols' row) c = pd.at_label cols row c.
Proof.
  intros Hsub. unfold pd.at_label at 1, pd.reindex.
  destruct (get_loc c cols') as [i|] eqn:E.
  - pose proof (get_loc_nth_error _ _ _ E) as Hn.
    apply nth_error_nth. rewrite nth_error_map, Hn. reflexivity.
  - unfold pd.at_label. rewrite get_loc_None; [reflexivity|].
    intros Hin. destruct (get_loc_In c cols' (Hsub _ Hin)) as [i Hi]. congruence.
Qed.

Lemma reindex_schema_id (row : list value) :
  length row = 3%nat -> pd.reindex schema schema row = row.
Proof.
  destruct row as [|a [|b [|c [|? ?]]]]; cbn; try discriminate. reflexivity.
Qed.

Lemma map_id_on {A} (f : A -> A) (l : list A) :
  Forall (fun a => f a = a) l -> map f l = l.
Proof. induction 1 as [|a l Ha _ IH]; cbn; [reflexivity | now rewrite Ha, IH]. Qed.

(** ** The three branches of the callback *)

Lemma add_guard_Some (t : string) (dob date : option string)
  (weight : option Number.t) (a b : string) (w : Number.t) :
  add_guard t dob date weight = Some (a, b, w) <->
  t = "add-button" /\ dob = Some a /\ date = Some b /\ weight = Some w
  /\ a <> "" /\ b <> "".
Proof.
  unfold add_guard. destruct (String.eqb_spec t "add-button") as [->|Hne].
  - split.
    + destruct dob as [[|x a']|]; try discriminate;
        destruct date as [[|z b']|]; try discriminate;
        destruct weight; try discriminate.
      intros [= <- <- <-]. repeat split; discriminate.
    + intros (_ & -> & -> & -> & Ha & Hb).
      destruct a; [contradiction|]. destruct b; [contradiction|]. reflexivity.
  - split; [discriminate | tauto].
Qed.

Lemma add_guard_truthy (t : string) (dob date : option string)
  (weight : option Number.t) :
  is_not_None (add_guard t dob date weight)
  = String.eqb t "add-button" && truthy dob && truthy date
    && is_not_None weight.
Proof.
  unfold add_guard. destruct (String.eqb t "add-button"); [|reflexivity].
  destruct dob as [[|? ?]|], date as [[|? ?]|], weight; reflexivity.
Qed.

(** The frame the add branch leaves in [df]. *)
Lemma concat_new_record (d : pd.DataFrame) (row : list value) :
  pd.concat [d; pd.mkframe schema [row]]
  = Ok (pd.mkframe (unique (pd.columns d ++ schema))
          (map (pd.reindex (pd.columns d) (unique (pd.columns d ++ schema)))
             (pd.values d)
           ++ [pd.reindex schema (unique (pd.columns d ++ schema)) row])).
Proof.
  unfold pd.concat. cbn [flat_map pd.columns pd.values map].
  now rewrite !app_nil_r.
Qed.

Lemma update_add
  (ps : list (string * list value)) (ds : list value) (prop_id : string)
  (ac sc : Z) (td : list record) (dob date : option string)
  (weight : option Number.t) (st : world)
  (a b : string) (w : Number.t) (d1 d2 : Calendar.date) :
  add_guard (trigger_of prop_id) dob date weight = Some (a, b, w) ->
  Calendar.strptime a = Ok d1 ->
  Calendar.strptime b = Ok d2 ->
  let cols := unique (pd.columns (df st) ++ schema) in
  let d' := pd.mkframe cols
              (map (pd.reindex (pd.columns (df st)) cols) (pd.values (df st))
               ++ [pd.reindex schema cols
                     (record_row d2 (Calendar.sub_days d2 d1) w)]) in
  update_data_and_chart ps ds prop_id ac sc td dob date weight st
  = (rbind (update_chart ps ds d')
       (fun fig => Ok ("Record added successfully!", fig, pd.to_dict_records d')),
     mkworld d' (write_csv_to_blob d' baby_growth_blob (container st))).
Proof.
  intros Hg H1 H2 cols d'. unfold update_data_and_chart.
  rewrite Hg. unfold bind, lift, get_df, set_df, upload, ret.
  rewrite H1, H2.
  change (pd.DataFrame_dict _)
    with (Ok (pd.mkframe schema [record_row d2 (Calendar.sub_days d2 d1) w])).
  cbv beta iota. rewrite concat_new_record. cbv beta iota. cbn [df container].
  fold cols. fold d'.
  destruct (update_chart ps ds d'); reflexivity.
Qed.

Lemma update_noop
  (ps : list (string * list value)) (ds : list value) (prop_id : string)
  (ac sc : Z) (td : list record) (dob date : option string)
  (weight : option Number.t) (st : world) :
  add_guard (trigger_of prop_id) dob date weight = None ->
  trigger_of prop_id <> "save-button" ->
  trigger_of prop_id <> "data-table" ->
  update_data_and_chart ps ds prop_id ac sc td dob date weight st
  = (rbind (update_chart ps ds (df st))
       (fun fig => Ok ("No changes made.", fig, pd.to_dict_records (df st))),
     st).
Proof.
  intros Hg Hs Ht. unfold update_data_and_chart. rewrite Hg.
  apply String.eqb_neq in Hs, Ht. rewrite Hs, Ht. cbn [orb].
  unfold bind, lift, get_df, ret.
  destruct (update_chart ps ds (df st)); reflexivity.
Qed.

Lemma update_save
  (ps : list (string * list value)) (ds : list value) (prop_id : string)
  (ac sc : Z) (td : list record) (dob date : option string)
  (weight : option Number.t) (st : world) :
  trigger_of prop_id = "save-button" \/ trigger_of prop_id = "data-table" ->
  let d0 := pd.DataFrame_records td in
  update_data_and_chart ps ds prop_id ac sc td dob date weight st
  = match rbind (pd.getitem d0 "Date") (fun col =>
          rbind (pd.to_datetime col) (fun col => pd.setitem d0 "Date" col)) with
    | Raise e => (Raise e, mkworld d0 (container st))
    | Ok d' =>
        (rbind (update_chart ps ds d')
           (fun fig => Ok ("Changes saved successfully!", fig,
                           pd.to_dict_records d')),
         mkworld d' (write_csv_to_blob d' baby_growth_blob (container st)))
    end.
Proof.
  intros Ht d0. unfold update_data_and_chart.
  assert (Hg : add_guard (trigger_of prop_id) dob date weight = None).
  { unfold add_guard. destruct Ht as [-> | ->]; reflexivity. }
  rewrite Hg.
  assert (Hb : String.eqb (trigger_of prop_id) "save-button"
               || String.eqb (trigger_of prop_id) "data-table" = true).
  { destruct Ht as [-> | ->]; reflexivity. }
  rewrite Hb. unfold bind, lift, get_df, set_df, upload, ret. cbn [df container].
  fold d0.
  destruct (pd.getitem d0 "Date") as [col|e]; cbn [rbind]; [|reflexivity].
  destruct (pd.to_datetime col) as [col'|e]; cbn [rbind]; [|reflexivity].
  destruct (pd.setitem d0 "Date" col') as [d'|e]; [|reflexivity].
  cbn [df container].
  destruct (update_chart ps ds d'); reflexivity.
Qed.

Lemma getitem_In (d : pd.DataFrame) (c : string) :
  In c (pd.columns d) -> exists col, pd.getitem d c = Ok col.
Proof.
  intros H. unfold pd.getitem. destruct (get_loc_In _ _ H) as [i ->]. eauto.
Qed.

Lemma at_label_schema_row (d : Calendar.date) (age : Z) (w : Number.t) :
  pd.at_label schema (record_row d age w) "Date" = Timestamp d
  /\ pd.at_label schema (record_row d age w) "Age_Days" = Num (Number.of_Z age)
  /\ pd.at_label schema (record_row d age w) "Weight_kg" = Num w.
Proof. repeat split. Qed.

(** What an accepted add event does, whatever the frame in [df]. *)
Lemma add_branch
  (who_data : who_table) (ps : list (string * list value)) (prop_id : string)
  (ac sc : Z) (td : list record) (dob date : option string)
  (weight : option Number.t) (st : world)
  (a b : string) (w : Number.t) (d1 d2 : Calendar.date) :
  percentiles who_data = Ok ps ->
  add_guard (trigger_of prop_id) dob date weight = Some (a, b, w) ->
  Calendar.strptime a = Ok d1 ->
  Calendar.strptime b = Ok d2 ->
  let cols := unique (pd.columns (df st) ++ schema) in
  let d' := pd.mkframe cols
              (map (pd.reindex (pd.columns (df st)) cols) (pd.values (df st))
               ++ [pd.reindex schema cols
                     (record_row d2 (Calendar.sub_days d2 d1) w)]) in
  exists fig,
    update_data_and_chart ps (days who_data) prop_id ac sc td dob date weight st
    = (Ok ("Record added successfully!", fig, pd.to_dict_records d'),
       mkworld d' ((baby_growth_blob, pd.to_csv d') :: container st))
    /\ length (pd.values d') = S (length (pd.values (df st)))
    /\ (forall i row, nth_error (pd.values (df st)) i = Some row ->
        exists row', nth_error (pd.values d') i = Some row'
          /\ forall c, pd.at_label (pd.columns d') row' c
                       = pd.at_label (pd.columns (df st)) row c)
    /\ (exists last,
          nth_error (pd.values d') (length (pd.values (df st))) = Some last
          /\ pd.at_label (pd.columns d') last "Date" = Timestamp d2
          /\ pd.at_label (pd.columns d') last "Age_Days"
             = Num (Number.of_Z (Calendar.sub_days d2 d1))
          /\ pd.at_label (pd.columns d') last "Weight_kg" = Num w)
    /\ (pd.columns (df st) = schema ->
        Forall (fun r => length r = 3%nat) (pd.values (df st)) ->
        d' = pd.mkframe schema
               (pd.values (df st)
                ++ [record_row d2 (Calendar.sub_days d2 d1) w])).
Proof.
  intros Hps Hg H1 H2 cols d'.
  rewrite (update_add ps (days who_data) prop_id ac sc td dob date weight st
             a b w d1 d2 Hg H1 H2).
  fold cols. fold d'.
  set (new := record_row d2 (Calendar.sub_days d2 d1) w) in *.
  assert (Hin : forall c, In c schema -> In c cols).
  { intros c Hc. apply In_unique, in_or_app. now right. }
  assert (Hold : forall c, In c (pd.columns (df st)) -> In c cols).
  { intros c Hc. apply In_unique, in_or_app. now left. }
  destruct (getitem_In d' "Age_Days") as [ages Ha]; [apply Hin; cbn; tauto|].
  destruct (getitem_In d' "Weight_kg") as [ws Hw]; [apply Hin; cbn; tauto|].
  assert (He : pd.empty d' = false).
  { unfold pd.empty, d'. cbn [pd.columns pd.values].
    rewrite length_app. cbn [length].
    destruct cols as [|c0 cols0] eqn:Ec.
    - exfalso. apply (Hin "Date"). cbn; tauto.
    - cbn. apply Nat.eqb_neq. lia. }
  destruct (percentiles_inv _ _ Hps) as (p5 & p10 & p50 & p90 & p95 & -> & _).
  destruct (update_chart_nonempty (days who_data) p5 p10 p50 p90 p95 d' ages ws
              He Ha Hw) as [lay Hfig].
  rewrite Hfig. cbn [rbind]. eexists. split; [reflexivity|].
  split.
  { unfold d'. cbn [pd.values]. rewrite length_app, length_map. cbn. lia. }
  split.
  { intros i row Hi. exists (pd.reindex (pd.columns (df st)) cols row). split.
    - unfold d'. cbn [pd.values]. rewrite nth_error_app1.
      + rewrite nth_error_map, Hi. reflexivity.
      + rewrite length_map. apply nth_error_Some. congruence.
    - intros c. apply at_label_reindex. exact Hold. }
  split.
  { exists (pd.reindex schema cols new). split.
    - unfold d'. cbn [pd.values]. rewrite nth_error_app2; rewrite length_map.
      + now rewrite Nat.sub_diag.
      + lia.
    - cbn [pd.columns d']. rewrite !at_label_reindex by exact Hin.
      apply at_label_schema_row. }
  intros Hc Hr. unfold d', cols. rewrite Hc.
  change (unique (schema ++ schema)) with schema. f_equal. f_equal.
  apply map_id_on. eapply Forall_impl; [|exact Hr].
  intros r. apply reindex_schema_id.
Qed.

(** ** The day difference follows the calendar *)

Lemma strptime_valid (s : string) (d : Calendar.date) :
  Calendar.strptime s = Ok d -> Calendar.valid d = true.
Proof.
  unfold Calendar.strptime.
  destruct (Calendar.re_Ymd s) as [[[[y m] dd] [|? ?]]|]; try discriminate.
  destruct (Calendar.valid (Calendar.mkdate y m dd)) eqn:E; [|discriminate].
  now intros [= <-].
Qed.

Lemma strptime_nonempty (s : string) (d : Calendar.date) :
  Calendar.strptime s = Ok d -> s <> "".
Proof. intros H ->. discriminate. Qed.

Lemma days_before_year_mono (y y' : Z) :
  y <= y' -> Calendar.days_before_year y <= Calendar.days_before_year y'.
Proof.
  intros H. unfold Calendar.days_before_year. cbv zeta.
  Z.div_mod_to_equations. lia.
Qed.

Lemma days_before_year_succ (y : Z) :
  Calendar.days_before_year (y + 1)
  = Calendar.days_before_year y + 365 + (if Calendar.is_leap y then 1 else 0).
Proof.
  unfold Calendar.days_before_year, Calendar.is_leap. cbv zeta.
  replace (y + 1 - 1) with y by lia.
  destruct (y mod 4 =? 0) eqn:E4; destruct (y mod 100 =? 0) eqn:E100;
    destruct (y mod 400 =? 0) eqn:E400; cbn [negb orb andb];
    rewrite ?Z.eqb_eq, ?Z.eqb_neq in *;
    Z.div_mod_to_equations; lia.
Qed.

Lemma valid_day_of_month (d : Calendar.date) :
  Calendar.valid d = true -> Calendar.day_of_month d = true.
Proof.
  unfold Calendar.valid, Calendar.day_of_month.
  rewrite !andb_true_iff. tauto.
Qed.

Lemma within_year_any (d : Calendar.date) :
  Calendar.day_of_month d = true ->
  1 <= Calendar.days_before_month (Calendar.year d) (Calendar.month d)
       + Calendar.day d
    <= 365 + (if Calendar.is_leap (Calendar.year d) then 1 else 0).
Proof.
  unfold Calendar.day_of_month. rewrite !andb_true_iff, !Z.leb_le.
  intros [[[Hm1 Hm2] Hd1] Hd2].
  unfold Calendar.days_before_month, Calendar.days_in_month in *.
  destruct (Calendar.month d) as [|p|p]; try lia.
  destruct (Calendar.is_leap (Calendar.year d));
    do 4 (try (destruct p as [p|p|])); cbn -[Z.add] in *; lia.
Qed.

Lemma within_year (d : Calendar.date) :
  Calendar.valid d = true ->
  1 <= Calendar.days_before_month (Calendar.year d) (Calendar.month d)
       + Calendar.day d
    <= 365 + (if Calendar.is_leap (Calendar.year d) then 1 else 0).
Proof. intros H. now apply within_year_any, valid_day_of_month. Qed.

Lemma days_before_month_mono (y m m' : Z) :
  1 <= m -> m < m' -> m' <= 12 ->
  Calendar.days_before_month y m + Calendar.days_in_month y m
  <= Calendar.days_before_month y m'.
Proof.
  intros H1 H2 H3.
  unfold Calendar.days_before_month, Calendar.days_in_month.
  destruct m as [|p|p]; try lia. destruct m' as [|q|q]; try lia.
  destruct (Calendar.is_leap y);
    do 4 (try (destruct p as [p|p|])); try lia;
    do 4 (try (destruct q as [q|q|])); cbn -[Z.add] in *; lia.
Qed.

(** An earlier day has a smaller ordinal. *)
Lemma toordinal_before_any (a b : Calendar.date) :
  Calendar.day_of_month a = true -> Calendar.day_of_month b = true ->
  Calendar.before a b -> Calendar.toordinal a < Calendar.toordinal b.
Proof.
  intros Ha Hb Hlt. unfold Calendar.toordinal.
  pose proof (within_year_any a Ha) as Wa.
  pose proof (within_year_any b Hb) as Wb.
  destruct Hlt as [Hy | [Hy [Hm | [Hm Hd]]]].
  - pose proof (days_before_year_succ (Calendar.year a)) as Hs.
    pose proof (days_before_year_mono (Calendar.year a + 1) (Calendar.year b)
                  ltac:(lia)) as Hm.
    lia.
  - rewrite Hy in *.
    unfold Calendar.day_of_month in Ha, Hb.
    rewrite !andb_true_iff, !Z.leb_le in Ha, Hb.
    pose proof (days_before_month_mono (Calendar.year b) (Calendar.month a)
                  (Calendar.month b) ltac:(lia) Hm ltac:(lia)) as Hmm.
    rewrite Hy in Ha. lia.
  - rewrite Hy, Hm. lia.
Qed.

(** An earlier day has a smaller ordinal: the difference in days has the
    sign of the order of the two dates. *)
Lemma toordinal_before (a b : Calendar.date) :
  Calendar.valid a = true -> Calendar.valid b = true ->
  Calendar.before a b -> Calendar.toordinal a < Calendar.toordinal b.
Proof.
  intros Ha Hb. apply toordinal_before_any; now apply valid_day_of_month.
Qed.

Lemma before_cases (a b : Calendar.date) :
  a = b \/ Calendar.before a b \/ Calendar.before b a.
Proof.
  destruct a as [ya ma da], b as [yb mb db]. unfold Calendar.before.
  cbn [Calendar.year Calendar.month Calendar.day].
  destruct (Z.lt_trichotomy ya yb) as [Hy | [Hy | Hy]]; [tauto | | tauto].
  subst yb.
  destruct (Z.lt_trichotomy ma mb) as [Hm | [Hm | Hm]]; [tauto | | tauto].
  subst mb.
  destruct (Z.lt_trichotomy da db) as [Hd | [Hd | Hd]]; [tauto | | tauto].
  subst db. now left.
Qed.

Lemma toordinal_inj (a b : Calendar.date) :
  Calendar.day_of_month a = true -> Calendar.day_of_month b = true ->
  Calendar.toordinal a = Calendar.toordinal b -> a = b.
Proof.
  intros Ha Hb E. destruct (before_cases a b) as [H | [H | H]]; [exact H | |].
  - pose proof (toordinal_before_any a b Ha Hb H). lia.
  - pose proof (toordinal_before_any b a Hb Ha H). lia.
Qed.

(** The day after a day is the next day of the count: its ordinal is one
    more. *)
Lemma next_day_ordinal (d : Calendar.date) :
  Calendar.day_of_month d = true ->
  Calendar.day_of_month (Calendar.next_day d) = true
  /\ Calendar.toordinal (Calendar.next_day d) = Calendar.toordinal d + 1.
Proof.
  destruct d as [y m dd]. unfold Calendar.day_of_month, Calendar.next_day.
  cbn [Calendar.year Calendar.month Calendar.day].
  rewrite !andb_true_iff, !Z.leb_le. intros [[[Hm1 Hm2] Hd1] Hd2].
  destruct (Z.ltb_spec dd (Calendar.days_in_month y m)) as [Hlt|Hge].
  - cbn [Calendar.year Calendar.month Calendar.day].
    rewrite ?andb_true_iff, ?Z.leb_le. unfold Calendar.toordinal.
    cbn [Calendar.year Calendar.month Calendar.day]. lia.
  - assert (Hdd : dd = Calendar.days_in_month y m) by lia.
    destruct (Z.ltb_spec m 12) as [Hm|Hm].
    + cbn [Calendar.year Calendar.month Calendar.day].
      rewrite ?andb_true_iff, ?Z.leb_le. unfold Calendar.toordinal.
      cbn [Calendar.year Calendar.month Calendar.day]. subst dd.
      unfold Calendar.days_before_month, Calendar.days_in_month.
      destruct m as [|p|p]; try lia.
      destruct (Calendar.is_leap y);
        do 4 (try (destruct p as [p|p|])); try lia;
        cbn; repeat split; lia.
    + assert (m = 12) by lia. subst m dd.
      cbn [Calendar.year Calendar.month Calendar.day].
      split; [cbn; lia|]. unfold Calendar.toordinal.
      cbn [Calendar.year Calendar.month Calendar.day].
      rewrite days_before_year_succ.
      unfold Calendar.days_before_month, Calendar.days_in_month.
      destruct (Calendar.is_leap y); cbn -[Z.add]; lia.
Qed.

Lemma days_later_ordinal (n : nat) (d : Calendar.date) :
  Calendar.day_of_month d = true ->
  Calendar.day_of_month (Calendar.days_later n d) = true
  /\ Calendar.toordinal (Calendar.days_later n d)
     = Calendar.toordinal d + Z.of_nat n.
Proof.
  intros Hd. induction n as [|n [IHd IHo]]; cbn [Calendar.days_later].
  - split; [exact Hd | lia].
  - destruct (next_day_ordinal _ IHd) as [Hd' Ho']. split; [exact Hd'|].
    rewrite Ho', IHo. lia.
Qed.

(** The whole days between two days of the calendar: counting on from
    the earlier by as many days as their difference reaches the later. *)
Lemma days_later_reaches (a b : Calendar.date) :
  Calendar.valid a = true -> Calendar.valid b = true ->
  0 <= Calendar.sub_days b a ->
  Calendar.days_later (Z.to_nat (Calendar.sub_days b a)) a = b.
Proof.
  intros Ha Hb Hle.
  destruct (days_later_ordinal (Z.to_nat (Calendar.sub_days b a)) a
              (valid_day_of_month a Ha)) as [Hd Ho].
  apply toordinal_inj; [exact Hd | now apply valid_day_of_month |].
  rewrite Ho. unfold Calendar.sub_days in *. lia.
Qed.

(** The difference in days is the count of days of the calendar from one
    date to the other. *)
Lemma sub_days_counts (a b : Calendar.date) :
  Calendar.valid a = true -> Calendar.valid b = true ->
  ((exists n, b = Calendar.days_later n a
              /\ Calendar.sub_days b a = Z.of_nat n)
   \/ (exists n, a = Calendar.days_later n b
                 /\ Calendar.sub_days b a = - Z.of_nat n))
  /\ (forall n, b = Calendar.days_later n a ->
                Calendar.sub_days b a = Z.of_nat n)
  /\ (forall n, a = Calendar.days_later n b ->
                Calendar.sub_days b a = - Z.of_nat n).
Proof.
  intros Ha Hb. split; [|split].
  - destruct (Z.le_gt_cases 0 (Calendar.sub_days b a)) as [Hle|Hgt].
    + left. exists (Z.to_nat (Calendar.sub_days b a)). split.
      * symmetry. now apply days_later_reaches.
      * lia.
    + right. exists (Z.to_nat (Calendar.sub_days a b)).
      assert (Hle : 0 <= Calendar.sub_days a b)
        by (unfold Calendar.sub_days in *; lia).
      split.
      * symmetry. now apply days_later_reaches.
      * unfold Calendar.sub_days in *. lia.
  - intros n ->.
    destruct (days_later_ordinal n a (valid_day_of_month a Ha)) as [_ Ho].
    unfold Calendar.sub_days. lia.
  - intros n ->.
    destruct (days_later_ordinal n b (valid_day_of_month b Hb)) as [_ Ho].
    unfold Calendar.sub_days. lia.
Qed.

(** ** The add branch *)

(** C10: the add branch asks of the weight only that it is not None: with
    both dates provided, a weight of zero or below is appended and written
    to the blob like any other. *)
Theorem add_accepts_nonpositive_weight :
  forall (who_data : who_table) (ps : list (string * list value))
         (prop_id : string) (ac sc : Z) (td : list record)
         (dob date : string) (weight : Number.t) (st : world)
         (d1 d2 : Calendar.date),
    percentiles who_data = Ok ps ->
    trigger_of prop_id = "add-button" ->
    Calendar.strptime dob = Ok d1 ->
    Calendar.strptime date = Ok d2 ->
    Number.nonpositive weight = true ->
    exists fig d' last,
      update_data_and_chart ps (days who_data) prop_id ac sc td
        (Some dob) (Some date) (Some weight) st
      = (Ok ("Record added successfully!", fig, pd.to_dict_records d'),
         mkworld d' ((baby_growth_blob, pd.to_csv d') :: container st))
      /\ nth_error (pd.values d') (length (pd.values (df st))) = Some last
      /\ pd.at_label (pd.columns d') last "Weight_kg" = Num weight
      /\ In (Num weight) last.
Proof.
  intros who_data ps prop_id ac sc td dob date weight st d1 d2
         Hps Ht H1 H2 _.
  assert (Hg : add_guard (trigger_of prop_id) (Some dob) (Some date)
                 (Some weight) = Some (dob, date, weight)).
  { apply add_guard_Some. repeat split; try assumption.
    - eapply strptime_nonempty; eassumption.
    - eapply strptime_nonempty; eassumption. }
  destruct (add_branch who_data ps prop_id ac sc td (Some dob) (Some date)
              (Some weight) st dob date weight d1 d2 Hps Hg H1 H2)
    as (fig & Hrun & _ & _ & (last & Hn & _ & _ & Hw) & _).
  eexists fig, _, last. split; [exact Hrun|]. split; [exact Hn|].
  split; [exact Hw|].
  unfold pd.at_label in Hw.
  destruct (get_loc "Weight_kg" _) as [i|]; [|discriminate].
  destruct (nth_in_or_default i last NaN) as [Hin|Hd].
  - now rewrite Hw in Hin.
  - rewrite Hw in Hd. discriminate.
Qed.

Lemma add_accepts_nonpositive_weight_witness :
  exists fig,
    update_data_and_chart curves_example (days who_example)
      "add-button.n_clicks" 1 0 [] (Some "2024-01-01") (Some "2024-01-15")
      (Some kg_0) fresh_world
    = (Ok ("Record added successfully!", fig,
           [[("Date", Timestamp (Calendar.mkdate 2024 1 15));
             ("Age_Days", Num (Number.of_Z 14)); ("Weight_kg", Num kg_0)]]),
       mkworld
         (pd.mkframe schema [record_row (Calendar.mkdate 2024 1 15) 14 kg_0])
         [(baby_growth_blob, "Date,Age_Days,Weight_kg" ++ pd.newline
                             ++ "2024-01-15,14,0" ++ pd.newline)]).
Proof.
  destruct (add_accepts_nonpositive_weight who_example curves_example
              "add-button.n_clicks" 1 0 [] "2024-01-01" "2024-01-15" kg_0
              fresh_world (Calendar.mkdate 2024 1 1) (Calendar.mkdate 2024 1 15)
              eq_refl eq_refl eq_refl eq_refl eq_refl)
    as (fig & d' & last & Hrun & _).
  exists fig. rewrite Hrun.
  assert (E : d' = pd.mkframe schema
                     [record_row (Calendar.mkdate 2024 1 15) 14 kg_0]).
  { pose proof (f_equal (fun r => df (snd r)) Hrun) as Hd.
    cbn [snd df] in Hd. rewrite <- Hd. vm_compute. reflexivity. }
  rewrite E. reflexivity.
Defined.

(** ** The branch that changes nothing *)




(** ** The save branch *)

Lemma dict_get_In {A} (k : string) (d : list (string * A)) (v : A) :
  dict_get k d = Some v -> In k (map fst d).
Proof.
  induction d as [|[k' v'] d IH]; cbn; [discriminate|].
  destruct (String.eqb_spec k' k) as [->|Hne]; [tauto|]. auto.
Qed.

Lemma records_columns_key (td : list record) (r : record) (c : string) :
  In r td -> In c (map fst r) -> In c (pd.columns (pd.DataFrame_records td)).
Proof.
  intros Hr Hc. cbn. apply In_unique, in_flat_map. eauto.
Qed.

Lemma records_at_label (td : list record) (r : record) (c : string) :
  In r td ->
  let cols := pd.columns (pd.DataFrame_records td) in
  pd.at_label cols (map (cell_of r) cols) c = cell_of r c.
Proof.
  intros Hr cols. unfold pd.at_label.
  destruct (get_loc c cols) as [i|] eqn:E.
  - apply nth_error_nth. rewrite nth_error_map.
    now rewrite (get_loc_nth_error _ _ _ E).
  - unfold cell_of. destruct (dict_get c r) as [j|] eqn:Ej; [|reflexivity].
    exfalso. apply dict_get_In in Ej.
    destruct (get_loc_In c cols (records_columns_key td r c Hr Ej)). congruence.
Qed.

Lemma mapM_length {A B} (f : A -> result B) (l : list A) (l' : list B) :
  mapM f l = Ok l' -> length l' = length l.
Proof.
  revert l'. induction l as [|a l IH]; cbn; intros l'.
  - now intros [= <-].
  - destruct (f a); [|discriminate]. destruct (mapM f l); [|discriminate].
    intros [= <-]. cbn. f_equal. now apply IH.
Qed.

Lemma mapM_nth_error {A B} (f : A -> result B) (l : list A) (l' : list B)
  (i : nat) (a : A) :
  mapM f l = Ok l' -> nth_error l i = Some a ->
  exists b, nth_error l' i = Some b /\ f a = Ok b.
Proof.
  revert l' i. induction l as [|x l IH]; cbn; intros l' i.
  - intros _. destruct i; discriminate.
  - destruct (f x) as [y|] eqn:Ex; [|discriminate].
    destruct (mapM f l) as [ys|]; [|discriminate].
    intros [= <-]. destruct i as [|i]; cbn.
    + intros [= <-]. eauto.
    + now apply IH.
Qed.

Lemma nth_set_nth_eq {A} (i : nat) (l : list A) (v d : A) :
  (i < length l)%nat -> nth i (set_nth i l v) d = v.
Proof.
  revert i. induction l as [|x l IH]; intros [|i]; cbn; try lia; auto.
  intros H. apply IH. lia.
Qed.

Lemma nth_set_nth_neq {A} (i j : nat) (l : list A) (v d : A) :
  i <> j -> nth j (set_nth i l v) d = nth j l d.
Proof.
  revert i j. induction l as [|x l IH]; intros [|i] [|j]; cbn; try congruence; auto.
Qed.

Lemma nth_error_combine {A B} (l : list A) (l' : list B) (i : nat) (a : A) (b : B) :
  nth_error l i = Some a -> nth_error l' i = Some b ->
  nth_error (combine l l') i = Some (a, b).
Proof.
  revert l' i. induction l as [|x l IH]; intros [|y l'] [|i]; cbn;
    try discriminate; auto.
  now intros [= <-] [= <-].
Qed.

Lemma to_datetime_length (col col' : list value) :
  pd.to_datetime col = Ok col' -> length col' = length col.
Proof.
  unfold pd.to_datetime.
  destruct (filter _ col) as [|[|n|s|d] rest].
  - intros [= <-]. apply length_map.
  - discriminate.
  - discriminate.
  - destruct (pd.read_iso s) as [[f d]|]; [|discriminate]. apply mapM_length.
  - apply mapM_length.
Qed.

(** What a save or table event does, for every list of rows: [df] becomes
    the frame of the rows, over their keys; no cell outside the Date
    column is touched, whether the event goes through or raises. *)
Lemma save_branch
  (ps : list (string * list value)) (ds : list value) (prop_id : string)
  (ac sc : Z) (td : list record) (dob date : option string)
  (weight : option Number.t) (st : world) :
  trigger_of prop_id = "save-button" \/ trigger_of prop_id = "data-table" ->
  let run := update_data_and_chart ps ds prop_id ac sc td dob date weight st in
  let d' := df (snd run) in
  pd.columns d' = unique (flat_map (map fst) td)
  /\ length (pd.values d') = length td
  /\ (forall i r, nth_error td i = Some r ->
      exists row, nth_error (pd.values d') i = Some row
        /\ (forall c, c <> "Date" ->
                      pd.at_label (pd.columns d') row c = cell_of r c)).
Proof.
  intros Ht run d'. unfold d', run. rewrite (update_save _ _ _ _ _ _ _ _ _ _ Ht).
  cbv zeta. set (d0 := pd.DataFrame_records td).
  assert (Hraw :
    pd.columns d0 = unique (flat_map (map fst) td)
    /\ length (pd.values d0) = length td
    /\ (forall i r, nth_error td i = Some r ->
        exists row, nth_error (pd.values d0) i = Some row
          /\ (forall c, c <> "Date" ->
                        pd.at_label (pd.columns d0) row c = cell_of r c))).
  { split; [reflexivity|].
    split; [apply length_map|]. intros i r Hi.
    exists (map (cell_of r) (pd.columns d0)). split.
    - unfold d0 at 1. cbn [pd.DataFrame_records pd.values].
      rewrite nth_error_map, Hi. reflexivity.
    - pose proof (nth_error_In _ _ Hi) as Hin.
      intros c _. apply (records_at_label td r c Hin). }
  unfold pd.getitem. destruct (get_loc "Date" (pd.columns d0)) as [k|] eqn:Ek;
    cbn [rbind]; [|exact Hraw].
  set (col := map (fun row => nth k row NaN) (pd.values d0)).
  destruct (pd.to_datetime col) as [col'|e] eqn:Ec; cbn [rbind]; [|exact Hraw].
  pose proof (to_datetime_length _ _ Ec) as Hlen.
  unfold pd.setitem. unfold col in Hlen at 1. rewrite length_map in Hlen.
  rewrite Hlen, Nat.eqb_refl, Ek. cbn [snd df pd.columns pd.values].
  destruct Hraw as (_ & Hl0 & _).
  split; [reflexivity|]. split.
  { rewrite length_map, length_combine, Hlen, Nat.min_id. exact Hl0. }
  intros i r Hi. pose proof (nth_error_In _ _ Hi) as Hin.
  set (row0 := map (cell_of r) (pd.columns d0)).
  assert (Hrow0 : nth_error (pd.values d0) i = Some row0).
  { unfold d0 at 1. cbn [pd.DataFrame_records pd.values].
    rewrite nth_error_map, Hi. reflexivity. }
  destruct (nth_error col' i) as [v|] eqn:Hv.
  2:{ exfalso. apply nth_error_None in Hv.
      assert (i < length td)%nat by (apply nth_error_Some; congruence).
      rewrite Hlen, Hl0 in Hv. lia. }
  exists (set_nth k row0 v). split.
  { rewrite nth_error_map, (nth_error_combine _ _ _ _ _ Hrow0 Hv). reflexivity. }
  intros c Hc. unfold pd.at_label.
  destruct (get_loc c (pd.columns d0)) as [j|] eqn:Ej.
  + rewrite nth_set_nth_neq.
    * pose proof (records_at_label td r c Hin) as H. cbv zeta in H.
      unfold pd.at_label in H. fold d0 in H. rewrite Ej in H. exact H.
    * intros ->. apply get_loc_nth_error in Ej, Ek. congruence.
  + pose proof (records_at_label td r c Hin) as H. cbv zeta in H.
    unfold pd.at_label in H. fold d0 in H. rewrite Ej in H. exact H.
Qed.

(** *** Rows that follow the schema *)

Lemma records_schema_columns (suffix : string) (rows : list GrowthRecord) :
  rows <> [] ->
  unique (flat_map (map fst) (map (table_record suffix) rows)) = schema.
Proof.
  induction rows as [|g rows IH]; [congruence|]. intros _.
  destruct rows as [|g' rows].
  - reflexivity.
  - specialize (IH ltac:(discriminate)).
    change (unique (schema ++ flat_map (map fst)
                                (map (table_record suffix) (g' :: rows)))
            = schema).
    cbn [schema List.app unique]. rewrite IH. reflexivity.
Qed.

Lemma records_schema_rows (suffix : string) (rows : list GrowthRecord) :
  rows <> [] ->
  pd.DataFrame_records (map (table_record suffix) rows)
  = pd.mkframe schema
      (map (fun g => [Str (Calendar.isoformat (rec_date g) ++ suffix);
                      Num (Number.of_Z (rec_age_days g));
                      Num (rec_weight g)]) rows).
Proof.
  intros Hne. unfold pd.DataFrame_records.
  rewrite (records_schema_columns suffix rows Hne). f_equal.
  rewrite map_map. apply map_ext. intros g. reflexivity.
Qed.

Lemma iso_text_not_nat (d : Calendar.date) (f : pd.spelling) :
  Calendar.valid d = true ->
  pd.is_nat_text (Calendar.isoformat d ++ pd.time_text f) = false.
Proof.
  intros Hv.
  destruct (isoformat_shape d Hv)
    as (c1 & c2 & c3 & c4 & c5 & c6 & c7 & c8 & -> & _).
  unfold pd.is_nat_text, pd.nat_strings. cbn [existsb append].
  repeat match goal with
         | |- context [String.eqb ?s ?t] =>
             destruct (String.eqb_spec s t) as [E|_]; [discriminate E|]
         end.
  reflexivity.
Qed.

Lemma to_datetime_cell_iso (d : Calendar.date) (f : pd.spelling) :
  Calendar.valid d = true ->
  pd.to_datetime_cell f (Str (Calendar.isoformat d ++ pd.time_text f))
  = if pd.in_bounds d then Ok (Timestamp d) else Raise pd.out_of_bounds.
Proof.
  intros Hv. unfold pd.to_datetime_cell.
  now rewrite (iso_text_not_nat d f Hv), (read_iso_isoformat d f Hv),
    spelling_eqb_refl.
Qed.

(** A column of texts of days of the calendar in one spelling: every cell
    is read when all the days are within the bounds, and
    OutOfBoundsDatetime is raised when one is not. *)
Lemma to_datetime_iso {A} (date_of : A -> Calendar.date) (f : pd.spelling)
  (rows : list A) :
  Forall (fun g => Calendar.valid (date_of g) = true) rows ->
  pd.to_datetime
    (map (fun g => Str (Calendar.isoformat (date_of g) ++ pd.time_text f)) rows)
  = if forallb (fun g => pd.in_bounds (date_of g)) rows
    then Ok (map (fun g => Timestamp (date_of g)) rows)
    else Raise pd.out_of_bounds.
Proof.
  intros Hv.
  assert (Hm : mapM (pd.to_datetime_cell f)
                 (map (fun g => Str (Calendar.isoformat (date_of g)
                                     ++ pd.time_text f)) rows)
               = if forallb (fun g => pd.in_bounds (date_of g)) rows
                 then Ok (map (fun g => Timestamp (date_of g)) rows)
                 else Raise pd.out_of_bounds).
  { induction Hv as [|g rows Hg _ IH]; [reflexivity|].
    cbn [map mapM forallb]. rewrite (to_datetime_cell_iso _ f Hg), IH.
    destruct (pd.in_bounds (date_of g)); [|reflexivity].
    now destruct (forallb _ rows). }
  destruct Hv as [|g rows Hg Hrows]; [reflexivity|].
  unfold pd.to_datetime. cbn [map filter pd.missing].
  rewrite (iso_text_not_nat _ f Hg). cbn [negb].
  rewrite (read_iso_isoformat _ f Hg). exact Hm.
Qed.

(** Parsing the Date column of the rows as sent gives the store of the
    records. *)
Lemma schema_dates_parsed (f : pd.spelling) (rows : list GrowthRecord) :
  Forall (fun g => Calendar.valid (rec_date g) = true) rows ->
  let sent :=
    pd.mkframe schema
      (map (fun g => [Str (Calendar.isoformat (rec_date g) ++ pd.time_text f);
                      Num (Number.of_Z (rec_age_days g));
                      Num (rec_weight g)]) rows) in
  rbind (pd.getitem sent "Date") (fun col =>
    rbind (pd.to_datetime col) (fun col => pd.setitem sent "Date" col))
  = if forallb (fun g => pd.in_bounds (rec_date g)) rows
    then Ok (store_of rows) else Raise pd.out_of_bounds.
Proof.
  intros Hv sent. unfold sent, pd.getitem.
  cbn [pd.columns pd.values schema get_loc String.eqb Ascii.eqb Bool.eqb rbind].
  rewrite map_map. cbn [nth].
  rewrite (to_datetime_iso rec_date f rows Hv).
  destruct (forallb _ rows); [|reflexivity]. cbn [rbind].
  unfold pd.setitem. cbn [pd.columns pd.values].
  rewrite !length_map, Nat.eqb_refl.
  cbn [schema get_loc String.eqb Ascii.eqb Bool.eqb].
  unfold store_of. f_equal. f_equal.
  clear. induction rows as [|g rows IH]; [reflexivity|].
  cbn [map combine]. rewrite IH. reflexivity.
Qed.

(** A save or table event whose rows follow the schema, the dates in one
    spelling: when every date is within the bounds it leaves the store of
    those records and writes it to the blob; when one is not it raises
    with the rows as sent in [df] and nothing written. *)
Lemma save_schema_rows
  (ps : list (string * list value)) (ds : list value) (prop_id : string)
  (ac sc : Z) (dob date : option string) (weight : option Number.t)
  (st : world) (f : pd.spelling) (rows : list GrowthRecord) :
  trigger_of prop_id = "save-button" \/ trigger_of prop_id = "data-table" ->
  rows <> [] ->
  Forall (fun g => Calendar.valid (rec_date g) = true) rows ->
  update_data_and_chart ps ds prop_id ac sc
    (map (table_record (pd.time_text f)) rows) dob date weight st
  = if forallb (fun g => pd.in_bounds (rec_date g)) rows
    then (rbind (update_chart ps ds (store_of rows))
            (fun fig => Ok ("Changes saved successfully!", fig,
                            pd.to_dict_records (store_of rows))),
          mkworld (store_of rows)
            (write_csv_to_blob (store_of rows) baby_growth_blob (container st)))
    else (Raise pd.out_of_bounds,
          mkworld (pd.DataFrame_records
                     (map (table_record (pd.time_text f)) rows))
            (container st)).
Proof.
  intros Ht Hne Hv. rewrite (update_save _ _ _ _ _ _ _ _ _ _ Ht). cbv zeta.
  rewrite (records_schema_rows (pd.time_text f) rows Hne).
  rewrite (schema_dates_parsed f rows Hv).
  now destruct (forallb _ rows).
Qed.

Lemma save_df_independent
  (ps ps' : list (string * list value)) (ds ds' : list value)
  (prop_id prop_id' : string) (ac sc ac' sc' : Z) (td : list record)
  (dob date dob' date' : option string) (weight weight' : option Number.t)
  (st st' : world) :
  trigger_of prop_id = "save-button" \/ trigger_of prop_id = "data-table" ->
  trigger_of prop_id' = "save-button" \/ trigger_of prop_id' = "data-table" ->
  df (snd (update_data_and_chart ps ds prop_id ac sc td dob date weight st))
  = df (snd (update_data_and_chart ps' ds' prop_id' ac' sc' td dob' date'
               weight' st')).
Proof.
  intros Ht Ht'.
  rewrite (update_save _ _ _ _ _ _ _ _ _ _ Ht),
          (update_save _ _ _ _ _ _ _ _ _ _ Ht').
  cbv zeta.
  destruct (rbind (pd.getitem (pd.DataFrame_records td) "Date") _); reflexivity.
Qed.

Lemma getitem_setitem (d d' : pd.DataFrame) (c : string) (col : list value) :
  In c (pd.columns d) ->
  Forall (fun row => length row = length (pd.columns d)) (pd.values d) ->
  pd.setitem d c col = Ok d' ->
  pd.getitem d' c = Ok col.
Proof.
  intros Hin Hrect. unfold pd.setitem, pd.getitem.
  destruct (Nat.eqb_spec (length col) (length (pd.values d))) as [Hl|];
    [|discriminate].
  destruct (get_loc_In _ _ Hin) as [k Hk]. rewrite Hk. intros [= <-].
  cbn [pd.columns pd.values]. rewrite Hk. f_equal.
  pose proof (get_loc_nth_error _ _ _ Hk) as Hn.
  assert (Hlt : (k < length (pd.columns d))%nat)
    by (apply nth_error_Some; congruence).
  rewrite map_map. clear Hk Hn Hin. revert col Hl.
  induction Hrect as [|row rows Hrow _ IH]; intros [|v col]; cbn [length];
    try discriminate; [reflexivity|].
  intros [= Hl]. cbn [combine map fst snd].
  rewrite nth_set_nth_eq by lia. f_equal. now apply IH.
Qed.

Lemma records_date_column (td : list record) (r0 : record) (s : string) :
  In r0 td -> cell_of r0 "Date" = Str s ->
  pd.getitem (pd.DataFrame_records td) "Date"
  = Ok (map (fun r => cell_of r "Date") td)
  /\ In "Date" (pd.columns (pd.DataFrame_records td)).
Proof.
  intros Hin Hs.
  assert (Hkey : In "Date" (map fst r0)).
  { unfold cell_of in Hs. destruct (dict_get "Date" r0) as [j|] eqn:E;
      [|discriminate]. now apply dict_get_In in E. }
  pose proof (records_columns_key td r0 "Date" Hin Hkey) as Hcol.
  split; [|exact Hcol].
  destruct (getitem_In _ _ Hcol) as [col Hget]. rewrite Hget. f_equal.
  rewrite (getitem_at_label _ _ _ Hget).
  cbn [pd.DataFrame_records pd.values]. rewrite map_map.
  apply map_ext_in. intros r Hr. apply (records_at_label td r "Date" Hr).
Qed.

(** C3: a save or table event replaces the store wholesale by the rows it
    is given: one row per given row over the keys given, whatever was
    stored before; no cell outside the Date column is touched, so the
    Age_Days cell of every row is the one sent, not derived from the
    dates; the Date cells, when they are the texts of days within the
    bounds of datetime64[ns] in one spelling, are parsed to those days; so
    that any such date can end up stored next to any age. *)
Theorem replace_keeps_age_days_as_sent :
  forall (ps : list (string * list value)) (ds : list value)
         (prop_id : string) (ac sc : Z) (td : list record)
         (dob date : option string) (weight : option Number.t) (st : world),
    trigger_of prop_id = "save-button" \/ trigger_of prop_id = "data-table" ->
    let run st := update_data_and_chart ps ds prop_id ac sc td dob date
                    weight st in
    let d' := df (snd (run st)) in
    (forall st2, df (snd (run st2)) = d')
    /\ pd.columns d' = unique (flat_map (map fst) td)
    /\ length (pd.values d') = length td
    /\ (forall i r, nth_error td i = Some r ->
        exists row, nth_error (pd.values d') i = Some row
          /\ pd.at_label (pd.columns d') row "Age_Days" = cell_of r "Age_Days"
          /\ (forall c, c <> "Date" ->
                        pd.at_label (pd.columns d') row c = cell_of r c))
    /\ (forall (f : pd.spelling) (dates : list Calendar.date),
          td <> [] ->
          map (fun r => cell_of r "Date") td
          = map (fun d => Str (Calendar.isoformat d ++ pd.time_text f)) dates ->
          Forall (fun d => Calendar.valid d = true) dates ->
          Forall (fun d => pd.in_bounds d = true) dates ->
          pd.getitem d' "Date" = Ok (map Timestamp dates))
    /\ (forall (g : GrowthRecord) (birth : Calendar.date),
          Calendar.valid (rec_date g) = true ->
          pd.in_bounds (rec_date g) = true ->
          rec_age_days g <> Calendar.sub_days (rec_date g) birth ->
          df (snd (update_data_and_chart ps ds prop_id ac sc
                     [table_record "" g] dob date weight st))
          = pd.mkframe schema
              [[Timestamp (rec_date g); Num (Number.of_Z (rec_age_days g));
                Num (rec_weight g)]]).
Proof.
  intros ps ds prop_id ac sc td dob date weight st Ht run d'.
  split.
  { intros st2. unfold d', run. now apply save_df_independent. }
  destruct (save_branch ps ds prop_id ac sc td dob date weight st Ht)
    as (Hc & Hl & Hrows).
  split; [exact Hc|]. split; [exact Hl|]. split; [|split].
  - intros i r Hi. destruct (Hrows i r Hi) as (row & Hn & Hother).
    exists row. split; [exact Hn|]. split; [|exact Hother].
    apply Hother. discriminate.
  - intros f dates Hne Hdates Hv Hb. unfold d', run.
    rewrite (update_save _ _ _ _ _ _ _ _ _ _ Ht). cbv zeta.
    destruct td as [|r0 td0]; [congruence|].
    destruct dates as [|d0 dates0]; [discriminate|].
    set (td := r0 :: td0) in *. set (dates := d0 :: dates0) in *.
    destruct (records_date_column td r0
                (Calendar.isoformat d0 ++ pd.time_text f)
                (or_introl eq_refl)) as [Hget Hin].
    { now injection Hdates. }
    rewrite Hget, Hdates. cbn [rbind].
    rewrite (to_datetime_iso (fun d => d) f dates Hv).
    assert (Hall : forallb (fun d => pd.in_bounds d) dates = true).
    { apply forallb_forall. rewrite Forall_forall in Hb. exact Hb. }
    rewrite Hall. cbn [rbind].
    destruct (pd.setitem (pd.DataFrame_records td) "Date"
                (map (fun d => Timestamp d) dates)) as [d1|e] eqn:Es.
    + cbn [snd df].
      apply (getitem_setitem (pd.DataFrame_records td) d1 "Date" _ Hin);
        [|exact Es].
      cbn [pd.DataFrame_records pd.columns pd.values].
      apply Forall_forall. intros row Hrow.
      apply in_map_iff in Hrow as (r & <- & _). apply length_map.
    + exfalso. unfold pd.setitem in Es.
      cbn [pd.DataFrame_records pd.values] in Es.
      rewrite !length_map in Es.
      assert (Hlen : length dates = length td).
      { rewrite <- (length_map (fun d => Str (Calendar.isoformat d
                                                 ++ pd.time_text f)) dates),
          <- Hdates. apply length_map. }
      rewrite Hlen, Nat.eqb_refl in Es.
      destruct (get_loc "Date" _); discriminate.
  - intros g birth Hv Hb _.
    change [table_record "" g]
      with (map (table_record (pd.time_text pd.DateOnly)) [g]).
    rewrite (save_schema_rows ps ds prop_id ac sc dob date weight st
               pd.DateOnly [g] Ht);
      [|discriminate | now constructor].
    cbn [forallb]. rewrite Hb. reflexivity.
Qed.

Lemma replace_keeps_age_days_as_sent_witness :
  df (snd (update_data_and_chart curves_example (days who_example)
             "data-table.data" 1 0
             [schema_record "2024-02-01" (Number.of_Z 14) kg_4_2]
             None None None world_one_record))
  = pd.mkframe schema
      [[Timestamp (Calendar.mkdate 2024 2 1); Num (Number.of_Z 14); Num kg_4_2]]
  /\ Calendar.sub_days (Calendar.mkdate 2024 2 1) (Calendar.mkdate 2024 1 1) = 31.
Proof.
  split; [|reflexivity].
  refine (proj2 (proj2 (proj2 (proj2 (proj2
            (replace_keeps_age_days_as_sent curves_example (days who_example)
               "data-table.data" 1 0 [] None None None world_one_record
               (or_intror eq_refl))))))
            (mkrecord (Calendar.mkdate 2024 2 1) 14 kg_4_2)
            (Calendar.mkdate 2024 1 1) eq_refl eq_refl _).
  discriminate.
Defined.

(** ** The table with every row deleted *)

Lemma save_no_rows
  (ps : list (string * list value)) (ds : list value) (prop_id : string)
  (ac sc : Z) (dob date : option string) (weight : option Number.t)
  (st : world) :
  trigger_of prop_id = "save-button" \/ trigger_of prop_id = "data-table" ->
  update_data_and_chart ps ds prop_id ac sc [] dob date weight st
  = (Raise (KeyError "Date"), mkworld (pd.mkframe [] []) (container st)).
Proof.
  intros Ht. rewrite (update_save _ _ _ _ _ _ _ _ _ _ Ht). reflexivity.
Qed.

(** C9, as the code has it: a save or table event with no rows raises
    KeyError('Date') after [df] was replaced by the frame without columns
    and before anything is uploaded, so the table cannot store an empty
    dataset; an add event that follows still appends its record: the frame
    gets the three columns from the new record and follows the schema. *)
Theorem save_without_rows_raises :
  forall (who_data : who_table) (ps : list (string * list value))
         (prop_id : string) (ac sc : Z) (dob date : option string)
         (weight : option Number.t) (st : world),
    percentiles who_data = Ok ps ->
    trigger_of prop_id = "save-button" \/ trigger_of prop_id = "data-table" ->
    let run := update_data_and_chart ps (days who_data) prop_id ac sc []
                 dob date weight st in
    run = (Raise (KeyError "Date"), mkworld (pd.mkframe [] []) (container st))
    /\ container (snd run) = container st
    /\ forall (prop_id' : string) (ac' sc' : Z) (td' : list record)
              (dob' date' : string) (weight' : Number.t)
              (d1 d2 : Calendar.date),
         trigger_of prop_id' = "add-button" ->
         Calendar.strptime dob' = Ok d1 ->
         Calendar.strptime date' = Ok d2 ->
         let g := mkrecord d2 (Calendar.sub_days d2 d1) weight' in
         follows_schema (store_of [g]) = true
         /\ exists fig,
              update_data_and_chart ps (days who_data) prop_id' ac' sc' td'
                (Some dob') (Some date') (Some weight') (snd run)
              = (Ok ("Record added successfully!", fig,
                     pd.to_dict_records (store_of [g])),
                 mkworld (store_of [g])
                   ((baby_growth_blob, pd.to_csv (store_of [g]))
                    :: container st)).
Proof.
  intros who_data ps prop_id ac sc dob date weight st Hps Ht run.
  assert (E : run = (Raise (KeyError "Date"),
                     mkworld (pd.mkframe [] []) (container st))).
  { unfold run. now apply save_no_rows. }
  rewrite E. cbn [snd container]. split; [reflexivity|]. split; [reflexivity|].
  intros prop_id' ac' sc' td' dob' date' weight' d1 d2 Ht' H1 H2.
  split.
  { unfold follows_schema, store_of, frame_row, record_row.
    cbn [pd.columns pd.values map forallb rec_date rec_age_days rec_weight].
    destruct (list_eq_dec string_dec schema schema); [|congruence].
    rewrite (strptime_valid _ _ H2). reflexivity. }
  assert (Hg : add_guard (trigger_of prop_id') (Some dob') (Some date')
                 (Some weight') = Some (dob', date', weight')).
  { apply add_guard_Some. repeat split; try assumption.
    - eapply strptime_nonempty; eassumption.
    - eapply strptime_nonempty; eassumption. }
  destruct (add_branch who_data ps prop_id' ac' sc' td' (Some dob') (Some date')
              (Some weight') (mkworld (pd.mkframe [] []) (container st))
              dob' date' weight' d1 d2 Hps Hg H1 H2)
    as (fig & Hrun & _).
  exists fig. exact Hrun.
Qed.

Lemma save_without_rows_raises_witness :
  update_data_and_chart curves_example (days who_example) "data-table.data"
    1 0 [] (Some "2024-01-01") (Some "2024-01-15") (Some kg_4_2)
    world_one_record
  = (Raise (KeyError "Date"),
     mkworld (pd.mkframe [] []) (container world_one_record)).
Proof.
  exact (proj1 (save_without_rows_raises who_example curves_example
                  "data-table.data" 1 0 (Some "2024-01-01")
                  (Some "2024-01-15") (Some kg_4_2) world_one_record
                  eq_refl (or_intror eq_refl))).
Defined.

(** After every row was deleted and the event raised, an add event leaves
    a store that follows the schema and writes it under the three-column
    header, the same store and the same CSV as the same add event leaves
    when the program has just started without data: the add branch keeps
    to the schema. *)
Lemma add_after_rows_deleted_follows_schema :
  let add := update_data_and_chart curves_example (days who_example)
               "add-button.n_clicks" 2 0 [] (Some "2024-01-01")
               (Some "2024-02-01") (Some kg_4_5) in
  let w := snd (add world_rows_deleted) in
  df world_rows_deleted = pd.mkframe [] []
  /\ follows_schema (df w) = true
  /\ download_blob baby_growth_blob (container w)
     = Ok ("Date,Age_Days,Weight_kg" ++ pd.newline
           ++ "2024-02-01,31,4.5" ++ pd.newline)
  /\ df w = df (snd (add fresh_world))
  /\ download_blob baby_growth_blob (container w)
     = download_blob baby_growth_blob (container (snd (add fresh_world))).
Proof. vm_compute. repeat split. Qed.

(** C6 at the table with no rows: deleting the only row of the table
    raises and uploads nothing, so the blob still holds the record, and
    what a restart loads is not the rows the table sent. *)
Theorem rows_deleted_not_persisted :
  fst (update_data_and_chart curves_example (days who_example)
         "data-table.data" 1 0 [] (Some "2024-01-01") (Some "2024-01-15")
         (Some kg_4_2) world_one_record)
  = Raise (KeyError "Date")
  /\ container world_rows_deleted = container world_one_record
  /\ pd.values (df world_rows_deleted) = []
  /\ load_df (container world_rows_deleted)
     = store_of [mkrecord (Calendar.mkdate 2024 1 15) 14 kg_4_2].
Proof. vm_compute. repeat split. Qed.

(** ** Numbers: printing and reading back *)

Lemma all_chars_app (p : ascii -> bool) (a b : string) :
  all_chars p (a ++ b) = all_chars p a && all_chars p b.
Proof.
  induction a as [|c a IH]; cbn; [reflexivity|].
  now rewrite IH, andb_assoc.
Qed.

Lemma all_chars_impl (p q : ascii -> bool) (s : string) :
  (forall c, p c = true -> q c = true) ->
  all_chars p s = true -> all_chars q s = true.
Proof.
  intros H. induction s as [|c s IH]; cbn; [reflexivity|].
  rewrite !andb_true_iff. intros [Hc Hs]. auto.
Qed.

Lemma digits_of_uint (u : uint) :
  all_chars is_digit (NilEmpty.string_of_uint u) = true.
Proof. induction u; cbn; auto. Qed.

Lemma digits_of_N (n : N) :
  all_chars is_digit (NilZero.string_of_uint (N.to_uint n)) = true.
Proof.
  unfold NilZero.string_of_uint.
  destruct (N.to_uint n); try reflexivity; apply digits_of_uint.
Qed.

Lemma is_digit_not (c d : ascii) :
  is_digit c = true -> is_digit d = false -> Ascii.eqb c d = false.
Proof.
  intros Hc Hd. destruct (Ascii.eqb_spec c d) as [->|]; congruence.
Qed.

Lemma cut_app (sep : ascii) (s r : string) :
  all_chars (fun c => negb (Ascii.eqb c sep)) s = true ->
  cut sep (s ++ r)
  = (s ++ fst (cut sep r), snd (cut sep r)).
Proof.
  induction s as [|c s IH]; cbn [append all_chars cut].
  - intros _. now destruct (cut sep r).
  - rewrite andb_true_iff, negb_true_iff. intros [Hc Hs].
    rewrite Hc, (IH Hs). reflexivity.
Qed.

Lemma digits_no_sep (sep : ascii) (s : string) :
  is_digit sep = false ->
  all_chars is_digit s = true ->
  all_chars (fun c => negb (Ascii.eqb c sep)) s = true.
Proof.
  intros Hsep. apply all_chars_impl. intros c Hc.
  now rewrite (is_digit_not c sep Hc Hsep).
Qed.

Lemma fraction_round_trip (f : Number.fraction) :
  Number.fraction_of_string (Number.string_of_fraction f) = Some (Some f).
Proof.
  induction f as [d|d f IH]; cbn [Number.string_of_fraction Number.fraction_of_string].
  - destruct d; reflexivity.
  - rewrite IH. destruct d as [|d]; [reflexivity|]. destruct d; reflexivity.
Qed.

Lemma unsigned_round_trip (ng : bool) (ip : N) (fr : option Number.fraction) :
  Number.unsigned_of_string ng
    (NilZero.string_of_uint (N.to_uint ip)
     ++ match fr with
        | None => ""
        | Some f => "." ++ Number.string_of_fraction f
        end)
  = Some (Number.mknum ng ip fr).
Proof.
  unfold Number.unsigned_of_string.
  rewrite cut_app
    by (apply digits_no_sep; [reflexivity | apply digits_of_N]).
  assert (Hu : NilZero.uint_of_string (NilZero.string_of_uint (N.to_uint ip))
               = Some (N.to_uint ip)).
  { apply NilZero.usu. destruct ip as [|p]; [discriminate|].
    apply DecimalPos.Unsigned.to_uint_nonnil. }
  destruct fr as [f|]; cbn [cut fst snd append Ascii.eqb Bool.eqb].
  - rewrite append_nil_r, Hu, fraction_round_trip, DecimalN.Unsigned.of_to.
    reflexivity.
  - rewrite append_nil_r, Hu, DecimalN.Unsigned.of_to. reflexivity.
Qed.

Lemma of_string_digit (c : ascii) (s : string) :
  is_digit c = true ->
  Number.of_string (String c s) = Number.unsigned_of_string false (String c s).
Proof.
  destruct c as [[|] [|] [|] [|] [|] [|] [|] [|]];
    try discriminate; reflexivity.
Qed.

(** A number is read back from its text. *)
Lemma number_round_trip (n : Number.t) :
  Number.of_string (Number.to_string n) = Some n.
Proof.
  destruct n as [ng ip fr]. unfold Number.to_string.
  cbn [Number.neg Number.int_part Number.frac].
  destruct ng.
  - cbn [append Number.of_string]. apply unsigned_round_trip.
  - cbn [append].
    pose proof (digits_of_N ip) as Hd.
    pose proof (unsigned_round_trip false ip fr) as Hr.
    destruct (NilZero.string_of_uint (N.to_uint ip)) as [|c s] eqn:E.
    + exfalso. unfold NilZero.string_of_uint in E.
      destruct (N.to_uint ip); discriminate.
    + cbn [append] in *. cbn [all_chars] in Hd.
      apply andb_true_iff in Hd as [Hc _].
      rewrite (of_string_digit c _ Hc). exact Hr.
Qed.

(** ** The reference curve loader *)

Lemma plain_to_string (n : Number.t) :
  all_chars plain_char (Number.to_string n) = true.
Proof.
  unfold Number.to_string. rewrite !all_chars_app, !andb_true_iff.
  repeat split.
  - destruct (Number.neg n); reflexivity.
  - apply (all_chars_impl is_digit); [|apply digits_of_N].
    intros c Hc. unfold plain_char. now rewrite Hc.
  - destruct (Number.frac n) as [f|]; [|reflexivity].
    cbn [append all_chars]. change (plain_char ".") with true. cbn [andb].
    induction f as [d|d f IH]; cbn [Number.string_of_fraction all_chars].
    + destruct d; reflexivity.
    + rewrite IH, andb_true_r. destruct d as [|d]; [reflexivity|].
      destruct d; reflexivity.
Qed.

Lemma comma_and_back (s : string) :
  all_chars plain_char s = true ->
  str_replace "," "." (str_replace "." "," s) = s.
Proof.
  induction s as [|c s IH]; cbn [all_chars str_replace]; [reflexivity|].
  rewrite andb_true_iff. intros [Hc Hs].
  destruct (Ascii.eqb_spec c ".") as [->|Hdot].
  - cbn. now rewrite (IH Hs).
  - cbn [str_replace].
    destruct (Ascii.eqb_spec c ",") as [->|Hcomma]; [discriminate|].
    now rewrite (IH Hs).
Qed.

Lemma to_numeric_comma_decimal (n : Number.t) :
  to_numeric_cell (option_map (str_replace "," ".") (Some (comma_decimal n)))
  = Num n.
Proof.
  unfold comma_decimal. cbn [option_map to_numeric_cell].
  now rewrite (comma_and_back _ (plain_to_string n)), number_round_trip.
Qed.

(** C8 at a reference table one of whose percentile columns is written in
    whole numbers: read_csv reads that column as numbers, a column of
    numbers has no .str accessor, and the start of the program raises
    AttributeError instead of giving the curves, although every field of
    the table reads as a number.  In a column that has a decimal comma
    somewhere the same whole number is parsed like any other field. *)
Theorem whole_number_column_stops_the_loader :
  who_csv who_rows_whole_p50
  = "Week;P5;P10;P50;P90;P95" ++ pd.newline
    ++ "0;2,5;2,7;3;3,9;4,1" ++ pd.newline
    ++ "1;2,6;2,8;4;4;4,2" ++ pd.newline
  /\ rbind (pd.read_csv (who_csv who_rows_whole_p50) ";")
       (fun who_data => pd.getitem who_data "P50")
     = Ok [Num (Number.of_Z 3); Num (Number.of_Z 4)]
  /\ start [(who_data_blob, who_csv who_rows_whole_p50)]
     = Raise (AttributeError "Can only use .str accessor with string values!")
  /\ rbind (pd.read_csv (who_csv who_rows_whole_p50) ";")
       (fun who_data => frame_percentile who_data "P90")
     = Ok [Num (Number.mknum false 3 (Some (Number.Last Number.N9)));
           Num (Number.of_Z 4)].
Proof. vm_compute. repeat split. Qed.

(** The same on the reference table as the chart theorems take it: a
    percentile column that read_csv made numeric stops the loader. *)
Lemma numeric_column_raises :
  percentiles who_whole_numbers
  = Raise (AttributeError "Can only use .str accessor with string values!").
Proof. reflexivity. Qed.

(** ** The chart *)

(** C4: for every reference curve set, the chart of an empty store has
    exactly seven traces, two bands and then the five percentile lines;
    the chart of a store that is not empty has an eighth, named "Baby's
    Growth", whose points are the (Age_Days, Weight_kg) pairs of the stored
    rows, one per row and in their order. *)
Theorem chart_traces :
  forall (who_data : who_table) (ps : list (string * list value))
         (d : pd.DataFrame),
    percentiles who_data = Ok ps ->
    let reference (fig : Figure) :=
      map fill (firstn 7 (data fig))
      = [Some "toself"; Some "toself"; None; None; None; None; None]
      /\ map mode (firstn 7 (data fig))
         = [None; None; Some "lines"; Some "lines"; Some "lines";
            Some "lines"; Some "lines"]
      /\ map name (firstn 7 (data fig))
         = [None; None; Some "5th Percentile"; Some "10th Percentile";
            Some "50th Percentile"; Some "90th Percentile";
            Some "95th Percentile"] in
    (pd.empty d = true ->
     exists fig,
       update_chart ps (days who_data) d = Ok fig
       /\ length (data fig) = 7%nat
       /\ reference fig)
    /\ (pd.empty d = false ->
        In "Age_Days" (pd.columns d) ->
        In "Weight_kg" (pd.columns d) ->
        exists fig t,
          update_chart ps (days who_data) d = Ok fig
          /\ length (data fig) = 8%nat
          /\ reference fig
          /\ nth_error (data fig) 7 = Some t
          /\ name t = Some "Baby's Growth"
          /\ mode t = Some "lines+markers"
          /\ length (x t) = length (pd.values d)
          /\ combine (x t) (y t)
             = map (fun row => (pd.at_label (pd.columns d) row "Age_Days",
                                pd.at_label (pd.columns d) row "Weight_kg"))
                 (pd.values d)).
Proof.
  intros who_data ps d Hps reference.
  destruct (percentiles_inv _ _ Hps) as (p5 & p10 & p50 & p90 & p95 & -> & _).
  split.
  - intros He.
    destruct (update_chart_empty (days who_data) p5 p10 p50 p90 p95 d He)
      as [lay ->].
    eexists. split; [reflexivity|]. split; [reflexivity|].
    repeat split.
  - intros He Ha Hw.
    destruct (getitem_In _ _ Ha) as [ages Hages].
    destruct (getitem_In _ _ Hw) as [ws Hws].
    destruct (update_chart_nonempty (days who_data) p5 p10 p50 p90 p95 d
                ages ws He Hages Hws) as [lay ->].
    eexists. eexists. split; [reflexivity|]. split; [reflexivity|].
    split; [repeat split|]. split; [reflexivity|].
    cbn [name mode x y]. split; [reflexivity|]. split; [reflexivity|].
    split.
    + now apply getitem_length with (c := "Age_Days").
    + rewrite (getitem_at_label _ _ _ Hages), (getitem_at_label _ _ _ Hws).
      apply combine_map_same.
Qed.

Lemma chart_traces_witness :
  (exists fig, update_chart curves_example (days who_example) (df fresh_world)
               = Ok fig /\ length (data fig) = 7%nat)
  /\ (exists fig t,
        update_chart curves_example (days who_example) (df world_one_record)
        = Ok fig
        /\ length (data fig) = 8%nat
        /\ nth_error (data fig) 7 = Some t
        /\ combine (x t) (y t) = [(Num (Number.of_Z 14), Num kg_4_2)]).
Proof.
  split.
  - destruct (proj1 (chart_traces who_example curves_example (df fresh_world)
                       eq_refl) eq_refl) as (fig & E & L & _).
    exists fig. split; assumption.
  - assert (Ha : In "Age_Days" (pd.columns (df world_one_record)))
      by (vm_compute; tauto).
    assert (Hw : In "Weight_kg" (pd.columns (df world_one_record)))
      by (vm_compute; tauto).
    destruct (proj2 (chart_traces who_example curves_example
                       (df world_one_record) eq_refl) eq_refl Ha Hw)
      as (fig & t & E & L & _ & Ht & _ & _ & _ & Hxy).
    exists fig, t. repeat split; assumption.
Defined.

(** C5: in every chart the builder returns, the first trace is the closed
    band under the 95th and over the 5th percentile: its x runs through
    the age axis and back, its y through the 95th percentile values and
    then the 5th percentile values reversed; the second trace is the same
    over the 90th and 10th percentiles in a darker grey; on both, hover is
    skipped and the legend entry is off. *)
Theorem chart_bands :
  forall (who_data : who_table) (ps : list (string * list value))
         (d : pd.DataFrame) (fig : Figure),
    percentiles who_data = Ok ps ->
    update_chart ps (days who_data) d = Ok fig ->
    exists p5 p10 p90 p95 t1 t2 rest grey1 grey2 alpha,
      percentile_of (P5 who_data) = Ok p5
      /\ percentile_of (P10 who_data) = Ok p10
      /\ percentile_of (P90 who_data) = Ok p90
      /\ percentile_of (P95 who_data) = Ok p95
      /\ data fig = t1 :: t2 :: rest
      /\ x t1 = (days who_data ++ List.rev (days who_data))%list
      /\ y t1 = (p95 ++ List.rev p5)%list
      /\ x t2 = (days who_data ++ List.rev (days who_data))%list
      /\ y t2 = (p90 ++ List.rev p10)%list
      /\ List.rev (x t1) = x t1
      /\ fill t1 = Some "toself" /\ fill t2 = Some "toself"
      /\ fillcolor t1 = Some (rgba grey1 grey1 grey1 alpha)
      /\ fillcolor t2 = Some (rgba grey2 grey2 grey2 alpha)
      /\ grey2 < grey1
      /\ hoverinfo t1 = Some "skip" /\ hoverinfo t2 = Some "skip"
      /\ showlegend t1 = Some false /\ showlegend t2 = Some false.
Proof.
  intros who_data ps d fig Hps Hfig.
  destruct (percentiles_inv _ _ Hps)
    as (p5 & p10 & p50 & p90 & p95 & -> & E5 & E10 & E50 & E90 & E95).
  pose proof (update_chart_bands _ _ _ _ _ _ _ _ Hfig) as Hb.
  destruct (data fig) as [|t1 [|t2 rest]]; try discriminate.
  cbn [firstn] in Hb. injection Hb as -> ->.
  exists p5, p10, p90, p95. do 3 eexists. exists 200, 150, alpha_0_3.
  repeat split; try assumption; try reflexivity.
  cbn [x band]. rewrite rev_app_distr, rev_involutive. reflexivity.
Qed.

Lemma chart_bands_witness :
  exists fig t1 t2 rest,
    update_chart curves_example (days who_example) (df world_one_record)
    = Ok fig
    /\ data fig = t1 :: t2 :: rest
    /\ x t1 = [Num (Number.of_Z 0); Num (Number.of_Z 7); Num (Number.of_Z 14);
               Num (Number.of_Z 14); Num (Number.of_Z 7); Num (Number.of_Z 0)]
    /\ hoverinfo t2 = Some "skip".
Proof.
  destruct (update_chart curves_example (days who_example)
              (df world_one_record)) as [fig|e] eqn:E;
    [|vm_compute in E; discriminate].
  destruct (chart_bands who_example curves_example (df world_one_record) fig
              eq_refl E)
    as (p5 & p10 & p90 & p95 & t1 & t2 & rest & g1 & g2 & a & _ & _ & _ & _
        & Hd & Hx & _ & _ & _ & _ & _ & _ & _ & _ & _ & _ & Hh & _).
  exists fig, t1, t2, rest. repeat split; assumption.
Defined.



(** ** Lists *)

Lemma filter_all {A} (p : A -> bool) (l : list A) :
  (forall a, In a l -> p a = true) -> filter p l = l.
Proof.
  induction l as [|a l IH]; cbn; [reflexivity|]. intros H.
  rewrite (H a (or_introl eq_refl)), IH; auto.
Qed.

Lemma forallb_map {A B} (p : B -> bool) (f : A -> B) (l : list A) :
  forallb p (map f l) = forallb (fun a => p (f a)) l.
Proof. induction l as [|a l IH]; cbn; [reflexivity | now rewrite IH]. Qed.

Lemma get_loc_None_inv (c : string) (cols : list string) :
  get_loc c cols = None -> ~ In c cols.
Proof.
  intros H Hin. destruct (get_loc_In c cols Hin). congruence.
Qed.

(** ** Writing the CSV and reading it back *)

Lemma split_plain (sep : ascii) (s : string) :
  all_chars (fun c => negb (Ascii.eqb c sep)) s = true ->
  pd.split sep s = [s].
Proof.
  induction s as [|c s IH]; cbn [all_chars pd.split]; [reflexivity|].
  rewrite andb_true_iff, negb_true_iff. intros [Hc Hs].
  now rewrite Hc, (IH Hs).
Qed.

Lemma split_app (sep : ascii) (s r : string) :
  all_chars (fun c => negb (Ascii.eqb c sep)) s = true ->
  pd.split sep (s ++ String sep r) = s :: pd.split sep r.
Proof.
  induction s as [|c s IH]; cbn [all_chars append pd.split].
  - intros _. now rewrite Ascii.eqb_refl.
  - rewrite andb_true_iff, negb_true_iff. intros [Hc Hs].
    now rewrite Hc, (IH Hs).
Qed.

Lemma split_join (sep : ascii) (fields : list string) :
  fields <> [] ->
  Forall (fun s => all_chars (fun c => negb (Ascii.eqb c sep)) s = true) fields ->
  pd.split sep (pd.join (String sep "") fields) = fields.
Proof.
  intros Hne Hall. unfold pd.join.
  induction Hall as [|f fields Hf Hfs IH]; [congruence|].
  destruct fields as [|g fields].
  - cbn [String.concat]. now apply split_plain.
  - cbn [String.concat]. cbn [append]. rewrite (split_app sep f _ Hf).
    f_equal. apply IH. discriminate.
Qed.

Lemma split_lines (ls : list string) :
  Forall (fun s => all_chars (fun c => negb (Ascii.eqb c (ascii_of_nat 10))) s
                   = true) ls ->
  pd.split (ascii_of_nat 10)
    (String.concat "" (map (fun l => l ++ pd.newline) ls))
  = (ls ++ [""])%list.
Proof.
  induction 1 as [|l ls Hl _ IH]; [reflexivity|].
  cbn [map List.app].
  assert (E : String.concat "" ((l ++ pd.newline) :: map (fun l => l ++ pd.newline) ls)
              = l ++ String (ascii_of_nat 10)
                       (String.concat "" (map (fun l => l ++ pd.newline) ls))).
  { destruct (map (fun l0 => l0 ++ pd.newline) ls) as [|x xs] eqn:E.
    - cbn [String.concat]. reflexivity.
    - cbn [String.concat]. cbn [append]. unfold pd.newline.
      now rewrite append_assoc. }
  rewrite E, (split_app _ l _ Hl), IH. reflexivity.
Qed.

Lemma digit_is_plain (c : ascii) : is_digit c = true -> plain_char c = true.
Proof. intros H. unfold plain_char. now rewrite H. Qed.

Lemma plain_is_date_char (c : ascii) : plain_char c = true -> date_char c = true.
Proof. intros H. unfold date_char. now rewrite H. Qed.

Lemma isoformat_plain (d : Calendar.date) :
  Calendar.valid d = true ->
  all_chars plain_char (Calendar.isoformat d) = true.
Proof.
  intros Hv.
  destruct (isoformat_shape d Hv)
    as (c1 & c2 & c3 & c4 & c5 & c6 & c7 & c8 & -> & H1 & H2 & H3 & H4 & H5
        & H6 & H7 & H8).
  cbn [all_chars].
  rewrite (digit_is_plain c1 H1), (digit_is_plain c2 H2), (digit_is_plain c3 H3),
    (digit_is_plain c4 H4), (digit_is_plain c5 H5), (digit_is_plain c6 H6),
    (digit_is_plain c7 H7), (digit_is_plain c8 H8).
  reflexivity.
Qed.

(** The text of a date in a spelling is written with the characters of
    dates. *)
Lemma iso_text_chars (d : Calendar.date) (f : pd.spelling) :
  Calendar.valid d = true ->
  all_chars date_char (Calendar.isoformat d ++ pd.time_text f) = true.
Proof.
  intros Hv. rewrite all_chars_app.
  rewrite (all_chars_impl plain_char date_char _ plain_is_date_char
             (isoformat_plain d Hv)).
  now destruct f.
Qed.

Lemma plain_no_sep (sep : ascii) (s : string) :
  plain_char sep = false ->
  all_chars plain_char s = true ->
  all_chars (fun c => negb (Ascii.eqb c sep)) s = true.
Proof.
  intros Hsep. apply all_chars_impl. intros c Hc.
  destruct (Ascii.eqb_spec c sep) as [->|]; [congruence | reflexivity].
Qed.

Lemma date_no_sep (sep : ascii) (s : string) :
  date_char sep = false ->
  all_chars date_char s = true ->
  all_chars (fun c => negb (Ascii.eqb c sep)) s = true.
Proof.
  intros Hsep. apply all_chars_impl. intros c Hc.
  destruct (Ascii.eqb_spec c sep) as [->|]; [congruence | reflexivity].
Qed.

Lemma date_not_na (s : string) :
  all_chars date_char s = true -> s <> "" -> pd.is_na s = false.
Proof.
  intros Hp Hne. unfold pd.is_na, pd.na_values. cbn [existsb].
  repeat match goal with
         | |- context [String.eqb s ?t] =>
             destruct (String.eqb_spec s t) as [->|_];
             [first [congruence | discriminate] |]
         end.
  reflexivity.
Qed.

Lemma plain_not_na (s : string) :
  all_chars plain_char s = true -> s <> "" -> pd.is_na s = false.
Proof.
  intros Hp. apply date_not_na.
  exact (all_chars_impl plain_char date_char s plain_is_date_char Hp).
Qed.

Lemma uint_of_string_digits (s : string) (u : uint) :
  NilEmpty.uint_of_string s = Some u -> all_chars is_digit s = true.
Proof.
  intros H. apply NilEmpty.sus in H. subst s. apply digits_of_uint.
Qed.

Lemma cut_absent (sep : ascii) (s : string) :
  all_chars (fun c => negb (Ascii.eqb c sep)) s = true ->
  cut sep s = (s, None).
Proof.
  induction s as [|c s IH]; cbn [all_chars cut]; [reflexivity|].
  rewrite andb_true_iff, negb_true_iff. intros [Hc Hs].
  now rewrite Hc, (IH Hs).
Qed.

Lemma iso_text_not_numeric (d : Calendar.date) (f : pd.spelling) :
  Calendar.valid d = true ->
  pd.is_numeric (Calendar.isoformat d ++ pd.time_text f) = false.
Proof.
  intros Hv. unfold pd.is_numeric.
  destruct (isoformat_shape d Hv)
    as (c1 & c2 & c3 & c4 & c5 & c6 & c7 & c8 & E & H1 & H2 & H3 & H4 & H5
        & H6 & H7 & H8).
  rewrite E. cbn [append].
  rewrite (of_string_digit c1 _ H1).
  unfold Number.unsigned_of_string.
  rewrite cut_absent.
  2:{ cbn [all_chars].
      rewrite (is_digit_not c1 "." H1 eq_refl), (is_digit_not c2 "." H2 eq_refl),
        (is_digit_not c3 "." H3 eq_refl), (is_digit_not c4 "." H4 eq_refl),
        (is_digit_not c5 "." H5 eq_refl), (is_digit_not c6 "." H6 eq_refl),
        (is_digit_not c7 "." H7 eq_refl), (is_digit_not c8 "." H8 eq_refl).
      now destruct f. }
  set (s := String c1 _).
  destruct (NilZero.uint_of_string s) as [u|] eqn:Eu; [|reflexivity].
  exfalso. unfold NilZero.uint_of_string, s in Eu.
  apply uint_of_string_digits in Eu. cbn [all_chars] in Eu.
  rewrite H1, H2, H3, H4 in Eu. discriminate.
Qed.

Lemma to_string_nonempty (n : Number.t) : Number.to_string n <> "".
Proof.
  intros E. pose proof (number_round_trip n) as H. rewrite E in H. discriminate.
Qed.

Lemma read_number_field (n : Number.t) :
  pd.read_field true (Number.to_string n) = Num n.
Proof.
  unfold pd.read_field.
  rewrite (plain_not_na _ (plain_to_string n) (to_string_nonempty n)).
  now rewrite number_round_trip.
Qed.

Lemma number_field_numeric (n : Number.t) :
  pd.is_na (Number.to_string n) || pd.is_numeric (Number.to_string n) = true.
Proof.
  unfold pd.is_numeric. rewrite number_round_trip. apply orb_true_r.
Qed.

Lemma iso_text_nonempty (d : Calendar.date) (f : pd.spelling) :
  Calendar.valid d = true -> (Calendar.isoformat d ++ pd.time_text f)%string <> "".
Proof.
  intros Hv E.
  destruct (isoformat_shape d Hv) as (? & ? & ? & ? & ? & ? & ? & ? & E' & _).
  rewrite E' in E. discriminate.
Qed.

Lemma read_date_field (d : Calendar.date) (f : pd.spelling) :
  Calendar.valid d = true ->
  pd.read_field false (Calendar.isoformat d ++ pd.time_text f)
  = Str (Calendar.isoformat d ++ pd.time_text f).
Proof.
  intros Hv. unfold pd.read_field.
  now rewrite (date_not_na _ (iso_text_chars d f Hv) (iso_text_nonempty d f Hv)).
Qed.

(** The fields of the line of the CSV for a record, the date in the
    spelling [f]. *)
Lemma csv_fields_chars (f : pd.spelling) (g : GrowthRecord) :
  Calendar.valid (rec_date g) = true ->
  Forall (fun s => all_chars date_char s = true)
    [Calendar.isoformat (rec_date g) ++ pd.time_text f;
     Number.to_string (Number.of_Z (rec_age_days g));
     Number.to_string (rec_weight g)].
Proof.
  intros Hv. repeat constructor.
  - now apply iso_text_chars.
  - exact (all_chars_impl _ _ _ plain_is_date_char (plain_to_string _)).
  - exact (all_chars_impl _ _ _ plain_is_date_char (plain_to_string _)).
Qed.

Lemma join_chars (p : ascii -> bool) (sep : string) (fields : list string) :
  all_chars p sep = true ->
  Forall (fun s => all_chars p s = true) fields ->
  all_chars p (pd.join sep fields) = true.
Proof.
  intros Hsep Hall. unfold pd.join.
  induction Hall as [|f fields Hf Hfs IH]; [reflexivity|].
  destruct fields as [|g fields]; [exact Hf|].
  cbn [String.concat]. rewrite !all_chars_app, Hf, Hsep. exact IH.
Qed.

Lemma split_csv_line (f : pd.spelling) (g : GrowthRecord) :
  Calendar.valid (rec_date g) = true ->
  pd.split ","
    (pd.join "," [Calendar.isoformat (rec_date g) ++ pd.time_text f;
                  Number.to_string (Number.of_Z (rec_age_days g));
                  Number.to_string (rec_weight g)])
  = [Calendar.isoformat (rec_date g) ++ pd.time_text f;
     Number.to_string (Number.of_Z (rec_age_days g));
     Number.to_string (rec_weight g)].
Proof.
  intros Hv. apply (split_join ","); [discriminate|].
  eapply Forall_impl; [|apply (csv_fields_chars f g Hv)].
  intros s. now apply date_no_sep.
Qed.

Lemma csv_line_one_line (f : pd.spelling) (g : GrowthRecord) :
  Calendar.valid (rec_date g) = true ->
  all_chars (fun c => negb (Ascii.eqb c (ascii_of_nat 10)))
    (pd.join "," [Calendar.isoformat (rec_date g) ++ pd.time_text f;
                  Number.to_string (Number.of_Z (rec_age_days g));
                  Number.to_string (rec_weight g)]) = true.
Proof.
  intros Hv.
  apply (all_chars_impl (fun c => date_char c || Ascii.eqb c ",")).
  - intros c Hc. destruct (Ascii.eqb_spec c (ascii_of_nat 10)) as [->|];
      [discriminate | reflexivity].
  - apply join_chars; [reflexivity|].
    eapply Forall_impl; [|apply (csv_fields_chars f g Hv)].
    intros s. apply all_chars_impl. intros c Hc. now rewrite Hc.
Qed.

Lemma csv_line_nonempty (f : pd.spelling) (g : GrowthRecord) :
  Calendar.valid (rec_date g) = true ->
  negb (String.eqb
          (pd.join "," [Calendar.isoformat (rec_date g) ++ pd.time_text f;
                        Number.to_string (Number.of_Z (rec_age_days g));
                        Number.to_string (rec_weight g)]) "") = true.
Proof.
  intros Hv. unfold pd.join. cbn [String.concat].
  destruct (isoformat_shape _ Hv) as (? & ? & ? & ? & ? & ? & ? & ? & -> & _).
  reflexivity.
Qed.

Lemma filter_all_app_blank (ls : list string) :
  Forall (fun l => negb (String.eqb l "") = true) ls ->
  filter (fun l => negb (String.eqb l "")) (ls ++ [""]) = ls.
Proof.
  intros H. rewrite filter_app. cbn. rewrite app_nil_r.
  apply filter_all. intros l Hl. rewrite Forall_forall in H. now apply H.
Qed.

(** The CSV of a store of records: the header and a line per record, the
    dates in the spelling the dtype of the Date column gives. *)
Lemma to_csv_store_of (rows : list GrowthRecord) :
  pd.to_csv (store_of rows)
  = String.concat ""
      (map (fun l => l ++ pd.newline)
         (pd.join "," schema
          :: map (fun g =>
                    pd.join ","
                      [Calendar.isoformat (rec_date g)
                       ++ pd.time_text (written_spelling rows);
                       Number.to_string (Number.of_Z (rec_age_days g));
                       Number.to_string (rec_weight g)]) rows)).
Proof.
  unfold pd.to_csv, store_of, pd.datetime64_columns.
  cbn [pd.columns pd.values schema length seq map].
  rewrite !map_map. f_equal. f_equal.
  apply map_ext. intros g. f_equal. f_equal.
  unfold pd.datetime64. rewrite !forallb_map.
  unfold pd.csv_row, frame_row, record_row. cbn [combine map fst snd nth].
  unfold written_spelling. cbn [pd.csv_field].
  destruct (forallb (fun a : GrowthRecord => pd.in_bounds (rec_date a)) rows);
    [now rewrite append_nil_r | reflexivity].
Qed.

(** Reading the lines of records back gives the records, the dates as the
    text they were written as. *)
Lemma read_csv_lines (f : pd.spelling) (rows : list GrowthRecord) :
  Forall (fun g => Calendar.valid (rec_date g) = true) rows ->
  pd.read_csv
    (String.concat ""
       (map (fun l => l ++ pd.newline)
          (pd.join "," schema
           :: map (fun g =>
                     pd.join ","
                       [Calendar.isoformat (rec_date g) ++ pd.time_text f;
                        Number.to_string (Number.of_Z (rec_age_days g));
                        Number.to_string (rec_weight g)]) rows))) ","
  = Ok (pd.mkframe schema
          (map (fun g => [Str (Calendar.isoformat (rec_date g)
                               ++ pd.time_text f);
                          Num (Number.of_Z (rec_age_days g));
                          Num (rec_weight g)]) rows)).
Proof.
  intros Hv. unfold pd.read_csv. rewrite split_lines.
  2:{ constructor; [reflexivity|].
      apply Forall_map. eapply Forall_impl; [|exact Hv].
      intros g Hg. now apply csv_line_one_line. }
  rewrite filter_all_app_blank.
  2:{ constructor; [reflexivity|].
      apply Forall_map. eapply Forall_impl; [|exact Hv].
      intros g Hg. now apply csv_line_nonempty. }
  cbv beta iota zeta.
  change (pd.split "," (pd.join "," schema)) with schema.
  cbn [length schema]. rewrite !map_map.
  assert (Hraw : map (fun g => pd.split ","
                        (pd.join ","
                           [Calendar.isoformat (rec_date g) ++ pd.time_text f;
                            Number.to_string (Number.of_Z (rec_age_days g));
                            Number.to_string (rec_weight g)])) rows
                 = map (fun g => [Calendar.isoformat (rec_date g)
                                  ++ pd.time_text f;
                                  Number.to_string (Number.of_Z (rec_age_days g));
                                  Number.to_string (rec_weight g)]) rows).
  { apply map_ext_in. intros g Hg. rewrite Forall_forall in Hv.
    now apply split_csv_line, Hv. }
  rewrite Hraw. clear Hraw.
  assert (Hlen : existsb (fun r : list string => Nat.ltb 3 (length r))
                   (map (fun g => [Calendar.isoformat (rec_date g)
                                   ++ pd.time_text f;
                                   Number.to_string (Number.of_Z (rec_age_days g));
                                   Number.to_string (rec_weight g)]) rows)
                 = false).
  { apply not_true_iff_false. intros H. apply existsb_exists in H as (r & Hr & Hlt).
    apply in_map_iff in Hr as (g & <- & _). discriminate. }
  rewrite Hlen. f_equal. f_equal. cbn [seq map combine].
  rewrite !forallb_map. cbn [nth fst snd].
  assert (H1 : forallb (fun g => pd.is_na (Number.to_string (Number.of_Z (rec_age_days g)))
                                 || pd.is_numeric (Number.to_string (Number.of_Z (rec_age_days g))))
                 rows = true).
  { apply forallb_forall. intros g _. apply number_field_numeric. }
  assert (H2 : forallb (fun g => pd.is_na (Number.to_string (rec_weight g))
                                 || pd.is_numeric (Number.to_string (rec_weight g)))
                 rows = true).
  { apply forallb_forall. intros g _. apply number_field_numeric. }
  rewrite H1, H2.
  destruct rows as [|g rows]; [reflexivity|].
  apply Forall_cons_iff in Hv as [Hg Hrows].
  cbn [forallb].
  rewrite (date_not_na _ (iso_text_chars _ f Hg) (iso_text_nonempty _ f Hg)),
          (iso_text_not_numeric _ f Hg).
  cbn [orb andb].
  apply map_ext_in. intros g' Hg'.
  assert (Hv' : Calendar.valid (rec_date g') = true).
  { destruct Hg' as [<-|Hin]; [exact Hg|].
    rewrite Forall_forall in Hrows. now apply Hrows. }
  rewrite (split_csv_line f _ Hv'). cbn [nth].
  now rewrite (read_date_field _ f Hv'), !read_number_field.
Qed.

(** Reading the CSV of a store of records gives the records back, the
    dates as the text to_csv wrote. *)
Lemma read_csv_to_csv (rows : list GrowthRecord) :
  Forall (fun g => Calendar.valid (rec_date g) = true) rows ->
  pd.read_csv (pd.to_csv (store_of rows)) ","
  = Ok (pd.mkframe schema
          (map (fun g => [Str (Calendar.isoformat (rec_date g)
                               ++ pd.time_text (written_spelling rows));
                          Num (Number.of_Z (rec_age_days g));
                          Num (rec_weight g)]) rows)).
Proof.
  intros Hv. rewrite to_csv_store_of. now apply read_csv_lines.
Qed.

(** What a restart loads from the CSV of a store of records: that store
    when every date is within the bounds of datetime64[ns], and the empty
    store of the fallback when one is not. *)
Lemma load_written_store (rows : list GrowthRecord) (c : container_client) :
  Forall (fun g => Calendar.valid (rec_date g) = true) rows ->
  load_df (write_csv_to_blob (store_of rows) baby_growth_blob c)
  = if forallb (fun g => pd.in_bounds (rec_date g)) rows
    then store_of rows else pd.DataFrame_columns schema.
Proof.
  intros Hv. unfold load_df, read_csv_from_blob, write_csv_to_blob,
    download_blob.
  cbn [dict_get]. rewrite String.eqb_refl. cbn [rbind].
  rewrite (read_csv_to_csv rows Hv). cbn [rbind].
  pose proof (schema_dates_parsed (written_spelling rows) rows Hv) as H.
  cbv zeta in H. rewrite H.
  now destruct (forallb _ rows).
Qed.

(** The round trip of the rows of a table that is not empty: a save or
    table event sent records that follow the schema, their dates within
    the bounds, leaves their store in [df], writes its CSV, and a restart
    loads the same store from it. *)
Lemma save_then_load
  (ps : list (string * list value)) (ds : list value) (prop_id : string)
  (ac sc : Z) (dob date : option string) (weight : option Number.t)
  (st : world) (rows : list GrowthRecord) :
  trigger_of prop_id = "save-button" \/ trigger_of prop_id = "data-table" ->
  rows <> [] ->
  Forall (fun g => Calendar.valid (rec_date g) = true) rows ->
  forallb (fun g => pd.in_bounds (rec_date g)) rows = true ->
  let st' := snd (update_data_and_chart ps ds prop_id ac sc
                    (map (table_record "") rows) dob date weight st) in
  df st' = store_of rows
  /\ download_blob baby_growth_blob (container st')
     = Ok (pd.to_csv (store_of rows))
  /\ load_df (container st') = store_of rows.
Proof.
  intros Ht Hne Hv Hb st'. unfold st'.
  change (map (table_record "") rows)
    with (map (table_record (pd.time_text pd.DateOnly)) rows).
  rewrite (save_schema_rows ps ds prop_id ac sc dob date weight st pd.DateOnly
             rows Ht Hne Hv), Hb.
  cbn [snd df container]. split; [reflexivity|]. split; [reflexivity|].
  now rewrite (load_written_store rows (container st) Hv), Hb.
Qed.

(** The scenario of a deleted row: with two records stored, the table sends
    the one row that is left and the save goes through: the store holds
    that one record and so does the CSV. *)
Example delete_one_of_two_rows :
  let left := [mkrecord (Calendar.mkdate 2024 2 1) 31 kg_4_5] in
  let w := snd (update_data_and_chart curves_example (days who_example)
                  "data-table.data" 2 0
                  (map (table_record "T00:00:00") left) None None None
                  world_two_records) in
  length (pd.values (df world_two_records)) = 2%nat
  /\ df w = store_of left
  /\ download_blob baby_growth_blob (container w)
     = Ok ("Date,Age_Days,Weight_kg" ++ pd.newline
           ++ "2024-02-01,31,4.5" ++ pd.newline)
  /\ load_df (container w) = store_of left.
Proof. vm_compute. repeat split. Qed.

(** ** An add event, the count of days and the restart *)

Lemma store_of_ready (rows : list GrowthRecord) :
  pd.columns (store_of rows) = schema
  /\ Forall (fun r => length r = 3%nat) (pd.values (store_of rows)).
Proof.
  split; [reflexivity|]. unfold store_of. cbn [pd.values].
  apply Forall_forall. intros r Hr. apply in_map_iff in Hr.
  destruct Hr as (g & <- & _). reflexivity.
Qed.

Lemma store_of_app (rows : list GrowthRecord) (g : GrowthRecord) :
  pd.mkframe schema (pd.values (store_of rows) ++ [frame_row g])
  = store_of (rows ++ [g]).
Proof. unfold store_of. cbn [pd.values]. now rewrite map_app. Qed.

Lemma storable_valid (rows : list GrowthRecord) :
  Forall (fun g => storable g = true) rows ->
  Forall (fun g => Calendar.valid (rec_date g) = true) rows
  /\ forallb (fun g => pd.in_bounds (rec_date g)) rows = true.
Proof.
  intros H. split.
  - eapply Forall_impl; [|exact H]. intros g Hg. unfold storable in Hg.
    rewrite !andb_true_iff in Hg. tauto.
  - apply forallb_forall. rewrite Forall_forall in H. intros g Hg.
    specialize (H g Hg). unfold storable in H.
    rewrite !andb_true_iff in H. tauto.
Qed.

(** C1: an add event whose date of birth, measurement date and weight are
    all provided appends exactly one record at the end of the store and
    reports success; the rows stored before keep their cells.  The
    age_days of the new record is the count of days of the calendar from
    the date of birth to the measurement date: counting on from the one
    by that many days reaches the other, and the count is negative when
    the measurement precedes the birth, which is accepted all the same.
    The whole store is written to the blob: on a store of records, with
    the new date within the bounds of datetime64[ns], what a restart
    loads from the blob is the store with the new record at its end. *)
Theorem add_event_appends_record :
  forall (who_data : who_table) (ps : list (string * list value))
         (prop_id : string) (ac sc : Z) (td : list record)
         (dob date : string) (weight : Number.t) (st : world)
         (d1 d2 : Calendar.date),
    percentiles who_data = Ok ps ->
    trigger_of prop_id = "add-button" ->
    Calendar.strptime dob = Ok d1 ->
    Calendar.strptime date = Ok d2 ->
    let age_days := Calendar.toordinal d2 - Calendar.toordinal d1 in
    exists fig d',
      update_data_and_chart ps (days who_data) prop_id ac sc td
        (Some dob) (Some date) (Some weight) st
      = (Ok ("Record added successfully!", fig, pd.to_dict_records d'),
         mkworld d' ((baby_growth_blob, pd.to_csv d') :: container st))
      /\ download_blob baby_growth_blob
           ((baby_growth_blob, pd.to_csv d') :: container st)
         = Ok (pd.to_csv d')
      /\ length (pd.values d') = S (length (pd.values (df st)))
      /\ (forall i row, nth_error (pd.values (df st)) i = Some row ->
          exists row', nth_error (pd.values d') i = Some row'
            /\ forall c, pd.at_label (pd.columns d') row' c
                         = pd.at_label (pd.columns (df st)) row c)
      /\ (exists last,
            nth_error (pd.values d') (length (pd.values (df st))) = Some last
            /\ pd.at_label (pd.columns d') last "Date" = Timestamp d2
            /\ pd.at_label (pd.columns d') last "Age_Days"
               = Num (Number.of_Z age_days)
            /\ pd.at_label (pd.columns d') last "Weight_kg" = Num weight)
      /\ (Calendar.before d2 d1 -> age_days < 0)
      /\ ((exists n, d2 = Calendar.days_later n d1 /\ age_days = Z.of_nat n)
          \/ (exists n, d1 = Calendar.days_later n d2
                        /\ age_days = - Z.of_nat n))
      /\ (forall n, d2 = Calendar.days_later n d1 -> age_days = Z.of_nat n)
      /\ (forall n, d1 = Calendar.days_later n d2 -> age_days = - Z.of_nat n)
      /\ (pd.columns (df st) = schema ->
          Forall (fun r => length r = 3%nat) (pd.values (df st)) ->
          d' = pd.mkframe schema
                 (pd.values (df st) ++ [record_row d2 age_days weight]))
      /\ (forall rows : list GrowthRecord,
            df st = store_of rows ->
            Forall (fun g => storable g = true) rows ->
            pd.in_bounds d2 = true ->
            Number.short weight = true ->
            d' = store_of (rows ++ [mkrecord d2 age_days weight])
            /\ load_df ((baby_growth_blob, pd.to_csv d') :: container st)
               = d').
Proof.
  intros who_data ps prop_id ac sc td dob date weight st d1 d2
         Hps Ht H1 H2 age_days.
  assert (Hg : add_guard (trigger_of prop_id) (Some dob) (Some date)
                 (Some weight) = Some (dob, date, weight)).
  { apply add_guard_Some. repeat split; try assumption.
    - eapply strptime_nonempty; eassumption.
    - eapply strptime_nonempty; eassumption. }
  destruct (add_branch who_data ps prop_id ac sc td (Some dob) (Some date)
              (Some weight) st dob date weight d1 d2 Hps Hg H1 H2)
    as (fig & Hrun & Hlen & Hold & Hlast & Hschema).
  pose proof (strptime_valid _ _ H1) as V1.
  pose proof (strptime_valid _ _ H2) as V2.
  destruct (sub_days_counts d1 d2 V1 V2) as (Hex & Hup & Hdown).
  eexists fig, _. split; [exact Hrun|]. split; [reflexivity|].
  split; [exact Hlen|]. split; [exact Hold|]. split; [exact Hlast|].
  split.
  { intros Hb. subst age_days.
    pose proof (toordinal_before d2 d1 V2 V1 Hb). lia. }
  split; [exact Hex|]. split; [exact Hup|]. split; [exact Hdown|].
  split; [exact Hschema|].
  intros rows Hdf Hrows Hb2 _.
  destruct (storable_valid rows Hrows) as [Hv Hb].
  set (g := mkrecord d2 age_days weight).
  specialize (Hschema ltac:(rewrite Hdf; apply store_of_ready)
                      ltac:(rewrite Hdf; apply store_of_ready)).
  match type of Hschema with
  | ?l = _ => assert (Hd' : l = store_of (rows ++ [g]))
  end.
  { rewrite Hschema, Hdf. exact (store_of_app rows g). }
  split; [exact Hd'|]. rewrite Hd'.
  assert (Hv' : Forall (fun g => Calendar.valid (rec_date g) = true)
                  (rows ++ [g])).
  { apply Forall_app. split; [exact Hv|]. now repeat constructor. }
  pose proof (load_written_store (rows ++ [g]) (container st) Hv') as Hl.
  unfold write_csv_to_blob in Hl. rewrite Hl.
  rewrite forallb_app, Hb. cbn [forallb rec_date g]. now rewrite Hb2.
Qed.

Lemma add_event_appends_record_witness :
  exists fig,
    update_data_and_chart curves_example (days who_example)
      "add-button.n_clicks" 1 0 [] (Some "2023-12-25") (Some "2024-03-01")
      (Some kg_4_2) fresh_world
    = (Ok ("Record added successfully!", fig,
           [[("Date", Timestamp (Calendar.mkdate 2024 3 1));
             ("Age_Days", Num (Number.of_Z 67)); ("Weight_kg", Num kg_4_2)]]),
       mkworld
         (pd.mkframe schema [record_row (Calendar.mkdate 2024 3 1) 67 kg_4_2])
         [(baby_growth_blob,
           "Date,Age_Days,Weight_kg" ++ pd.newline
           ++ "2024-03-01,67,4.2" ++ pd.newline)])
    /\ Calendar.days_later 67 (Calendar.mkdate 2023 12 25)
       = Calendar.mkdate 2024 3 1
    /\ load_df [(baby_growth_blob,
                 "Date,Age_Days,Weight_kg" ++ pd.newline
                 ++ "2024-03-01,67,4.2" ++ pd.newline)]
       = pd.mkframe schema [record_row (Calendar.mkdate 2024 3 1) 67 kg_4_2].
Proof.
  destruct (add_event_appends_record who_example curves_example
              "add-button.n_clicks" 1 0 [] "2023-12-25" "2024-03-01" kg_4_2
              fresh_world (Calendar.mkdate 2023 12 25)
              (Calendar.mkdate 2024 3 1)
              eq_refl eq_refl eq_refl eq_refl)
    as (fig & d' & Hrun & _ & _ & _ & _ & _ & _ & _ & _ & _ & Hstore).
  destruct (Hstore [] eq_refl (Forall_nil _) eq_refl eq_refl) as [Hd' Hload].
  exists fig. rewrite Hrun. rewrite Hd' in Hload |- *.
  split; [reflexivity|]. split; [reflexivity|]. exact Hload.
Defined.

(** ** The event that changes nothing, on a store without weights *)


(** ** Sending the table its own rows *)

Lemma shown_store_of (rows : list GrowthRecord) :
  shown (store_of rows) = map (table_record "T00:00:00") rows.
Proof.
  unfold shown, table_rows, pd.to_dict_records, store_of.
  cbn [pd.columns pd.values]. rewrite !map_map. apply map_ext.
  intros g. reflexivity.
Qed.

(** A store of records that is sent its own rows: the save goes through
    and leaves the same store when every date is within the bounds of
    datetime64[ns]; when one is not it raises OutOfBoundsDatetime, the
    Date cells of [df] are left as the texts the table sent, and nothing
    is written. *)
Lemma own_rows_of_store
  (ps : list (string * list value)) (ds : list value) (prop_id : string)
  (ac sc : Z) (dob date : option string) (weight : option Number.t)
  (st : world) (rows : list GrowthRecord) :
  trigger_of prop_id = "save-button" \/ trigger_of prop_id = "data-table" ->
  rows <> [] ->
  Forall (fun g => Calendar.valid (rec_date g) = true) rows ->
  df st = store_of rows ->
  update_data_and_chart ps ds prop_id ac sc (shown (df st)) dob date weight st
  = if forallb (fun g => pd.in_bounds (rec_date g)) rows
    then (rbind (update_chart ps ds (store_of rows))
            (fun fig => Ok ("Changes saved successfully!", fig,
                            pd.to_dict_records (store_of rows))),
          mkworld (store_of rows)
            (write_csv_to_blob (store_of rows) baby_growth_blob (container st)))
    else (Raise pd.out_of_bounds,
          mkworld (pd.mkframe schema
                     (map (fun g => [Str (Calendar.isoformat (rec_date g)
                                          ++ "T00:00:00");
                                     Num (Number.of_Z (rec_age_days g));
                                     Num (rec_weight g)]) rows))
            (container st)).
Proof.
  intros Ht Hne Hv Hdf. rewrite Hdf, shown_store_of.
  change "T00:00:00" with (pd.time_text pd.DateT).
  rewrite (save_schema_rows ps ds prop_id ac sc dob date weight st pd.DateT
             rows Ht Hne Hv).
  now rewrite (records_schema_rows (pd.time_text pd.DateT) rows Hne).
Qed.



(** * Further properties of the callback, the loader and the chart *)

(** ** What a call of the callback can do to the world *)

(** The four ways a call ends: an add event whose date does not read
    raises with the world as it was; a save or table event that raises
    leaves its rows in [df] and the container as it was; an add, save or
    table event that gets through leaves a frame in [df] and its CSV in the
    blob; any other event leaves the world as it was. *)
Lemma update_cases
  (ps : list (string * list value)) (ds : list value) (prop_id : string)
  (ac sc : Z) (td : list record) (dob date : option string)
  (weight : option Number.t) (st : world) :
  let run := update_data_and_chart ps ds prop_id ac sc td dob date weight st in
  (exists e, run = (Raise e, st))
  \/ (exists e, run = (Raise e, mkworld (pd.DataFrame_records td) (container st)))
  \/ (exists msg d',
        (msg = "Record added successfully!" \/ msg = "Changes saved successfully!")
        /\ run = (rbind (update_chart ps ds d')
                    (fun fig => Ok (msg, fig, pd.to_dict_records d')),
                  mkworld d' (write_csv_to_blob d' baby_growth_blob
                                (container st))))
  \/ run = (rbind (update_chart ps ds (df st))
              (fun fig => Ok ("No changes made.", fig,
                              pd.to_dict_records (df st))), st).
Proof.
  intros run. subst run.
  destruct (add_guard (trigger_of prop_id) dob date weight)
    as [[[a b] w]|] eqn:Hg.
  - destruct (Calendar.strptime a) as [d1|e] eqn:H1.
    + destruct (Calendar.strptime b) as [d2|e] eqn:H2.
      * right; right; left.
        rewrite (update_add ps ds prop_id ac sc td dob date weight st a b w
                   d1 d2 Hg H1 H2).
        eexists _, _. split; [left; reflexivity | reflexivity].
      * left. exists e. unfold update_data_and_chart. rewrite Hg.
        unfold bind, lift. now rewrite H1, H2.
    + left. exists e. unfold update_data_and_chart. rewrite Hg.
      unfold bind, lift. now rewrite H1.
  - destruct (String.eqb_spec (trigger_of prop_id) "save-button") as [Hs|Hs].
    + rewrite (update_save ps ds prop_id ac sc td dob date weight st
                 (or_introl Hs)). cbv zeta.
      destruct (rbind (pd.getitem (pd.DataFrame_records td) "Date") _)
        as [d'|e].
      * right; right; left. eexists _, _.
        split; [right; reflexivity | reflexivity].
      * right; left. now exists e.
    + destruct (String.eqb_spec (trigger_of prop_id) "data-table") as [Ht|Ht].
      * rewrite (update_save ps ds prop_id ac sc td dob date weight st
                   (or_intror Ht)). cbv zeta.
        destruct (rbind (pd.getitem (pd.DataFrame_records td) "Date") _)
          as [d'|e].
        -- right; right; left. eexists _, _.
           split; [right; reflexivity | reflexivity].
        -- right; left. now exists e.
      * right; right; right. now apply update_noop.
Qed.

(** X1: whatever the event, the callback uploads nothing or one text, and
    that under the name of the growth data: the container it leaves is the
    one it found with at most that upload ahead of it, and every other
    blob, the reference table among them, reads as before. *)
Theorem events_write_only_the_growth_blob :
  forall (ps : list (string * list value)) (ds : list value)
         (prop_id : string) (ac sc : Z) (td : list record)
         (dob date : option string) (weight : option Number.t) (st : world),
    let run := update_data_and_chart ps ds prop_id ac sc td dob date
                 weight st in
    (container (snd run) = container st
     \/ exists text,
          container (snd run) = (baby_growth_blob, text) :: container st)
    /\ (forall blob_name,
          blob_name <> baby_growth_blob ->
          download_blob blob_name (container (snd run))
          = download_blob blob_name (container st))
    /\ download_blob who_data_blob (container (snd run))
       = download_blob who_data_blob (container st).
Proof.
  intros ps ds prop_id ac sc td dob date weight st run.
  assert (H : container (snd run) = container st
              \/ exists text,
                   container (snd run)
                   = (baby_growth_blob, text) :: container st).
  { destruct (update_cases ps ds prop_id ac sc td dob date weight st)
      as [[e E] | [[e E] | [(msg & d' & _ & E) | E]]];
      fold run in E; rewrite E; cbn [snd container]; auto.
    right. now exists (pd.to_csv d'). }
  assert (Hother : forall blob_name,
             blob_name <> baby_growth_blob ->
             download_blob blob_name (container (snd run))
             = download_blob blob_name (container st)).
  { intros blob_name Hne. destruct H as [-> | [text ->]]; [reflexivity|].
    unfold download_blob. cbn [dict_get].
    destruct (String.eqb_spec baby_growth_blob blob_name) as [Heq|_];
      [congruence | reflexivity]. }
  split; [exact H|]. split; [exact Hother|].
  apply Hother. discriminate.
Qed.

(** X2: when the callback returns, the rows it returns for the table are
    the rows of the frame it leaves in [df], and the chart it returns is
    the chart of that frame; its message is one of the three, "No changes
    made." coming with the world as it was and each of the other two with
    the CSV of that frame in the growth blob. *)
Theorem returned_table_and_chart_are_of_the_store :
  forall (ps : list (string * list value)) (ds : list value)
         (prop_id : string) (ac sc : Z) (td : list record)
         (dob date : option string) (weight : option Number.t) (st : world)
         (message : string) (fig : Figure) (rows : list (list (string * value))),
    let run := update_data_and_chart ps ds prop_id ac sc td dob date
                 weight st in
    fst run = Ok (message, fig, rows) ->
    rows = pd.to_dict_records (df (snd run))
    /\ update_chart ps ds (df (snd run)) = Ok fig
    /\ ((message = "No changes made." /\ snd run = st)
        \/ ((message = "Record added successfully!"
             \/ message = "Changes saved successfully!")
            /\ container (snd run)
               = (baby_growth_blob, pd.to_csv (df (snd run))) :: container st)).
Proof.
  intros ps ds prop_id ac sc td dob date weight st message fig rows run Hok.
  destruct (update_cases ps ds prop_id ac sc td dob date weight st)
    as [[e E] | [[e E] | [(msg & d' & Hmsg & E) | E]]];
    fold run in E; rewrite E in Hok |- *; cbn [fst snd df container] in *;
    try discriminate.
  - destruct (update_chart ps ds d') as [fig'|e]; [|discriminate].
    injection Hok as <- <- <-. repeat split. right. split; [exact Hmsg|].
    reflexivity.
  - destruct (update_chart ps ds (df st)) as [fig'|e]; [|discriminate].
    injection Hok as <- <- <-. repeat split. left. now split.
Qed.

Lemma returned_table_and_chart_are_of_the_store_witness :
  exists message fig rows,
    fst (update_data_and_chart curves_example (days who_example)
           "add-button.n_clicks" 2 0 [] (Some "2024-01-01")
           (Some "2024-02-01") (Some kg_4_5) world_one_record)
    = Ok (message, fig, rows)
    /\ rows = pd.to_dict_records (df world_two_records)
    /\ length rows = 2%nat.
Proof.
  destruct (fst (update_data_and_chart curves_example (days who_example)
                   "add-button.n_clicks" 2 0 [] (Some "2024-01-01")
                   (Some "2024-02-01") (Some kg_4_5) world_one_record))
    as [[[message fig] rows]|e] eqn:E; [|vm_compute in E; discriminate].
  exists message, fig, rows. split; [reflexivity|].
  destruct (returned_table_and_chart_are_of_the_store curves_example
              (days who_example) "add-button.n_clicks" 2 0 []
              (Some "2024-01-01") (Some "2024-02-01") (Some kg_4_5)
              world_one_record message fig rows E) as [Hrows _].
  split; [exact Hrows|]. rewrite Hrows. reflexivity.
Defined.

(** X3: store and blob stay in step over every call that returns: if the
    growth blob held the CSV of [df] before the call, it holds the CSV of
    [df] after it.  Only a call that raises can leave the two apart. *)
Theorem returning_event_keeps_blob_in_step :
  forall (ps : list (string * list value)) (ds : list value)
         (prop_id : string) (ac sc : Z) (td : list record)
         (dob date : option string) (weight : option Number.t) (st : world)
         (out : string * Figure * list (list (string * value))),
    let run := update_data_and_chart ps ds prop_id ac sc td dob date
                 weight st in
    fst run = Ok out ->
    download_blob baby_growth_blob (container st) = Ok (pd.to_csv (df st)) ->
    download_blob baby_growth_blob (container (snd run))
    = Ok (pd.to_csv (df (snd run))).
Proof.
  intros ps ds prop_id ac sc td dob date weight st out run Hok Hsync.
  destruct (update_cases ps ds prop_id ac sc td dob date weight st)
    as [[e E] | [[e E] | [(msg & d' & Hmsg & E) | E]]];
    fold run in E; rewrite E in Hok |- *; cbn [fst snd df container] in *;
    try discriminate.
  - reflexivity.
  - exact Hsync.
Qed.

Lemma returning_event_keeps_blob_in_step_witness :
  download_blob baby_growth_blob (container world_two_records)
  = Ok (pd.to_csv (df world_two_records)).
Proof.
  destruct (fst (update_data_and_chart curves_example (days who_example)
                   "add-button.n_clicks" 2 0 [] (Some "2024-01-01")
                   (Some "2024-02-01") (Some kg_4_5) world_one_record))
    as [out|e] eqn:E; [|vm_compute in E; discriminate].
  exact (returning_event_keeps_blob_in_step curves_example (days who_example)
           "add-button.n_clicks" 2 0 [] (Some "2024-01-01")
           (Some "2024-02-01") (Some kg_4_5) world_one_record out E eq_refl).
Defined.

(** ** Events that raise *)

Lemma strptime_raises_ValueError (s : string) (e : exn) :
  Calendar.strptime s = Raise e -> exists msg, e = ValueError msg.
Proof.
  unfold Calendar.strptime.
  destruct (Calendar.re_Ymd s) as [[[[y m] dd] [|? ?]]|].
  - destruct (Calendar.valid (Calendar.mkdate y m dd)); [discriminate|].
    intros [= <-]. eauto.
  - intros [= <-]. eauto.
  - intros [= <-]. eauto.
Qed.

(** X4: an add event with both dates and a weight given, the dates being
    ASCII text, one of which strptime does not read under '%Y-%m-%d',
    raises the ValueError of strptime before anything is touched: [df]
    and the container are as they were.  The date of birth is read
    first. *)
Theorem add_with_unreadable_date_raises :
  forall (ps : list (string * list value)) (ds : list value)
         (prop_id : string) (ac sc : Z) (td : list record)
         (dob date : string) (weight : Number.t) (st : world) (e : exn),
    trigger_of prop_id = "add-button" ->
    dob <> "" -> date <> "" ->
    is_ascii dob = true -> is_ascii date = true ->
    Calendar.strptime dob = Raise e
    \/ ((exists d1, Calendar.strptime dob = Ok d1)
        /\ Calendar.strptime date = Raise e) ->
    update_data_and_chart ps ds prop_id ac sc td (Some dob) (Some date)
      (Some weight) st
    = (Raise e, st)
    /\ exists msg, e = ValueError msg.
Proof.
  intros ps ds prop_id ac sc td dob date weight st e Ht Hd Hm _ _ Hbad.
  assert (Hg : add_guard (trigger_of prop_id) (Some dob) (Some date)
                 (Some weight) = Some (dob, date, weight)).
  { apply add_guard_Some. repeat split; assumption. }
  unfold update_data_and_chart. rewrite Hg. unfold bind, lift.
  destruct Hbad as [H1 | [[d1 H1] H2]].
  - rewrite H1. split; [reflexivity|].
    now apply (strptime_raises_ValueError dob).
  - rewrite H1, H2. split; [reflexivity|].
    now apply (strptime_raises_ValueError date).
Qed.

Lemma add_with_unreadable_date_raises_witness :
  update_data_and_chart curves_example (days who_example)
    "add-button.n_clicks" 2 0 [] (Some "2024-01-01") (Some "2023-02-29")
    (Some kg_4_2) world_one_record
  = (Raise (ValueError "day is out of range for month"), world_one_record).
Proof.
  apply (add_with_unreadable_date_raises curves_example (days who_example)
           "add-button.n_clicks" 2 0 [] "2024-01-01" "2023-02-29" kg_4_2
           world_one_record).
  - reflexivity.
  - discriminate.
  - discriminate.
  - reflexivity.
  - reflexivity.
  - right. split; [now exists (Calendar.mkdate 2024 1 1) | reflexivity].
Defined.

Lemma existsb_In {A} (p : A -> bool) (l : list A) (a : A) :
  In a l -> p a = true -> existsb p l = true.
Proof. intros Hin Hp. apply existsb_exists. now exists a. Qed.

Lemma forallb_In_false {A} (p : A -> bool) (l : list A) (a : A) :
  In a l -> p a = false -> forallb p l = false.
Proof.
  intros Hin Hp. apply not_true_iff_false. intros H.
  rewrite forallb_forall in H. rewrite (H a Hin) in Hp. discriminate.
Qed.

(** X5: a save or table event whose rows follow the schema, the dates
    written in one spelling, one of them a day beyond the bounds of
    datetime64[ns], raises OutOfBoundsDatetime before the upload and after
    [df] was replaced: [df] holds the rows as the table sent them, the
    Date cells as text, while every blob still holds what it held, so
    that store and blob differ from then on. *)
Theorem save_with_date_beyond_bounds_raises :
  forall (ps : list (string * list value)) (ds : list value)
         (prop_id : string) (ac sc : Z)
         (dob date : option string) (weight : option Number.t) (st : world)
         (f : pd.spelling) (rows : list GrowthRecord) (g : GrowthRecord),
    trigger_of prop_id = "save-button" \/ trigger_of prop_id = "data-table" ->
    Forall (fun g => Calendar.valid (rec_date g) = true) rows ->
    In g rows ->
    pd.in_bounds (rec_date g) = false ->
    let run := update_data_and_chart ps ds prop_id ac sc
                 (map (table_record (pd.time_text f)) rows) dob date
                 weight st in
    (exists msg, fst run = Raise (OutOfBoundsDatetime msg))
    /\ container (snd run) = container st
    /\ df (snd run)
       = pd.mkframe schema
           (map (fun g => [Str (Calendar.isoformat (rec_date g)
                                ++ pd.time_text f);
                           Num (Number.of_Z (rec_age_days g));
                           Num (rec_weight g)]) rows).
Proof.
  intros ps ds prop_id ac sc dob date weight st f rows g Ht Hv Hin Hout run.
  assert (Hne : rows <> []) by (intros ->; destruct Hin).
  unfold run.
  rewrite (save_schema_rows ps ds prop_id ac sc dob date weight st f rows
             Ht Hne Hv).
  rewrite (forallb_In_false (fun g => pd.in_bounds (rec_date g)) rows g Hin Hout).
  cbn [fst snd container df].
  split; [now eexists|]. split; [reflexivity|].
  apply (records_schema_rows (pd.time_text f) rows Hne).
Qed.

Lemma save_with_date_beyond_bounds_raises_witness :
  let run := update_data_and_chart curves_example (days who_example)
               "save-button.n_clicks" 1 1
               [schema_record "2300-01-01T00:00:00" (Number.of_Z 14) kg_4_2]
               None None None world_one_record in
  snd run
  = mkworld (pd.mkframe schema [[Str "2300-01-01T00:00:00";
                                 Num (Number.of_Z 14); Num kg_4_2]])
      (container world_one_record)
  /\ load_df (container (snd run)) = df world_one_record.
Proof.
  destruct (save_with_date_beyond_bounds_raises curves_example
              (days who_example) "save-button.n_clicks" 1 1 None None None
              world_one_record pd.DateT
              [mkrecord (Calendar.mkdate 2300 1 1) 14 kg_4_2]
              (mkrecord (Calendar.mkdate 2300 1 1) 14 kg_4_2)
              (or_introl eq_refl) ltac:(repeat constructor)
              (or_introl eq_refl) eq_refl)
    as (_ & Hc & Hd).
  split; [|reflexivity].
  destruct (snd _) as [d c] eqn:E. cbn [df container] in Hc, Hd.
  now rewrite Hc, Hd.
Defined.

(** ** The load at start *)

Lemma load_df_of_blob (c c' : container_client) :
  dict_get baby_growth_blob c = dict_get baby_growth_blob c' ->
  load_df c = load_df c'.
Proof.
  intros H. unfold load_df, read_csv_from_blob, download_blob. now rewrite H.
Qed.

(** X6: the load of the growth data does not fail the start.  When the
    blob is missing, when its text is empty, and when it holds the CSV the
    program wrote for a store with a date beyond the bounds of
    datetime64[ns] (every date is then written with a time, and the column
    does not parse on the way back), [df] is the empty frame of the three
    columns, whatever records the CSV held; the chart then has the seven
    reference traces only. *)
Theorem load_falls_back_to_empty_store :
  forall (who_data : who_table) (ps : list (string * list value))
         (c : container_client),
    percentiles who_data = Ok ps ->
    download_blob baby_growth_blob c
    = Raise (ResourceNotFoundError baby_growth_blob)
    \/ download_blob baby_growth_blob c = Ok ""
    \/ (exists rows g,
          download_blob baby_growth_blob c = Ok (pd.to_csv (store_of rows))
          /\ Forall (fun g => Calendar.valid (rec_date g) = true) rows
          /\ In g rows
          /\ pd.in_bounds (rec_date g) = false) ->
    load_df c = pd.mkframe ["Date"; "Age_Days"; "Weight_kg"] []
    /\ pd.empty (load_df c) = true
    /\ exists fig, update_chart ps (days who_data) (load_df c) = Ok fig
                   /\ length (data fig) = 7%nat.
Proof.
  intros who_data ps c Hps H.
  assert (E : load_df c = pd.mkframe ["Date"; "Age_Days"; "Weight_kg"] []).
  { destruct H as [H | [H | (rows & g & H & Hv & Hin & Hout)]].
    - unfold load_df, read_csv_from_blob. now rewrite H.
    - unfold load_df, read_csv_from_blob. now rewrite H.
    - rewrite (load_df_of_blob c
                 (write_csv_to_blob (store_of rows) baby_growth_blob [])).
      + rewrite (load_written_store rows [] Hv).
        now rewrite (forallb_In_false (fun g => pd.in_bounds (rec_date g))
                       rows g Hin Hout).
      + unfold download_blob in H.
        destruct (dict_get baby_growth_blob c) as [text|]; [|discriminate].
        injection H as ->. unfold write_csv_to_blob. cbn [dict_get].
        now rewrite String.eqb_refl. }
  rewrite E. split; [reflexivity|]. split; [reflexivity|].
  destruct (percentiles_inv _ _ Hps) as (p5 & p10 & p50 & p90 & p95 & -> & _).
  destruct (update_chart_empty (days who_data) p5 p10 p50 p90 p95
              (pd.mkframe ["Date"; "Age_Days"; "Weight_kg"] []) eq_refl)
    as [lay ->].
  eexists. split; reflexivity.
Qed.

Lemma load_falls_back_to_empty_store_witness :
  download_blob baby_growth_blob (container world_year_2300)
  = Ok ("Date,Age_Days,Weight_kg" ++ pd.newline
        ++ "2024-01-15 00:00:00,14,4.2" ++ pd.newline
        ++ "2300-01-01 00:00:00,100807,4.5" ++ pd.newline)
  /\ load_df (container world_year_2300)
     = pd.mkframe ["Date"; "Age_Days"; "Weight_kg"] []
  /\ load_df [] = pd.mkframe ["Date"; "Age_Days"; "Weight_kg"] [].
Proof.
  split; [reflexivity|]. split.
  - refine (proj1 (load_falls_back_to_empty_store who_example curves_example
                     (container world_year_2300) eq_refl _)).
    right; right.
    exists [mkrecord (Calendar.mkdate 2024 1 15) 14 kg_4_2;
            mkrecord (Calendar.mkdate 2300 1 1) 100807 kg_4_5],
           (mkrecord (Calendar.mkdate 2300 1 1) 100807 kg_4_5).
    split; [reflexivity|]. split; [repeat constructor|].
    split; [right; left; reflexivity | reflexivity].
  - refine (proj1 (load_falls_back_to_empty_store who_example curves_example
                     [] eq_refl _)).
    left. reflexivity.
Defined.

(** ** The age in days *)

Lemma before_trichotomy (a b : Calendar.date) :
  a = b \/ Calendar.before a b \/ Calendar.before b a.
Proof.
  destruct a as [ya ma da], b as [yb mb db]. unfold Calendar.before.
  cbn [Calendar.year Calendar.month Calendar.day].
  destruct (Z.lt_trichotomy ya yb) as [Hy | [Hy | Hy]]; [tauto | | tauto].
  subst yb.
  destruct (Z.lt_trichotomy ma mb) as [Hm | [Hm | Hm]]; [tauto | | tauto].
  subst mb.
  destruct (Z.lt_trichotomy da db) as [Hd | [Hd | Hd]]; [tauto | | tauto].
  subst db. now left.
Qed.

(** X7: for the two dates an add event reads, the age in days is zero
    exactly when the measurement is on the day of birth, positive exactly
    when it is on a later day of the calendar and negative exactly when
    it is on an earlier one; in particular two different days never give
    the same age for one date of birth. *)
Theorem age_days_follows_calendar :
  forall (dob date : string) (d1 d2 : Calendar.date),
    Calendar.strptime dob = Ok d1 ->
    Calendar.strptime date = Ok d2 ->
    let age_days := Calendar.sub_days d2 d1 in
    (age_days = 0 <-> d2 = d1)
    /\ (0 < age_days <-> Calendar.before d1 d2)
    /\ (age_days < 0 <-> Calendar.before d2 d1)
    /\ (forall date' d3, Calendar.strptime date' = Ok d3 ->
          Calendar.sub_days d3 d1 = age_days -> d3 = d2).
Proof.
  intros dob date d1 d2 H1 H2 age_days.
  pose proof (strptime_valid _ _ H1) as V1.
  pose proof (strptime_valid _ _ H2) as V2.
  assert (Sign : forall a b,
             Calendar.valid a = true -> Calendar.valid b = true ->
             (Calendar.sub_days b a = 0 <-> b = a)
             /\ (0 < Calendar.sub_days b a <-> Calendar.before a b)
             /\ (Calendar.sub_days b a < 0 <-> Calendar.before b a)).
  { intros a b Va Vb. unfold Calendar.sub_days.
    pose proof (toordinal_before a b Va Vb) as Hab.
    pose proof (toordinal_before b a Vb Va) as Hba.
    destruct (before_trichotomy a b) as [-> | [Hlt | Hgt]].
    - repeat split; intros; try reflexivity; try lia;
        match goal with
        | H : Calendar.before b b |- _ =>
            pose proof (toordinal_before b b Vb Vb H); lia
        end.
    - specialize (Hab Hlt).
      repeat split; intros; try assumption; try lia.
      + subst b. lia.
      + specialize (Hba ltac:(assumption)). lia.
    - specialize (Hba Hgt).
      repeat split; intros; try assumption; try lia.
      + subst b. lia.
      + specialize (Hab ltac:(assumption)). lia. }
  destruct (Sign d1 d2 V1 V2) as (S0 & Spos & Sneg).
  split; [exact S0|]. split; [exact Spos|]. split; [exact Sneg|].
  intros date' d3 H3 Heq.
  pose proof (strptime_valid _ _ H3) as V3.
  destruct (Sign d2 d3 V2 V3) as (S0' & _ & _). apply S0'.
  unfold age_days, Calendar.sub_days in *. lia.
Qed.

Lemma age_days_follows_calendar_witness :
  Calendar.sub_days (Calendar.mkdate 2024 3 1) (Calendar.mkdate 2024 2 28) = 2
  /\ Calendar.before (Calendar.mkdate 2024 2 28) (Calendar.mkdate 2024 3 1).
Proof.
  split; [reflexivity|].
  apply (proj1 (proj2 (age_days_follows_calendar "2024-02-28" "2024-03-01"
                         (Calendar.mkdate 2024 2 28) (Calendar.mkdate 2024 3 1)
                         eq_refl eq_refl))).
  reflexivity.
Defined.

(** ** The chart: percentile lines, layout and missing columns *)

Lemma update_chart_reference (ds p5 p10 p50 p90 p95 : list value)
  (d : pd.DataFrame) (fig : Figure) :
  update_chart (curves p5 p10 p50 p90 p95) ds d = Ok fig ->
  firstn 7 (data fig)
  = [band ds p95 p5 (rgba 200 200 200 alpha_0_3);
     band ds p90 p10 (rgba 150 150 150 alpha_0_3);
     percentile_line ds ("5th", p5); percentile_line ds ("10th", p10);
     percentile_line ds ("50th", p50); percentile_line ds ("90th", p90);
     percentile_line ds ("95th", p95)]
  /\ layout fig
     = mklayout "Baby Growth Chart for Female Infants (WHO Standards)"
         "Age (days)" "Weight (kg)" alpha_0_5 "reversed" 16 "x unified".
Proof.
  unfold update_chart. cbn.
  destruct (pd.empty d); cbn.
  - intros [= <-]. now split.
  - destruct (pd.getitem d "Age_Days"); cbn; [|discriminate].
    destruct (pd.getitem d "Weight_kg"); cbn; [|discriminate].
    intros [= <-]. now split.
Qed.

(** X8: in every chart the builder returns, traces three to seven are the
    five percentile curves in the order 5th, 10th, 50th, 90th, 95th, each
    against the whole age axis and drawn one wide in half-transparent
    black; the layout has the title, the two axis titles, the reversed
    legend and the unified hover; and none of this depends on the store:
    two stores give the same first seven traces and the same layout. *)
Theorem chart_reference_part_ignores_store :
  forall (who_data : who_table) (ps : list (string * list value))
         (d : pd.DataFrame) (fig : Figure),
    percentiles who_data = Ok ps ->
    update_chart ps (days who_data) d = Ok fig ->
    map (fun t => (name t, x t, y t)) (firstn 5 (skipn 2 (data fig)))
    = map (fun kv => (Some (fst kv ++ " Percentile")%string, days who_data,
                      snd kv)) ps
    /\ map fst ps = ["5th"; "10th"; "50th"; "90th"; "95th"]
    /\ Forall (fun t => line t = mkline (rgba 0 0 0 alpha_0_5) (Some 1)
                        /\ mode t = Some "lines" /\ fill t = None
                        /\ hoverinfo t = None /\ showlegend t = None)
         (firstn 5 (skipn 2 (data fig)))
    /\ title (layout fig)
       = "Baby Growth Chart for Female Infants (WHO Standards)"
    /\ xaxis_title (layout fig) = "Age (days)"
    /\ yaxis_title (layout fig) = "Weight (kg)"
    /\ legend_traceorder (layout fig) = "reversed"
    /\ hovermode (layout fig) = "x unified"
    /\ (forall d' fig',
          update_chart ps (days who_data) d' = Ok fig' ->
          firstn 7 (data fig') = firstn 7 (data fig)
          /\ layout fig' = layout fig).
Proof.
  intros who_data ps d fig Hps Hfig.
  destruct (percentiles_inv _ _ Hps) as (p5 & p10 & p50 & p90 & p95 & -> & _).
  destruct (update_chart_reference _ _ _ _ _ _ _ _ Hfig) as [Hd Hl].
  assert (Hlines : firstn 5 (skipn 2 (data fig))
                   = map (percentile_line (days who_data))
                       (curves p5 p10 p50 p90 p95)).
  { destruct (data fig) as [|t1 [|t2 [|t3 [|t4 [|t5 [|t6 [|t7 rest]]]]]]];
      try discriminate.
    cbn [firstn] in Hd. injection Hd as -> -> -> -> -> -> ->. reflexivity. }
  rewrite Hlines, Hl. split; [reflexivity|]. split; [reflexivity|].
  split; [repeat constructor|].
  do 5 (split; [reflexivity|]).
  intros d' fig' Hfig'.
  destruct (update_chart_reference _ _ _ _ _ _ _ _ Hfig') as [Hd' Hl'].
  now rewrite Hd, Hd', Hl'.
Qed.

Lemma chart_reference_part_ignores_store_witness :
  exists fig fig',
    update_chart curves_example (days who_example) (df fresh_world) = Ok fig
    /\ update_chart curves_example (days who_example) (df world_two_records)
       = Ok fig'
    /\ firstn 7 (data fig') = data fig
    /\ length (data fig') = 8%nat.
Proof.
  destruct (update_chart curves_example (days who_example) (df fresh_world))
    as [fig|e] eqn:E; [|vm_compute in E; discriminate].
  destruct (update_chart curves_example (days who_example)
              (df world_two_records))
    as [fig'|e] eqn:E'; [|vm_compute in E'; discriminate].
  exists fig, fig'. split; [reflexivity|]. split; [reflexivity|].
  destruct (chart_reference_part_ignores_store who_example curves_example
              (df fresh_world) fig eq_refl E)
    as (_ & _ & _ & _ & _ & _ & _ & _ & Hsame).
  destruct (Hsame _ _ E') as [H7 _]. rewrite H7.
  vm_compute in E, E'. injection E as <-. injection E' as <-.
  split; reflexivity.
Defined.

(** X9: the chart of a store that has rows needs its Age_Days and
    Weight_kg columns: without the first the builder raises
    KeyError('Age_Days'), with the first and without the second
    KeyError('Weight_kg'); a store without rows is charted whatever its
    columns.  So a save or table event whose rows are accepted but lack
    one of the two keys stores and uploads them and then raises: the data
    are saved and the table and the chart are not refreshed. *)
Theorem chart_of_store_without_column_raises :
  forall (who_data : who_table) (ps : list (string * list value))
         (d : pd.DataFrame),
    percentiles who_data = Ok ps ->
    pd.empty d = false ->
    ~ In "Age_Days" (pd.columns d) \/ ~ In "Weight_kg" (pd.columns d) ->
    (exists k, (k = "Age_Days" \/ k = "Weight_kg")
               /\ ~ In k (pd.columns d)
               /\ update_chart ps (days who_data) d = Raise (KeyError k))
    /\ (~ In "Age_Days" (pd.columns d) ->
        update_chart ps (days who_data) d = Raise (KeyError "Age_Days"))
    /\ forall (prop_id : string) (ac sc : Z) (td : list record)
              (dob date : option string) (weight : option Number.t)
              (st : world),
         trigger_of prop_id = "save-button"
         \/ trigger_of prop_id = "data-table" ->
         rbind (pd.getitem (pd.DataFrame_records td) "Date") (fun col =>
           rbind (pd.to_datetime col) (fun col =>
             pd.setitem (pd.DataFrame_records td) "Date" col)) = Ok d ->
         exists k,
           update_data_and_chart ps (days who_data) prop_id ac sc td dob date
             weight st
           = (Raise (KeyError k),
              mkworld d ((baby_growth_blob, pd.to_csv d) :: container st)).
Proof.
  intros who_data ps d Hps He Hmiss.
  destruct (percentiles_inv _ _ Hps) as (p5 & p10 & p50 & p90 & p95 & -> & _).
  assert (Hage : ~ In "Age_Days" (pd.columns d) ->
                 update_chart (curves p5 p10 p50 p90 p95) (days who_data) d
                 = Raise (KeyError "Age_Days")).
  { intros Hno. unfold update_chart. cbn. rewrite He. cbn.
    unfold pd.getitem. now rewrite (get_loc_None _ _ Hno). }
  assert (Hk : exists k, (k = "Age_Days" \/ k = "Weight_kg")
                         /\ ~ In k (pd.columns d)
                         /\ update_chart (curves p5 p10 p50 p90 p95)
                              (days who_data) d = Raise (KeyError k)).
  { destruct (in_dec string_dec "Age_Days" (pd.columns d)) as [Ha|Hno].
    - destruct Hmiss as [Hno|Hno]; [contradiction|].
      exists "Weight_kg". split; [now right|]. split; [exact Hno|].
      destruct (getitem_In d "Age_Days" Ha) as [ages Hages].
      unfold update_chart. cbn. rewrite He. cbn. rewrite Hages. cbn.
      unfold pd.getitem. now rewrite (get_loc_None _ _ Hno).
    - exists "Age_Days". split; [now left|]. split; [exact Hno|].
      now apply Hage. }
  split; [exact Hk|]. split; [exact Hage|].
  intros prop_id ac sc td dob date weight st Ht Hd.
  destruct Hk as (k & _ & _ & Hchart). exists k.
  rewrite (update_save _ _ _ _ _ _ _ _ _ _ Ht). cbv zeta.
  rewrite Hd, Hchart. reflexivity.
Qed.

Lemma chart_of_store_without_column_raises_witness :
  update_data_and_chart curves_example (days who_example)
    "data-table.data" 1 0
    [[("Date", JStr "2024-01-15"); ("Age_Days", JNum (Number.of_Z 14))]]
    None None None world_one_record
  = (Raise (KeyError "Weight_kg"),
     mkworld
       (pd.mkframe ["Date"; "Age_Days"]
          [[Timestamp (Calendar.mkdate 2024 1 15); Num (Number.of_Z 14)]])
       ((baby_growth_blob,
         "Date,Age_Days" ++ pd.newline ++ "2024-01-15,14" ++ pd.newline)
        :: container world_one_record)).
Proof.
  assert (Hmiss : ~ In "Age_Days" ["Date"; "Age_Days"]
                  \/ ~ In "Weight_kg" ["Date"; "Age_Days"]).
  { right. intros [H|[H|[]]]; discriminate. }
  destruct (proj2 (proj2 (chart_of_store_without_column_raises who_example
              curves_example
              (pd.mkframe ["Date"; "Age_Days"]
                 [[Timestamp (Calendar.mkdate 2024 1 15);
                   Num (Number.of_Z 14)]])
              eq_refl eq_refl Hmiss))
              "data-table.data" 1 0
              [[("Date", JStr "2024-01-15"); ("Age_Days", JNum (Number.of_Z 14))]]
              None None None world_one_record (or_intror eq_refl) eq_refl)
    as [k Hk].
  rewrite Hk. vm_compute in Hk. injection Hk as ->. reflexivity.
Defined.

(** ** Adding, deleting and starting again *)

(** X10: an add event on a store of records, then a start of the program.
    The add leaves the store of the same records followed by the new one
    and uploads its CSV.  When the new date lies within the bounds of
    datetime64[ns], what the start loads from the container afterwards is
    that very store.  When it lies beyond them, the add still reports
    success, and the start loads the empty frame of the three columns: the
    records written are not read again. *)
Theorem add_then_restart_loads_the_store :
  forall (who_data : who_table) (ps : list (string * list value))
         (prop_id : string) (ac sc : Z) (td : list record)
         (dob date : string) (weight : Number.t) (st : world)
         (d1 d2 : Calendar.date) (rows : list GrowthRecord),
    percentiles who_data = Ok ps ->
    trigger_of prop_id = "add-button" ->
    Calendar.strptime dob = Ok d1 ->
    Calendar.strptime date = Ok d2 ->
    df st = store_of rows ->
    Forall (fun g => storable g = true) rows ->
    Number.short weight = true ->
    let run := update_data_and_chart ps (days who_data) prop_id ac sc td
                 (Some dob) (Some date) (Some weight) st in
    let st' := snd run in
    (exists fig, fst run = Ok ("Record added successfully!", fig,
                               pd.to_dict_records (df st')))
    /\ df st'
       = store_of (rows ++ [mkrecord d2 (Calendar.sub_days d2 d1) weight])
    /\ download_blob baby_growth_blob (container st')
       = Ok (pd.to_csv (df st'))
    /\ (pd.in_bounds d2 = true -> load_df (container st') = df st')
    /\ (pd.in_bounds d2 = false ->
        load_df (container st')
        = pd.mkframe ["Date"; "Age_Days"; "Weight_kg"] []).
Proof.
  intros who_data ps prop_id ac sc td dob date weight st d1 d2 rows
         Hps Ht H1 H2 Hdf Hs _ run st'.
  destruct (storable_valid rows Hs) as [Hv Hb].
  assert (Hg : add_guard (trigger_of prop_id) (Some dob) (Some date)
                 (Some weight) = Some (dob, date, weight)).
  { apply add_guard_Some. repeat split; try assumption.
    - eapply strptime_nonempty; eassumption.
    - eapply strptime_nonempty; eassumption. }
  destruct (add_branch who_data ps prop_id ac sc td (Some dob) (Some date)
              (Some weight) st dob date weight d1 d2 Hps Hg H1 H2)
    as (fig & Hrun & _ & _ & _ & Hschema).
  set (g := mkrecord d2 (Calendar.sub_days d2 d1) weight).
  specialize (Hschema ltac:(rewrite Hdf; apply store_of_ready)
                      ltac:(rewrite Hdf; apply store_of_ready)).
  match type of Hschema with
  | ?l = _ => assert (Hd' : l = store_of (rows ++ [g]))
  end.
  { rewrite Hschema, Hdf. exact (store_of_app rows g). }
  unfold st', run. rewrite Hrun. cbn [fst snd df container]. rewrite Hd'.
  assert (Hv' : Forall (fun g => Calendar.valid (rec_date g) = true)
                  (rows ++ [g])).
  { apply Forall_app. split; [exact Hv|]. constructor; [|constructor].
    exact (strptime_valid _ _ H2). }
  pose proof (load_written_store (rows ++ [g]) (container st) Hv') as Hl.
  unfold write_csv_to_blob in Hl.
  rewrite forallb_app, Hb in Hl. cbn [forallb andb rec_date g] in Hl.
  rewrite andb_true_r in Hl.
  split; [exists fig; now rewrite <- Hd'|].
  split; [reflexivity|]. split.
  { unfold download_blob. cbn [dict_get]. now rewrite String.eqb_refl. }
  split; intros Hin; rewrite Hin in Hl; exact Hl.
Qed.

Lemma add_then_restart_loads_the_store_witness :
  load_df (container world_two_records)
  = store_of [mkrecord (Calendar.mkdate 2024 1 15) 14 kg_4_2;
              mkrecord (Calendar.mkdate 2024 2 1) 31 kg_4_5]
  /\ df world_year_2300
     = store_of [mkrecord (Calendar.mkdate 2024 1 15) 14 kg_4_2;
                 mkrecord (Calendar.mkdate 2300 1 1) 100807 kg_4_5]
  /\ load_df (container world_year_2300)
     = pd.mkframe ["Date"; "Age_Days"; "Weight_kg"] [].
Proof.
  destruct (add_then_restart_loads_the_store who_example curves_example
              "add-button.n_clicks" 2 0 [] "2024-01-01" "2024-02-01" kg_4_5
              world_one_record (Calendar.mkdate 2024 1 1)
              (Calendar.mkdate 2024 2 1)
              [mkrecord (Calendar.mkdate 2024 1 15) 14 kg_4_2]
              eq_refl eq_refl eq_refl eq_refl eq_refl
              ltac:(repeat constructor) eq_refl)
    as (_ & Hdf & _ & Hload & _).
  destruct (add_then_restart_loads_the_store who_example curves_example
              "add-button.n_clicks" 2 0 [] "2024-01-01" "2300-01-01" kg_4_5
              world_one_record (Calendar.mkdate 2024 1 1)
              (Calendar.mkdate 2300 1 1)
              [mkrecord (Calendar.mkdate 2024 1 15) 14 kg_4_2]
              eq_refl eq_refl eq_refl eq_refl eq_refl
              ltac:(repeat constructor) eq_refl)
    as (_ & Hdf' & _ & _ & Hload').
  fold world_two_records in Hdf, Hload.
  fold world_year_2300 in Hdf', Hload'.
  split; [rewrite (Hload eq_refl), Hdf; reflexivity|].
  split; [exact Hdf' | exact (Hload' eq_refl)].
Defined.

Lemma without_nth {A} (above below : list A) (a : A) :
  (firstn (length above) (above ++ a :: below)
   ++ skipn (S (length above)) (above ++ a :: below))%list
  = (above ++ below)%list.
Proof.
  induction above as [|b above IH]; [reflexivity|].
  cbn [length List.app firstn]. f_equal. exact IH.
Qed.

(** X11: deleting a row in the table: when the store holds records with
    dates within the bounds of datetime64[ns] and the table sends back the
    rows it was given without one of them, at least one being left, the
    save goes through, the store holds the records that are left, in their
    order, one fewer than before, the blob holds their CSV, and a start of
    the program loads them. *)
Theorem deleting_a_row_removes_that_record :
  forall (who_data : who_table) (ps : list (string * list value))
         (prop_id : string) (ac sc : Z) (dob date : option string)
         (weight : option Number.t) (st : world)
         (above below : list GrowthRecord) (g : GrowthRecord),
    percentiles who_data = Ok ps ->
    trigger_of prop_id = "save-button" \/ trigger_of prop_id = "data-table" ->
    df st = store_of (above ++ g :: below) ->
    Forall (fun g => storable g = true) (above ++ g :: below) ->
    (above ++ below)%list <> [] ->
    let i := length above in
    let table_data := (firstn i (shown (df st))
                       ++ skipn (S i) (shown (df st)))%list in
    let run := update_data_and_chart ps (days who_data) prop_id ac sc
                 table_data dob date weight st in
    (exists fig,
       fst run = Ok ("Changes saved successfully!", fig,
                     pd.to_dict_records (store_of (above ++ below))))
    /\ df (snd run) = store_of (above ++ below)
    /\ S (length (pd.values (df (snd run)))) = length (pd.values (df st))
    /\ download_blob baby_growth_blob (container (snd run))
       = Ok (pd.to_csv (store_of (above ++ below)))
    /\ load_df (container (snd run)) = store_of (above ++ below).
Proof.
  intros who_data ps prop_id ac sc dob date weight st above below g
         Hps Ht Hdf Hs Hne i table_data run.
  assert (Hs' : Forall (fun g => storable g = true) (above ++ below)).
  { apply Forall_app in Hs. destruct Hs as [Ha Hb]. apply Forall_app.
    split; [exact Ha | now inversion Hb]. }
  destruct (storable_valid _ Hs') as [Hv' Hb'].
  assert (Htd : table_data = map (table_record "T00:00:00") (above ++ below)).
  { unfold table_data, i. rewrite Hdf, shown_store_of.
    rewrite firstn_map, skipn_map, <- map_app. f_equal.
    apply without_nth. }
  assert (E : run
              = (rbind (update_chart ps (days who_data)
                          (store_of (above ++ below)))
                   (fun fig => Ok ("Changes saved successfully!", fig,
                                   pd.to_dict_records
                                     (store_of (above ++ below)))),
                 mkworld (store_of (above ++ below))
                   (write_csv_to_blob (store_of (above ++ below))
                      baby_growth_blob (container st)))).
  { unfold run. rewrite Htd.
    change "T00:00:00" with (pd.time_text pd.DateT).
    rewrite (save_schema_rows ps (days who_data) prop_id ac sc dob date
               weight st pd.DateT (above ++ below) Ht Hne Hv').
    now rewrite Hb'. }
  rewrite E. cbn [fst snd df container].
  split.
  { destruct (percentiles_inv _ _ Hps) as (p5 & p10 & p50 & p90 & p95 & -> & _).
    assert (He : pd.empty (store_of (above ++ below)) = false).
    { unfold pd.empty, store_of. cbn [pd.columns pd.values length Nat.eqb orb].
      rewrite length_map. destruct (above ++ below)%list; [congruence|].
      reflexivity. }
    destruct (update_chart_nonempty (days who_data) p5 p10 p50 p90 p95
                (store_of (above ++ below)) _ _ He eq_refl eq_refl)
      as [lay ->].
    cbn [rbind]. eauto. }
  split; [reflexivity|]. split.
  { rewrite Hdf. unfold store_of. cbn [pd.values].
    rewrite !length_map, !length_app. cbn [length]. lia. }
  split.
  { unfold write_csv_to_blob, download_blob. cbn [dict_get].
    now rewrite String.eqb_refl. }
  rewrite (load_written_store _ _ Hv'). now rewrite Hb'.
Qed.

Lemma deleting_a_row_removes_that_record_witness :
  let run := update_data_and_chart curves_example (days who_example)
               "data-table.data" 2 0
               (skipn 1 (shown (df world_two_records)))
               None None None world_two_records in
  df (snd run) = store_of [mkrecord (Calendar.mkdate 2024 2 1) 31 kg_4_5]
  /\ download_blob baby_growth_blob (container (snd run))
     = Ok ("Date,Age_Days,Weight_kg" ++ pd.newline
           ++ "2024-02-01,31,4.5" ++ pd.newline).
Proof.
  destruct (deleting_a_row_removes_that_record who_example curves_example
              "data-table.data" 2 0 None None None world_two_records
              [] [mkrecord (Calendar.mkdate 2024 2 1) 31 kg_4_5]
              (mkrecord (Calendar.mkdate 2024 1 15) 14 kg_4_2)
              eq_refl (or_intror eq_refl) eq_refl
              ltac:(repeat constructor) ltac:(discriminate))
    as (_ & Hdf & _ & Hblob & _).
  split; [exact Hdf | exact Hblob].
Defined.

(** X15: a store of at least one record, every date within the bounds
    of datetime64[ns], that is sent the rows the table was given: the save
    or table event returns "Changes saved successfully!" with the same
    rows, [df] is the frame it was, the blob holds its CSV, and a start of
    the program loads that frame. *)
Theorem own_rows_within_bounds_change_nothing :
  forall (who_data : who_table) (ps : list (string * list value))
         (prop_id : string) (ac sc : Z) (dob date : option string)
         (weight : option Number.t) (st : world) (rows : list GrowthRecord),
    percentiles who_data = Ok ps ->
    trigger_of prop_id = "save-button" \/ trigger_of prop_id = "data-table" ->
    rows <> [] ->
    Forall (fun g => storable g = true) rows ->
    df st = store_of rows ->
    let run := update_data_and_chart ps (days who_data) prop_id ac sc
                 (shown (df st)) dob date weight st in
    (exists fig,
       fst run = Ok ("Changes saved successfully!", fig,
                     pd.to_dict_records (df st)))
    /\ df (snd run) = df st
    /\ shown (df (snd run)) = shown (df st)
    /\ download_blob baby_growth_blob (container (snd run))
       = Ok (pd.to_csv (df st))
    /\ load_df (container (snd run)) = df st.
Proof.
  intros who_data ps prop_id ac sc dob date weight st rows
         Hps Ht Hne Hs Hdf run.
  destruct (storable_valid rows Hs) as [Hv Hb].
  assert (E : run
              = (rbind (update_chart ps (days who_data) (store_of rows))
                   (fun fig => Ok ("Changes saved successfully!", fig,
                                   pd.to_dict_records (store_of rows))),
                 mkworld (store_of rows)
                   (write_csv_to_blob (store_of rows) baby_growth_blob
                      (container st)))).
  { unfold run.
    rewrite (own_rows_of_store ps (days who_data) prop_id ac sc dob date
               weight st rows Ht Hne Hv Hdf).
    now rewrite Hb. }
  rewrite E, Hdf. cbn [fst snd df container].
  split.
  { destruct (percentiles_inv _ _ Hps) as (p5 & p10 & p50 & p90 & p95 & -> & _).
    assert (He : pd.empty (store_of rows) = false).
    { unfold pd.empty, store_of. cbn [pd.columns pd.values length Nat.eqb orb].
      rewrite length_map. destruct rows; [congruence | reflexivity]. }
    destruct (update_chart_nonempty (days who_data) p5 p10 p50 p90 p95
                (store_of rows) _ _ He eq_refl eq_refl)
      as [lay ->].
    cbn [rbind]. eauto. }
  split; [reflexivity|]. split; [reflexivity|]. split.
  { unfold write_csv_to_blob, download_blob. cbn [dict_get].
    now rewrite String.eqb_refl. }
  rewrite (load_written_store _ _ Hv). now rewrite Hb.
Qed.

Lemma own_rows_within_bounds_change_nothing_witness :
  let run := update_data_and_chart curves_example (days who_example)
               "save-button.n_clicks" 2 1 (shown (df world_two_records))
               None None None world_two_records in
  df (snd run) = df world_two_records
  /\ download_blob baby_growth_blob (container (snd run))
     = Ok ("Date,Age_Days,Weight_kg" ++ pd.newline
           ++ "2024-01-15,14,4.2" ++ pd.newline
           ++ "2024-02-01,31,4.5" ++ pd.newline).
Proof.
  destruct (own_rows_within_bounds_change_nothing who_example curves_example
              "save-button.n_clicks" 2 1 None None None world_two_records
              [mkrecord (Calendar.mkdate 2024 1 15) 14 kg_4_2;
               mkrecord (Calendar.mkdate 2024 2 1) 31 kg_4_5]
              eq_refl (or_introl eq_refl) ltac:(discriminate)
              ltac:(repeat constructor) eq_refl)
    as (_ & Hdf & _ & Hblob & _).
  split; [exact Hdf | exact Hblob].
Defined.

(** ** strptime reads the dates the pickers send *)

Lemma re_m_pad2 {T} (m : Z) (r : string) (k : Z -> string -> option T) (v : T) :
  1 <= m <= 12 ->
  k m r = Some v ->
  Calendar.re_m (Calendar.pad2 m ++ r) k = Some v.
Proof.
  intros Hm Hk.
  destruct m as [|p|p]; try lia.
  do 4 (try (destruct p as [p|p|])); try lia;
    cbv - [Z.add Z.mul]; cbn; now rewrite Hk.
Qed.

Lemma re_d_pad2 {T} (d : Z) (r : string) (k : Z -> string -> option T) (v : T) :
  1 <= d <= 31 ->
  k d r = Some v ->
  Calendar.re_d (Calendar.pad2 d ++ r) k = Some v.
Proof.
  intros Hd Hk.
  destruct d as [|p|p]; try lia.
  do 5 (try (destruct p as [p|p|])); try lia;
    cbv - [Z.add Z.mul]; cbn; now rewrite Hk.
Qed.

(** X12: the text a date picker sends for a day of the calendar, its ISO
    form YYYY-MM-DD, is read by strptime as that day, and strptime gives
    no date that is not a day of the calendar (years 1 to 9999): the 30th
    of February and the 29th of February of a common year are refused. *)
Theorem strptime_reads_iso_dates :
  forall d : Calendar.date,
    Calendar.valid d = true ->
    Calendar.strptime (Calendar.isoformat d) = Ok d
    /\ (forall s d', Calendar.strptime s = Ok d' ->
          Calendar.valid d' = true
          /\ Calendar.strptime (Calendar.isoformat d') = Ok d').
Proof.
  assert (Hiso : forall d, Calendar.valid d = true ->
                           Calendar.strptime (Calendar.isoformat d) = Ok d).
  { intros [y m dd] Hv.
    destruct (valid_bounds _ Hv) as (Hy & Hm & Hd).
    cbn [Calendar.year Calendar.month Calendar.day] in Hy, Hm, Hd.
    unfold Calendar.strptime, Calendar.re_Ymd, Calendar.isoformat.
    cbn [Calendar.year Calendar.month Calendar.day].
    rewrite re_Y_pad4 by lia.
    cbn [append Calendar.re_lit]. rewrite Ascii.eqb_refl.
    assert (Hday : Calendar.re_d (Calendar.pad2 dd ++ "")
                     (fun d0 r => Some (y, m, d0, r)) = Some (y, m, dd, "")).
    { now apply re_d_pad2. }
    rewrite (re_m_pad2 m _ _ (y, m, dd, "") Hm).
    - now rewrite Hv.
    - cbn [append Calendar.re_lit]. rewrite Ascii.eqb_refl.
      rewrite append_nil_r in Hday. exact Hday. }
  intros d Hv. split; [now apply Hiso|].
  intros s d' Hs. pose proof (strptime_valid _ _ Hs) as Hv'.
  split; [exact Hv' | now apply Hiso].
Qed.

Lemma strptime_reads_iso_dates_witness :
  Calendar.strptime "2024-02-29" = Ok (Calendar.mkdate 2024 2 29)
  /\ Calendar.strptime "2023-02-29"
     = Raise (ValueError "day is out of range for month").
Proof.
  split; [|reflexivity].
  exact (proj1 (strptime_reads_iso_dates (Calendar.mkdate 2024 2 29) eq_refl)).
Defined.

(** ** The start of the program *)

Example start_ex :
  option_map (fun s => (start_days s, start_percentiles s))
    match start [(who_data_blob, who_csv who_rows_example)] with
    | Ok s => s
    | Raise _ => None
    end
  = Some ([Num (Number.of_Z 0); Num (Number.of_Z 7); Num (Number.of_Z 14)],
          curves (map (fun r => Num (row_p5 r)) who_rows_example)
            (map (fun r => Num (row_p10 r)) who_rows_example)
            (map (fun r => Num (row_p50 r)) who_rows_example)
            (map (fun r => Num (row_p90 r)) who_rows_example)
            (map (fun r => Num (row_p95 r)) who_rows_example)).
Proof. vm_compute. reflexivity. Qed.

(** *** The fields of the reference CSV *)

Lemma str_replace_app (pat : ascii) (repl a b : string) :
  str_replace pat repl (a ++ b)
  = (str_replace pat repl a ++ str_replace pat repl b)%string.
Proof.
  induction a as [|c a IH]; cbn [append str_replace]; [reflexivity|].
  rewrite IH. destruct (Ascii.eqb c pat); [|reflexivity].
  now rewrite append_assoc.
Qed.

Lemma str_replace_absent (pat : ascii) (repl s : string) :
  all_chars (fun c => negb (Ascii.eqb c pat)) s = true ->
  str_replace pat repl s = s.
Proof.
  induction s as [|c s IH]; cbn [all_chars str_replace]; [reflexivity|].
  rewrite andb_true_iff, negb_true_iff. intros [Hc Hs].
  now rewrite Hc, (IH Hs).
Qed.

Lemma digits_of_fraction (f : Number.fraction) :
  all_chars is_digit (Number.string_of_fraction f) = true.
Proof.
  induction f as [d|d f IH]; cbn [Number.string_of_fraction all_chars].
  - destruct d; reflexivity.
  - rewrite IH, andb_true_r. destruct d as [|d]; [reflexivity|].
    destruct d; reflexivity.
Qed.

(** The text of a number with a fraction, the point turned into a comma:
    sign, digits, comma, digits. *)
Lemma comma_decimal_shape (n : Number.t) (f : Number.fraction) :
  Number.frac n = Some f ->
  comma_decimal n
  = ((if Number.neg n then "-" else "")
     ++ NilZero.string_of_uint (N.to_uint (Number.int_part n))
     ++ "," ++ Number.string_of_fraction f)%string.
Proof.
  intros Hf. unfold comma_decimal, Number.to_string. rewrite Hf.
  rewrite !str_replace_app.
  rewrite (str_replace_absent "." "," (NilZero.string_of_uint _))
    by (apply digits_no_sep; [reflexivity | apply digits_of_N]).
  rewrite (str_replace_absent "." "," (Number.string_of_fraction f))
    by (apply digits_no_sep; [reflexivity | apply digits_of_fraction]).
  destruct (Number.neg n); reflexivity.
Qed.

(** Digits, a comma, digits is no number for read_csv. *)
Lemma unsigned_with_comma (ng : bool) (a b : string) :
  all_chars is_digit a = true ->
  all_chars is_digit b = true ->
  Number.unsigned_of_string ng (a ++ String "," b) = None.
Proof.
  intros Ha Hb. unfold Number.unsigned_of_string.
  rewrite cut_absent.
  - destruct (NilZero.uint_of_string (a ++ String "," b)) as [u|] eqn:E;
      [|reflexivity].
    exfalso. unfold NilZero.uint_of_string in E.
    destruct (a ++ String "," b)%string as [|c r] eqn:Es; [discriminate|].
    apply uint_of_string_digits in E. rewrite <- Es in E.
    rewrite all_chars_app in E. cbn [all_chars] in E.
    rewrite Ha in E. discriminate.
  - rewrite all_chars_app. cbn [all_chars].
    rewrite (digits_no_sep "." a eq_refl Ha), (digits_no_sep "." b eq_refl Hb).
    reflexivity.
Qed.

Lemma comma_decimal_not_numeric (n : Number.t) :
  has_fraction n = true -> pd.is_numeric (comma_decimal n) = false.
Proof.
  unfold has_fraction. destruct (Number.frac n) as [f|] eqn:Hf;
    [intros _ | discriminate].
  unfold pd.is_numeric. rewrite (comma_decimal_shape n f Hf).
  pose proof (digits_of_N (Number.int_part n)) as Hd.
  pose proof (digits_of_fraction f) as Hfr.
  set (D := NilZero.string_of_uint (N.to_uint (Number.int_part n))) in *.
  set (F := Number.string_of_fraction f) in *.
  change ("," ++ F)%string with (String "," F).
  destruct (Number.neg n).
  - change ("-" ++ D ++ String "," F)%string
      with (String "-" (D ++ String "," F)).
    cbn [Number.of_string].
    now rewrite (unsigned_with_comma true D F Hd Hfr).
  - change ("" ++ D ++ String "," F)%string with (D ++ String "," F)%string.
    pose proof (unsigned_with_comma false D F Hd Hfr) as Hu.
    destruct D as [|c r].
    + cbn [append] in Hu |- *.
      change (Number.of_string (String "," F))
        with (Number.unsigned_of_string false (String "," F)).
      now rewrite Hu.
    + cbn [all_chars] in Hd. apply andb_true_iff in Hd as [Hc Hr].
      cbn [append] in Hu |- *. now rewrite (of_string_digit c _ Hc), Hu.
Qed.

Lemma comma_decimal_chars (n : Number.t) :
  all_chars (fun c => plain_char c || Ascii.eqb c ",") (comma_decimal n) = true.
Proof.
  unfold comma_decimal. pose proof (plain_to_string n) as H.
  induction (Number.to_string n) as [|c s IH]; [reflexivity|].
  cbn [all_chars] in H. apply andb_true_iff in H as [Hc Hs].
  cbn [str_replace]. destruct (Ascii.eqb c ".").
  - cbn [append all_chars]. now rewrite (IH Hs).
  - cbn [all_chars]. now rewrite Hc, (IH Hs).
Qed.

Lemma comma_decimal_nonempty (n : Number.t) : comma_decimal n <> "".
Proof.
  unfold comma_decimal. pose proof (to_string_nonempty n) as H.
  destruct (Number.to_string n) as [|c s]; [congruence|].
  cbn [str_replace]. destruct (Ascii.eqb c "."); discriminate.
Qed.

Lemma comma_text_not_na (s : string) :
  all_chars (fun c => plain_char c || Ascii.eqb c ",") s = true ->
  s <> "" -> pd.is_na s = false.
Proof.
  intros Hp Hne. unfold pd.is_na, pd.na_values. cbn [existsb].
  repeat match goal with
         | |- context [String.eqb s ?t] =>
             destruct (String.eqb_spec s t) as [->|_];
             [first [congruence | discriminate] |]
         end.
  reflexivity.
Qed.

Lemma read_comma_decimal (n : Number.t) :
  pd.read_field false (comma_decimal n) = Str (comma_decimal n).
Proof.
  unfold pd.read_field.
  now rewrite (comma_text_not_na _ (comma_decimal_chars n)
                 (comma_decimal_nonempty n)).
Qed.

Lemma who_field_chars (r : who_row) :
  Forall (fun s => all_chars (fun c => plain_char c || Ascii.eqb c ",") s = true)
    (who_fields r).
Proof.
  unfold who_fields. repeat constructor; try apply comma_decimal_chars.
  eapply all_chars_impl; [|apply plain_to_string].
  intros c Hc. now rewrite Hc.
Qed.

(** *** The lines of the reference CSV *)

Lemma who_line_chars (r : who_row) :
  all_chars (fun c => plain_char c || Ascii.eqb c "," || Ascii.eqb c ";")
    (pd.join ";" (who_fields r)) = true.
Proof.
  apply join_chars; [reflexivity|].
  eapply Forall_impl; [|apply who_field_chars].
  intros s. apply all_chars_impl. intros c Hc. now rewrite Hc.
Qed.

Lemma who_line_one_line (r : who_row) :
  all_chars (fun c => negb (Ascii.eqb c (ascii_of_nat 10)))
    (pd.join ";" (who_fields r)) = true.
Proof.
  eapply all_chars_impl; [|apply who_line_chars].
  intros c Hc. destruct (Ascii.eqb_spec c (ascii_of_nat 10)) as [->|];
    [discriminate | reflexivity].
Qed.

Lemma who_line_nonempty (r : who_row) :
  negb (String.eqb (pd.join ";" (who_fields r)) "") = true.
Proof.
  unfold who_fields, pd.join. cbn [String.concat].
  destruct (Number.to_string (Number.of_Z (row_week r))); reflexivity.
Qed.

Lemma split_who_line (r : who_row) :
  pd.split ";" (pd.join ";" (who_fields r)) = who_fields r.
Proof.
  apply (split_join ";"); [discriminate|].
  eapply Forall_impl; [|apply who_field_chars].
  intros s. apply all_chars_impl. intros c Hc.
  destruct (Ascii.eqb_spec c ";") as [->|]; [discriminate | reflexivity].
Qed.

Lemma comma_decimal_whole (n : Number.t) :
  has_fraction n = false -> comma_decimal n = Number.to_string n.
Proof.
  unfold has_fraction, comma_decimal, Number.to_string.
  destruct (Number.frac n); [discriminate | intros _].
  rewrite !str_replace_app.
  rewrite (str_replace_absent "." "," (NilZero.string_of_uint _))
    by (apply digits_no_sep; [reflexivity | apply digits_of_N]).
  destruct (Number.neg n); reflexivity.
Qed.

(** A field of a percentile column counts as a number exactly when it is
    written without a comma. *)
Lemma comma_field_numeric (n : Number.t) :
  pd.is_na (comma_decimal n) || pd.is_numeric (comma_decimal n)
  = negb (has_fraction n).
Proof.
  destruct (has_fraction n) eqn:H; cbn [negb].
  - now rewrite (comma_text_not_na _ (comma_decimal_chars n)
                   (comma_decimal_nonempty n)),
                (comma_decimal_not_numeric n H).
  - rewrite (comma_decimal_whole n H). apply number_field_numeric.
Qed.

Lemma comma_column_numeric (p : who_row -> Number.t) (rows : list who_row) :
  forallb (fun r => pd.is_na (comma_decimal (p r))
                    || pd.is_numeric (comma_decimal (p r))) rows
  = negb (existsb (fun r => has_fraction (p r)) rows).
Proof.
  induction rows as [|r rows IH]; cbn [forallb existsb]; [reflexivity|].
  now rewrite comma_field_numeric, IH, negb_orb.
Qed.

Lemma read_who_cell (p : who_row -> Number.t) (rows : list who_row)
  (r : who_row) :
  In r rows ->
  pd.read_field (negb (existsb (fun r => has_fraction (p r)) rows))
    (comma_decimal (p r))
  = who_cell (existsb (fun r => has_fraction (p r)) rows) (p r).
Proof.
  intros Hin.
  destruct (existsb (fun r => has_fraction (p r)) rows) eqn:E;
    cbn [negb who_cell].
  - apply read_comma_decimal.
  - assert (H : has_fraction (p r) = false).
    { apply not_true_iff_false. intros H.
      now rewrite (existsb_In (fun r => has_fraction (p r)) rows r Hin H)
        in E. }
    rewrite (comma_decimal_whole _ H). apply read_number_field.
Qed.

(** What read_csv makes of a reference CSV: the weeks are numbers, a
    percentile column is text when a row writes it with a comma and
    numbers otherwise. *)
Lemma read_who_csv (rows : list who_row) :
  pd.read_csv (who_csv rows) ";" = Ok (who_frame rows).
Proof.
  destruct rows as [|r0 rest]; [reflexivity|].
  set (rows := r0 :: rest). unfold who_csv, pd.read_csv.
  rewrite split_lines.
  2:{ constructor; [reflexivity|]. apply Forall_map, Forall_forall.
      intros r _. apply who_line_one_line. }
  rewrite filter_all_app_blank.
  2:{ constructor; [reflexivity|]. apply Forall_map, Forall_forall.
      intros r _. apply who_line_nonempty. }
  cbv beta iota zeta.
  change (pd.split ";" who_header) with who_labels.
  cbn [length who_labels]. rewrite !map_map.
  assert (Hraw : map (fun r => pd.split ";" (pd.join ";" (who_fields r))) rows
                 = map who_fields rows).
  { apply map_ext. intros r. apply split_who_line. }
  rewrite Hraw. clear Hraw.
  assert (Hlen : existsb (fun r : list string => Nat.ltb 6 (length r))
                   (map who_fields rows) = false).
  { apply not_true_iff_false. intros H.
    apply existsb_exists in H as (r & Hr & Hlt).
    apply in_map_iff in Hr as (g & <- & _). discriminate. }
  rewrite Hlen. unfold who_frame. f_equal. f_equal. cbn [seq map combine].
  rewrite !forallb_map. unfold who_fields. cbn [nth fst snd].
  assert (H0 : forallb (fun r => pd.is_na (Number.to_string
                                             (Number.of_Z (row_week r)))
                                 || pd.is_numeric (Number.to_string
                                                     (Number.of_Z (row_week r))))
                 rows = true).
  { apply forallb_forall. intros r _. apply number_field_numeric. }
  rewrite H0, !comma_column_numeric.
  apply map_ext_in. intros r Hin.
  pose proof (split_who_line r) as Hs. unfold who_fields in Hs.
  cbn [map nth fst snd]. rewrite Hs. cbn [nth].
  rewrite read_number_field, !read_who_cell by exact Hin.
  reflexivity.
Qed.

(** *** The curves and the age axis of the frame read *)





(** A percentile column of text gives its numbers; a column of numbers
    has no .str accessor. *)
Lemma percentile_of_who_column (p : who_row -> Number.t)
  (rows : list who_row) :
  percentile_of (column_of (map (fun r => who_cell (reads_as_text p rows) (p r))
                              rows))
  = if reads_as_text p rows then Ok (map (fun r => Num (p r)) rows)
    else Raise str_accessor_error.
Proof.
  destruct rows as [|r0 rest]; [reflexivity|].
  set (rows := r0 :: rest).
  destruct (reads_as_text p rows); unfold rows.
  - cbn [map column_of forallb who_cell is_number_cell andb].
    unfold percentile_of. cbn [col_str_replace rbind]. f_equal.
    unfold to_numeric_coerce. cbn [map]. rewrite !map_map.
    f_equal; [apply to_numeric_comma_decimal|].
    apply map_ext. intros r. apply to_numeric_comma_decimal.
  - cbn [map column_of who_cell].
    assert (H : forallb is_number_cell
                  (Num (p r0) :: map (fun r => Num (p r)) rest) = true).
    { cbn [forallb is_number_cell andb]. rewrite forallb_map.
      now apply forallb_forall. }
    now rewrite H.
Qed.

Ltac who_column p :=
  unfold frame_percentile, pd.getitem, who_frame;
  cbn [pd.columns pd.values];
  match goal with
  | |- context [get_loc ?l who_labels] =>
      let v := eval vm_compute in (get_loc l who_labels) in
      change (get_loc l who_labels) with v
  end;
  cbn [rbind]; rewrite map_map; cbn [nth];
  apply (percentile_of_who_column p).

Lemma who_frame_percentiles (rows : list who_row) :
  frame_percentiles (who_frame rows)
  = if forallb (fun p => reads_as_text p rows) who_columns
    then Ok (curves (map (fun r => Num (row_p5 r)) rows)
               (map (fun r => Num (row_p10 r)) rows)
               (map (fun r => Num (row_p50 r)) rows)
               (map (fun r => Num (row_p90 r)) rows)
               (map (fun r => Num (row_p95 r)) rows))
    else Raise str_accessor_error.
Proof.
  assert (H5 : frame_percentile (who_frame rows) "P5"
               = if reads_as_text row_p5 rows
                 then Ok (map (fun r => Num (row_p5 r)) rows)
                 else Raise str_accessor_error) by who_column row_p5.
  assert (H10 : frame_percentile (who_frame rows) "P10"
                = if reads_as_text row_p10 rows
                  then Ok (map (fun r => Num (row_p10 r)) rows)
                  else Raise str_accessor_error) by who_column row_p10.
  assert (H50 : frame_percentile (who_frame rows) "P50"
                = if reads_as_text row_p50 rows
                  then Ok (map (fun r => Num (row_p50 r)) rows)
                  else Raise str_accessor_error) by who_column row_p50.
  assert (H90 : frame_percentile (who_frame rows) "P90"
                = if reads_as_text row_p90 rows
                  then Ok (map (fun r => Num (row_p90 r)) rows)
                  else Raise str_accessor_error) by who_column row_p90.
  assert (H95 : frame_percentile (who_frame rows) "P95"
                = if reads_as_text row_p95 rows
                  then Ok (map (fun r => Num (row_p95 r)) rows)
                  else Raise str_accessor_error) by who_column row_p95.
  unfold frame_percentiles. rewrite H5, H10, H50, H90, H95.
  unfold who_columns. cbn [forallb].
  destruct (reads_as_text row_p5 rows); [|reflexivity].
  destruct (reads_as_text row_p10 rows); [|reflexivity].
  destruct (reads_as_text row_p50 rows); [|reflexivity].
  destruct (reads_as_text row_p90 rows); [|reflexivity].
  destruct (reads_as_text row_p95 rows); reflexivity.
Qed.

(** The start on a container whose reference blob holds a reference CSV:
    the curves and the age axis when every percentile column is read as
    text, the error of the .str accessor otherwise. *)
Lemma start_on_who_csv (c : container_client) (rows : list who_row) :
  dict_get who_data_blob c = Some (who_csv rows) ->
  start c
  = if forallb (fun p => reads_as_text p rows) who_columns
    then rbind (frame_days (who_frame rows)) (fun days =>
           Ok (option_map
                 (mkstarted (mkworld (load_df c) c)
                    (curves (map (fun r => Num (row_p5 r)) rows)
                       (map (fun r => Num (row_p10 r)) rows)
                       (map (fun r => Num (row_p50 r)) rows)
                       (map (fun r => Num (row_p90 r)) rows)
                       (map (fun r => Num (row_p95 r)) rows))) days))
    else Raise str_accessor_error.
Proof.
  intros Hc. unfold start, read_csv_from_blob, download_blob.
  rewrite Hc. cbn [rbind]. rewrite read_who_csv. cbn [rbind].
  rewrite who_frame_percentiles.
  destruct (forallb (fun p => reads_as_text p rows) who_columns);
    reflexivity.
Qed.



(** X14: when the reference blob holds such a table with at least one row
    and one of the five percentile columns is written throughout in whole
    numbers of at most fifteen digits, the start of the program raises the
    AttributeError of the .str accessor: read_csv reads that column as
    numbers.  No [percentiles] and no [days] exist then, whatever the other
    columns and the growth blob hold. *)
Theorem start_raises_on_whole_number_column (c : container_client)
  (rows : list who_row) (p : who_row -> Number.t) :
  dict_get who_data_blob c = Some (who_csv rows) ->
  rows <> [] ->
  In p who_columns ->
  (forall r, In r rows ->
     Number.frac (p r) = None /\ Number.short (p r) = true) ->
  start c = Raise str_accessor_error.
Proof.
  intros Hc Hne Hp Hwhole. rewrite (start_on_who_csv c rows Hc).
  assert (H : forallb (fun p => reads_as_text p rows) who_columns = false).
  { apply not_true_iff_false. intros H.
    rewrite forallb_forall in H. specialize (H p Hp).
    unfold reads_as_text in H. destruct rows as [|r0 rest]; [now elim Hne|].
    apply existsb_exists in H as (r & Hr & Hf).
    unfold has_fraction in Hf. now rewrite (proj1 (Hwhole r Hr)) in Hf. }
  now rewrite H.
Qed.

Lemma start_raises_on_whole_number_column_witness :
  start [(baby_growth_blob, pd.to_csv (df world_one_record));
         (who_data_blob, who_csv who_rows_whole_p50)]
  = Raise str_accessor_error.
Proof.
  apply (start_raises_on_whole_number_column
           [(baby_growth_blob, pd.to_csv (df world_one_record));
            (who_data_blob, who_csv who_rows_whole_p50)]
           who_rows_whole_p50 row_p50 eq_refl).
  - discriminate.
  - unfold who_columns. cbn [In]. tauto.
  - intros r Hr. cbn [who_rows_whole_p50 In] in Hr.
    destruct Hr as [<-|[<-|[]]]; split; reflexivity.
Defined.
